(** * Azaan App (azaan_app.py): time resolution and firing of the five daily prayers

    A shallow embedding of class [AzaanApp] and of [main], and a
    verification of the next-prayer resolver, the mock-mode firing tick, the
    daily refresh, the simulated clock and the command line.

    Conventions of the embedding.
    - A naive [datetime] is the number of microseconds since the start of
      the proleptic calendar; [d.date()] and [d.time()] are the quotient and
      the remainder by the length of a day.  A [time] is a number of
      microseconds since midnight and a [timedelta] a signed number of
      microseconds.  Python orders [time] objects by (hour, minute, second,
      microsecond), which is the order of these numbers.  Days are numbered
      as by [toordinal()], 0001-01-01 being day 1.  Values stay inside the
      years 1..9999, where Python's datetime arithmetic is exact; where
      [main] computes with a number of seconds given on the command line,
      the range is checked and [OverflowError] raised as Python does.
    - Strings are byte strings; the digits of a time string are ASCII.
    - A Python [dict] is an association list in insertion order.
    - Methods run in a monad that threads the interpreter state (the object,
      the scheduler's job list, the output) and may raise; state changes made
      before a raise persist, as in Python.
    - What the outside world answers (the wall clock, the HTTP supplier, the
      [afplay] subprocess, the scheduler library's own decisions) is read
      from an environment [Env].  The rule by which the [schedule] library
      decides that a daily job is due is stated apart, as a condition on the
      environments of successive turns of the main loop. *)

From Stdlib Require Import ZArith Lia Ascii String List Sorted Permutation.
From stdpp Require Import gmap strings list.

Open Scope string_scope.
Open Scope list_scope.
Open Scope Z_scope.

(* ===================================================================== *)
(** * Exceptions and results *)
(* ===================================================================== *)

(** The exception classes the program can meet.  [KeyboardInterrupt] and
    [SystemExit] derive from [BaseException] only. *)
Inductive exn : Type :=
| KeyError (key : string)
| TypeError
| ValueError
| RequestException
| CalledProcessError (returncode : Z)
| OSError
| ScheduleValueError
| OverflowError
| KeyboardInterrupt
| SystemExit (code : Z).

(** [isinstance(e, Exception)] *)
Definition is_Exception (e : exn) : bool :=
  match e with
  | KeyboardInterrupt | SystemExit _ => false
  | _ => true
  end.

Inductive result (A : Type) : Type :=
| Ok (a : A)
| Raise (e : exn).
Arguments Ok {A} a.
Arguments Raise {A} e.

(* ===================================================================== *)
(** * datetime, time, timedelta *)
(* ===================================================================== *)

Abbreviation datetime := Z (only parsing).
Abbreviation date := Z (only parsing).
Abbreviation time := Z (only parsing).
Abbreviation timedelta := Z (only parsing).

Definition US_PER_SECOND : Z := 1000000.
Definition US_PER_MINUTE : Z := 60 * US_PER_SECOND.
Definition US_PER_HOUR : Z := 60 * US_PER_MINUTE.
Definition US_PER_DAY : Z := 24 * US_PER_HOUR.

(** [d.date()] *)
Definition dt_date (d : datetime) : date := d / US_PER_DAY.
(** [d.time()] *)
Definition dt_time (d : datetime) : time := d mod US_PER_DAY.
(** [datetime.combine(day, t)] *)
Definition combine (day : date) (t : time) : datetime := day * US_PER_DAY + t.
(** [timedelta(days=n)] *)
Definition timedelta_days (n : Z) : timedelta := n * US_PER_DAY.
(** [time(hour=h, minute=m)] *)
Definition mk_time (h m : Z) : time := h * US_PER_HOUR + m * US_PER_MINUTE.
Definition time_hour (t : time) : Z := t / US_PER_HOUR.
Definition time_minute (t : time) : Z := (t / US_PER_MINUTE) mod 60.
(** [int(td.total_seconds())] for a non-negative [td] *)
Definition total_seconds (td : timedelta) : Z := td / US_PER_SECOND.

(** ** Formatting and parsing with the format ["%H:%M"] *)

Definition digit_char (n : Z) : ascii := ascii_of_nat (48 + Z.to_nat n).

(** A decimal number on two digits, zero padded. *)
Definition pad2 (n : Z) : string :=
  String (digit_char (n / 10)) (String (digit_char (n mod 10)) EmptyString).

(** [t.strftime("%H:%M")] *)
Definition time_strftime_HM (t : time) : string :=
  (pad2 (time_hour t) ++ ":" ++ pad2 (time_minute t))%string.

(** [d.strftime("%H:%M")] *)
Definition strftime_HM (d : datetime) : string := time_strftime_HM (dt_time d).

Definition char_code (c : ascii) : Z := Z.of_nat (nat_of_ascii c).

(** The character class [[lo-hi]] over ASCII digits, bounds given as digits. *)
Definition in_class (lo hi : Z) (c : ascii) : bool :=
  (48 + lo <=? char_code c) && (char_code c <=? 48 + hi).

Definition is_digit (c : ascii) : bool := in_class 0 9 c.
Definition digit_val (c : ascii) : Z := char_code c - 48.

(** The directive [%H] is the regular expression [2[0-3]|[0-1]\d|\d]: the
    ways it can match a prefix of the input, in the order the regex engine
    tries them, each with the hour read and the rest of the input. *)
Definition match_H (s : string) : list (Z * string) :=
  match s with
  | EmptyString => []
  | String a r =>
      (match r with
       | String b r' =>
           (if Ascii.eqb a "2" && in_class 0 3 b
            then [(20 + digit_val b, r')] else []) ++
           (if in_class 0 1 a && is_digit b
            then [(10 * digit_val a + digit_val b, r')] else [])
       | EmptyString => []
       end) ++
      (if is_digit a then [(digit_val a, r)] else [])
  end.

(** The literal [:] of the format. *)
Definition match_colon (s : string) : list string :=
  match s with
  | String c r => if Ascii.eqb c ":" then [r] else []
  | EmptyString => []
  end.

(** The directive [%M] is the regular expression [[0-5]\d|\d]. *)
Definition match_M (s : string) : list (Z * string) :=
  match s with
  | EmptyString => []
  | String a r =>
      (match r with
       | String b r' =>
           if in_class 0 5 a && is_digit b
           then [(10 * digit_val a + digit_val b, r')] else []
       | EmptyString => []
       end) ++
      (if is_digit a then [(digit_val a, r)] else [])
  end.

(** [re.match] of the compiled format: the first match in priority order. *)
Definition re_match_HM (s : string) : option (Z * Z * string) :=
  head (flat_map (fun '(h, r1) =>
          flat_map (fun r2 =>
            map (fun '(m, r3) => (h, m, r3)) (match_M r2))
            (match_colon r1))
          (match_H s)).

(** [datetime.strptime(s, "%H:%M").time()]: no match, or a match that
    leaves input unconverted, is a [ValueError]. *)
Definition strptime_HM (s : string) : result time :=
  match re_match_HM s with
  | None => Raise ValueError
  | Some (h, m, rest) =>
      match rest with
      | EmptyString => Ok (mk_time h m)
      | String _ _ => Raise ValueError
      end
  end.

(* ===================================================================== *)
(** * JSON values and dicts *)
(* ===================================================================== *)

(** What [response.json()] can return. *)
#[warnings="-register-all"]
Inductive json : Type :=
| JNull
| JBool (b : bool)
| JNum (n : Z)
| JStr (s : string)
| JList (l : list json)
| JDict (d : list (string * json)).

(** A [dict] with string keys, in insertion order. *)
Abbreviation dict := (list (string * json)) (only parsing).

(** [d.get(k)] *)
Fixpoint dict_get (d : dict) (k : string) : option json :=
  match d with
  | [] => None
  | (k', v) :: d' => if String.eqb k' k then Some v else dict_get d' k
  end.

(** [d[k]]: a missing key is a [KeyError]. *)
Definition dict_getitem (d : dict) (k : string) : result json :=
  match dict_get d k with
  | Some v => Ok v
  | None => Raise (KeyError k)
  end.

(** [v[k]] for a string [k]: only a dict can be subscripted by a string. *)
Definition subscript (v : json) (k : string) : result json :=
  match v with
  | JDict d => dict_getitem d k
  | _ => Raise TypeError
  end.

(** [v == s] for a [str] [s] *)
Definition json_eq_str (v : json) (s : string) : bool :=
  match v with
  | JStr s' => String.eqb s' s
  | _ => false
  end.

(** [datetime.strptime(v, "%H:%M").time()]: the argument must be a [str]. *)
Definition strptime (v : json) : result time :=
  match v with
  | JStr s => strptime_HM s
  | _ => Raise TypeError
  end.

(* ===================================================================== *)
(** * The object, the scheduler and the outside world *)
(* ===================================================================== *)

Record AzaanApp : Type := {
  location_name : string;
  method : Z;
  audio_file : string;
  prayer_times : dict;
  prayer_date : json;
  mock_time : option datetime;
  mock_start_time : option datetime;
  played_prayers : gset string
}.

(** What a job of the [schedule] library calls. *)
Inductive job_func : Type :=
| DoPlayAzaan (prayer : string)
| DoFetchAndReschedule.

(** [schedule.every().day.at(at_time).do(job_do)] *)
Record Job : Type := {
  at_time : json;
  job_do : job_func
}.

Record response : Type := {
  status_code : Z;
  (** [response.json()] *)
  response_json : result json
}.

(** The lines the program prints. *)
Inductive message : Type :=
| MsgAudioNotFound
| MsgMockMode (hms : time)
| MsgFetching
| MsgPrayerTimesFor (location : string)
| MsgPrayerLine (prayer : string) (t : json)
| MsgFetchStatus (code : Z)
| MsgFetchError (e : exn)
| MsgTimeFor (prayer : string)
| MsgAzaanCompleted (prayer : string)
| MsgErrorPlaying (e : exn)
| MsgNoPrayerTimes
| MsgFailedToFetch
| MsgScheduled (prayer : string) (t : json)
| MsgFetchingNew
| MsgUpdated
| MsgFailedToUpdate
| MsgStarting
| MsgNext (prayer : string) (t : json)
| MsgRunning
| MsgStopped
| MsgMockTimeSet (arg : string)
| MsgInvalidTimeFormat
| MsgTestMode (seconds : Z)
| MsgTestNextPrayer (prayer : string) (t : json)
| MsgTestMockTime (hms : time)
| MsgTestTrigger (prayer : string) (seconds : Z)
| MsgNoNextPrayer
| MsgNoFetchForTest.

(** What the program does to the outside world, in order. *)
Inductive event : Type :=
| Print (m : message)
| HttpGet
| Afplay (prayer : string) (file : string).

(** The answers of the outside world during one call. *)
Record Env : Type := {
  (** [datetime.now()] *)
  datetime_now : datetime;
  (** [os.path.exists(self.audio_file)] *)
  audio_exists : bool;
  (** [requests.get(url, params=params)] *)
  requests_get : result response;
  (** [subprocess.run(['afplay', file], check=True)] started for a prayer *)
  subprocess_run : string -> result unit;
  (** whether the [schedule] library accepts the argument of [at()] *)
  schedule_at : json -> result unit;
  (** [sorted(job for job in jobs if job.should_run)] of the library *)
  schedule_runnable : list Job -> list Job
}.

(** The interpreter state: the one [AzaanApp] object, the job list of the
    module-level scheduler, and what was output so far (latest last). *)
Record State : Type := {
  self : AzaanApp;
  jobs : list Job;
  output : list event
}.

Definition set_prayer_times (v : dict) (a : AzaanApp) : AzaanApp :=
  {| location_name := location_name a; method := method a;
     audio_file := audio_file a; prayer_times := v;
     prayer_date := prayer_date a; mock_time := mock_time a;
     mock_start_time := mock_start_time a;
     played_prayers := played_prayers a |}.

Definition set_prayer_date (v : json) (a : AzaanApp) : AzaanApp :=
  {| location_name := location_name a; method := method a;
     audio_file := audio_file a; prayer_times := prayer_times a;
     prayer_date := v; mock_time := mock_time a;
     mock_start_time := mock_start_time a;
     played_prayers := played_prayers a |}.

Definition set_played_prayers (v : gset string) (a : AzaanApp) : AzaanApp :=
  {| location_name := location_name a; method := method a;
     audio_file := audio_file a; prayer_times := prayer_times a;
     prayer_date := prayer_date a; mock_time := mock_time a;
     mock_start_time := mock_start_time a;
     played_prayers := v |}.

(* ===================================================================== *)
(** * The monad of methods *)
(* ===================================================================== *)

Definition M (A : Type) : Type := State -> result A * State.

Definition ret {A} (a : A) : M A := fun s => (Ok a, s).

Definition bind {A B} (m : M A) (k : A -> M B) : M B := fun s =>
  match m s with
  | (Ok a, s') => k a s'
  | (Raise e, s') => (Raise e, s')
  end.

Declare Scope py_scope.
Delimit Scope py_scope with py.
Notation "x <- m ;; k" := (bind m (fun x => k))
  (at level 100, m at next level, right associativity) : py_scope.
Notation "m ;; k" := (bind m (fun _ => k))
  (at level 100, right associativity) : py_scope.
Open Scope py_scope.

(** An expression that may raise. *)
Definition lift {A} (r : result A) : M A := fun s => (r, s).

Definition raise {A} (e : exn) : M A := lift (Raise e).

Definition get_self : M AzaanApp := fun s => (Ok (self s), s).

Definition modify_self (f : AzaanApp -> AzaanApp) : M unit := fun s =>
  (Ok tt, {| self := f (self s); jobs := jobs s; output := output s |}).

Definition get_jobs : M (list Job) := fun s => (Ok (jobs s), s).

Definition set_jobs (js : list Job) : M unit := fun s =>
  (Ok tt, {| self := self s; jobs := js; output := output s |}).

Definition emit (ev : event) : M unit := fun s =>
  (Ok tt, {| self := self s; jobs := jobs s; output := output s ++ [ev] |}).

(** [print(...)] *)
Definition print (m : message) : M unit := emit (Print m).

(** [try: body  except Exception as e: handler e] *)
Definition try_except {A} (body : M A) (handler : exn -> M A) : M A := fun s =>
  match body s with
  | (Ok a, s') => (Ok a, s')
  | (Raise e, s') => if is_Exception e then handler e s' else (Raise e, s')
  end.

(** [for x in xs: body x] *)
Fixpoint for_each {A} (xs : list A) (body : A -> M unit) : M unit :=
  match xs with
  | [] => ret tt
  | x :: xs' => body x ;; for_each xs' body
  end.

(* ===================================================================== *)
(** * The methods of [AzaanApp] *)
(* ===================================================================== *)

Definition PRAYER_NAMES : list string :=
  ["Fajr"; "Dhuhr"; "Asr"; "Maghrib"; "Isha"].

(** [AzaanApp.__init__(self, mock_time)] *)
Definition init (env : Env) (mock : option datetime) : M unit :=
  modify_self (fun _ =>
    {| location_name := "Princeton, NJ"; method := 2;
       audio_file := "azaan.mp3";
       prayer_times := []; prayer_date := JNull;
       mock_time := mock;
       mock_start_time :=
         match mock with Some _ => Some (datetime_now env) | None => None end;
       played_prayers := ∅ |}) ;;
  if negb (audio_exists env) then
    print MsgAudioNotFound ;; raise (SystemExit 1)
  else
    match mock with
    | Some m => print (MsgMockMode (dt_time m))
    | None => ret tt
    end.

(** [get_current_time(self)] *)
Definition get_current_time (env : Env) : M datetime :=
  a <- get_self ;;
  match mock_time a, mock_start_time a with
  | Some mock, Some start =>
      let elapsed := datetime_now env - start in
      ret (mock + elapsed)
  | _, _ => ret (datetime_now env)
  end.

(** [fetch_prayer_times(self)] *)
Definition fetch_prayer_times (env : Env) : M bool :=
  try_except
    (print MsgFetching ;;
     emit HttpGet ;;
     response <- lift (requests_get env) ;;
     if status_code response =? 200 then
       data <- lift (response_json response) ;;
       data_data <- lift (subscript data "data") ;;
       timings <- lift (subscript data_data "timings") ;;
       fajr <- lift (subscript timings "Fajr") ;;
       dhuhr <- lift (subscript timings "Dhuhr") ;;
       asr <- lift (subscript timings "Asr") ;;
       maghrib <- lift (subscript timings "Maghrib") ;;
       isha <- lift (subscript timings "Isha") ;;
       modify_self (set_prayer_times
         [("Fajr", fajr); ("Dhuhr", dhuhr); ("Asr", asr);
          ("Maghrib", maghrib); ("Isha", isha)]) ;;
       data_data <- lift (subscript data "data") ;;
       data_date <- lift (subscript data_data "date") ;;
       readable <- lift (subscript data_date "readable") ;;
       modify_self (set_prayer_date readable) ;;
       a <- get_self ;;
       print (MsgPrayerTimesFor (location_name a)) ;;
       for_each (prayer_times a) (fun '(prayer, t) =>
         print (MsgPrayerLine prayer t)) ;;
       ret true
     else
       print (MsgFetchStatus (status_code response)) ;;
       ret false)
    (fun e => print (MsgFetchError e) ;; ret false).

(** [play_azaan(self, prayer_name)] *)
Definition play_azaan (env : Env) (prayer_name : string) : M unit :=
  try_except
    (print (MsgTimeFor prayer_name) ;;
     a <- get_self ;;
     emit (Afplay prayer_name (audio_file a)) ;;
     lift (subprocess_run env prayer_name) ;;
     print (MsgAzaanCompleted prayer_name))
    (fun e => print (MsgErrorPlaying e)).

(** [schedule.clear()] *)
Definition schedule_clear : M unit := set_jobs [].

(** [schedule.every().day.at(t).do(f)]: [at] checks its argument, [do]
    appends the job to the scheduler's list. *)
Definition schedule_every_day_at_do (env : Env) (t : json) (f : job_func)
  : M unit :=
  lift (schedule_at env t) ;;
  js <- get_jobs ;;
  set_jobs (js ++ [{| at_time := t; job_do := f |}]).

(** The part of [schedule_prayers] after the table is known to be there. *)
Definition register_jobs (env : Env) : M bool :=
  schedule_clear ;;
  a <- get_self ;;
  for_each (prayer_times a) (fun '(prayer, time_str) =>
    schedule_every_day_at_do env time_str (DoPlayAzaan prayer) ;;
    print (MsgScheduled prayer time_str)) ;;
  schedule_every_day_at_do env (JStr "00:01") DoFetchAndReschedule ;;
  ret true.

(** [schedule_prayers(self)] *)
Definition schedule_prayers (env : Env) : M bool :=
  a <- get_self ;;
  match prayer_times a with
  | [] =>
      print MsgNoPrayerTimes ;;
      fetched <- fetch_prayer_times env ;;
      if negb fetched then
        print MsgFailedToFetch ;; ret false
      else register_jobs env
  | _ :: _ => register_jobs env
  end.

(** [fetch_and_reschedule(self)] *)
Definition fetch_and_reschedule (env : Env) : M unit :=
  print MsgFetchingNew ;;
  fetched <- fetch_prayer_times env ;;
  if fetched then
    (_ <- schedule_prayers env ;; print MsgUpdated)
  else
    print MsgFailedToUpdate.

(** The loop of [get_next_prayer] that turns each table entry into a
    timestamp of the day [today]. *)
Fixpoint build_prayer_list (today : date) (items : dict)
  : result (list (string * datetime)) :=
  match items with
  | [] => Ok []
  | (prayer, time_str) :: rest =>
      match strptime time_str with
      | Raise e => Raise e
      | Ok prayer_time =>
          match build_prayer_list today rest with
          | Raise e => Raise e
          | Ok l => Ok ((prayer, combine today prayer_time) :: l)
          end
      end
  end.

(** [list.sort(key=lambda x: x[1])] is a stable sort; a stable sort has one
    possible result, computed here by insertion. *)
Fixpoint insert_by_time (x : string * datetime) (l : list (string * datetime))
  : list (string * datetime) :=
  match l with
  | [] => [x]
  | y :: l' =>
      if snd x <=? snd y then x :: y :: l' else y :: insert_by_time x l'
  end.

Fixpoint sort_by_time (l : list (string * datetime))
  : list (string * datetime) :=
  match l with
  | [] => []
  | x :: l' => insert_by_time x (sort_by_time l')
  end.

(** The scan of [get_next_prayer] for the first entry later than now. *)
Fixpoint find_next (current_time : time) (l : list (string * datetime))
  : option (string * datetime) :=
  match l with
  | [] => None
  | (prayer, prayer_datetime) :: l' =>
      if current_time <? dt_time prayer_datetime
      then Some (prayer, prayer_datetime)
      else find_next current_time l'
  end.

(** The result of [get_next_prayer]: each component is [None] or a value. *)
Definition next_prayer : Type :=
  option string * option json * option timedelta.

(** [get_next_prayer(self)] *)
Definition get_next_prayer (env : Env) : M next_prayer :=
  a <- get_self ;;
  match prayer_times a with
  | [] => ret (None, None, None)
  | _ :: _ =>
      now <- get_current_time env ;;
      let current_time := dt_time now in
      prayer_list <- lift (build_prayer_list (dt_date now) (prayer_times a)) ;;
      let prayer_list := sort_by_time prayer_list in
      match find_next current_time prayer_list with
      | Some (prayer, prayer_datetime) =>
          let time_diff := prayer_datetime - now in
          ret (Some prayer, Some (JStr (strftime_HM prayer_datetime)),
               Some time_diff)
      | None =>
          let tomorrow := now + timedelta_days 1 in
          fajr <- lift (dict_getitem (prayer_times a) "Fajr") ;;
          fajr_time <- lift (strptime fajr) ;;
          let fajr_tomorrow := combine (dt_date tomorrow) fajr_time in
          let time_diff := fajr_tomorrow - now in
          ret (Some "Fajr", Some fajr, Some time_diff)
      end
  end.

(** The body of the loop of [check_prayer_times_mock] for one table entry. *)
Definition check_entry (env : Env) (current_time_str : string)
    (item : string * json) : M unit :=
  let '(prayer, time_str) := item in
  a <- get_self ;;
  if json_eq_str time_str current_time_str
     && negb (bool_decide (prayer ∈ played_prayers a))
  then
    modify_self (fun a =>
      set_played_prayers (played_prayers a ∪ {[prayer]}) a) ;;
    play_azaan env prayer
  else ret tt.

(** [check_prayer_times_mock(self)] *)
Definition check_prayer_times_mock (env : Env) : M unit :=
  now <- get_current_time env ;;
  let current_time_str := strftime_HM now in
  a <- get_self ;;
  for_each (prayer_times a) (check_entry env current_time_str).

(** Running one job of the scheduler. *)
Definition run_job (env : Env) (j : Job) : M unit :=
  match job_do j with
  | DoPlayAzaan prayer => play_azaan env prayer
  | DoFetchAndReschedule => fetch_and_reschedule env
  end.

(** [schedule.run_pending()] *)
Definition schedule_run_pending (env : Env) : M unit :=
  js <- get_jobs ;;
  for_each (schedule_runnable env js) (run_job env).

(** One turn of the [while True] loop of [run]. *)
Definition loop_iteration (env : Env) : M unit :=
  a <- get_self ;;
  match mock_time a with
  | Some _ => check_prayer_times_mock env
  | None => schedule_run_pending env
  end.

(** The loop of [run] that announces the first table entry later than now. *)
Fixpoint print_next (now : time) (items : dict) : M unit :=
  match items with
  | [] => ret tt
  | (prayer, time_str) :: rest =>
      prayer_time <- lift (strptime time_str) ;;
      if now <? prayer_time then print (MsgNext prayer time_str)
      else print_next now rest
  end.

(** [try: body  except KeyboardInterrupt: handler] *)
Definition except_KeyboardInterrupt (body handler : M unit) : M unit :=
  fun s =>
    match body s with
    | (Raise KeyboardInterrupt, s') => handler s'
    | r => r
    end.

(** [run(self)], observed for as many turns of its loop as there are
    environments in [envs]; [env0] answers the set-up. *)
Definition run (env0 : Env) (envs : list Env) : M unit :=
  print MsgStarting ;;
  scheduled <- schedule_prayers env0 ;;
  if negb scheduled then ret tt
  else
    now <- get_current_time env0 ;;
    a <- get_self ;;
    print_next (dt_time now) (prayer_times a) ;;
    print MsgRunning ;;
    except_KeyboardInterrupt
      (for_each envs loop_iteration)
      (print MsgStopped).

(* ===================================================================== *)
(** * Sequences of calls *)
(* ===================================================================== *)

(** The methods that can be called on the object once it is built. *)
Inductive call : Type :=
| CallGetCurrentTime
| CallFetchPrayerTimes
| CallPlayAzaan (prayer : string)
| CallSchedulePrayers
| CallFetchAndReschedule
| CallGetNextPrayer
| CallCheckPrayerTimesMock
| CallRunPending
| CallLoopIteration.

(** A call with its result dropped. *)
Definition exec (c : call) (env : Env) : M unit :=
  match c with
  | CallGetCurrentTime => _ <- get_current_time env ;; ret tt
  | CallFetchPrayerTimes => _ <- fetch_prayer_times env ;; ret tt
  | CallPlayAzaan prayer => play_azaan env prayer
  | CallSchedulePrayers => _ <- schedule_prayers env ;; ret tt
  | CallFetchAndReschedule => fetch_and_reschedule env
  | CallGetNextPrayer => _ <- get_next_prayer env ;; ret tt
  | CallCheckPrayerTimesMock => check_prayer_times_mock env
  | CallRunPending => schedule_run_pending env
  | CallLoopIteration => loop_iteration env
  end.

(** The state after a sequence of calls, whether or not some of them
    raised. *)
Fixpoint exec_all (cs : list (call * Env)) (s : State) : State :=
  match cs with
  | [] => s
  | (c, env) :: cs' => exec_all cs' (snd (exec c env s))
  end.

(** The turns of the main loop in mock mode, one per environment. *)
Definition mock_ticks (envs : list Env) : M unit :=
  for_each envs check_prayer_times_mock.

(** The prayers for which [afplay] was started, in order. *)
Definition afplay_of (ev : event) : option string :=
  match ev with
  | Afplay prayer _ => Some prayer
  | _ => None
  end.

Definition played_log (out : list event) : list string :=
  omap afplay_of out.

(** How many times [afplay] was started for a prayer. *)
Definition afplay_count (prayer : string) (out : list event) : nat :=
  length (filter (fun p => p = prayer) (played_log out)).

(* ===================================================================== *)
(** * Concrete tables, clocks and environments *)
(* ===================================================================== *)

(** The wall-clock reading h:m:s of day [day]. *)
Definition clock (day h m s : Z) : datetime :=
  combine day (h * US_PER_HOUR + m * US_PER_MINUTE + s * US_PER_SECOND).

Definition sample_times : dict :=
  [("Fajr", JStr "05:30"); ("Dhuhr", JStr "12:15"); ("Asr", JStr "15:45");
   ("Maghrib", JStr "18:20"); ("Isha", JStr "19:45")].

Definition sample_timings : json :=
  JDict sample_times.

Definition sample_payload : json :=
  JDict [("code", JNum 200);
         ("data", JDict [("timings", sample_timings);
                         ("date", JDict [("readable", JStr "04 Nov 2026")])])].

(** An environment in which the supplier is unreachable, [afplay] works,
    the scheduler accepts every time and reports nothing due. *)
Definition env_at (now : datetime) : Env :=
  {| datetime_now := now;
     audio_exists := true;
     requests_get := Raise RequestException;
     subprocess_run := fun _ => Ok tt;
     schedule_at := fun _ => Ok tt;
     schedule_runnable := fun _ => [] |}.

(** The same with the answer of the supplier given. *)
Definition env_with (now : datetime) (r : result response) : Env :=
  {| datetime_now := now;
     audio_exists := true;
     requests_get := r;
     subprocess_run := fun _ => Ok tt;
     schedule_at := fun _ => Ok tt;
     schedule_runnable := fun _ => [] |}.

(** The same with the outcome of [afplay] given. *)
Definition env_afplay (now : datetime) (r : result unit) : Env :=
  {| datetime_now := now;
     audio_exists := true;
     requests_get := Raise RequestException;
     subprocess_run := fun _ => r;
     schedule_at := fun _ => Ok tt;
     schedule_runnable := fun _ => [] |}.

Definition app_of (table : dict) (label : json)
    (mock start : option datetime) (played : gset string) : AzaanApp :=
  {| location_name := "Princeton, NJ"; method := 2;
     audio_file := "azaan.mp3";
     prayer_times := table; prayer_date := label;
     mock_time := mock; mock_start_time := start;
     played_prayers := played |}.

Definition state_of (a : AzaanApp) : State :=
  {| self := a; jobs := []; output := [] |}.

(** The real-clock object holding the sample table, nothing played. *)
Definition sample_app : AzaanApp :=
  app_of sample_times (JStr "04 Nov 2026") None None ∅.

(* ===================================================================== *)
(** * Valid tables *)
(* ===================================================================== *)

Definition parses (v : json) : bool :=
  match strptime v with
  | Ok _ => true
  | Raise _ => false
  end.

(** A valid table holds the five prayer names, in display order, each with
    a string that parses as a time. *)
Definition valid_table (pt : dict) : bool :=
  bool_decide (map fst pt = PRAYER_NAMES) && forallb (fun kv => parses (snd kv)) pt.

(* ===================================================================== *)
(** * Notions used to state the properties *)
(* ===================================================================== *)

(** The order in which [get_next_prayer] sorts its list. *)
Definition by_time (x y : string * datetime) : Prop := snd x <= snd y.

(** How an entry of the list built by [get_next_prayer] relates to the
    table entry it was built from. *)
Definition timestamp_of (today : date) (kv : string * json)
    (x : string * datetime) : Prop :=
  fst x = fst kv /\
  exists t, strptime (snd kv) = Ok t /\ snd x = combine today t.

(** A method [m] relates every state to the state it leaves, by [R]. *)
Definition steps (R : State -> State -> Prop) {A} (m : M A) : Prop :=
  forall s, R s (snd (m s)).

(** A stretch of execution that starts [afplay] only for prayers that were
    not in [played_prayers], once each, adds them to [played_prayers], and
    removes nothing from it. *)
Definition fires_pending_once (s s' : State) : Prop :=
  played_prayers (self s) ⊆ played_prayers (self s') /\
  exists new,
    output s' = output s ++ new /\
    NoDup (played_log new) /\
    forall p, p ∈ played_log new ->
      (p ∉ played_prayers (self s)) /\ (p ∈ played_prayers (self s')).

(** A stretch of execution that leaves the object as it is. *)
Definition same_self (s s' : State) : Prop := self s' = self s.

(** A stretch of execution that leaves the anchor pair of the simulated
    clock as it is. *)
Definition same_anchor (s s' : State) : Prop :=
  mock_time (self s') = mock_time (self s) /\
  mock_start_time (self s') = mock_start_time (self s).

(** A stretch of execution that leaves [played_prayers] as it is. *)
Definition same_played (s s' : State) : Prop :=
  played_prayers (self s') = played_prayers (self s).

(** A stretch of execution that removes nothing from [played_prayers]. *)
Definition played_grows (s s' : State) : Prop :=
  played_prayers (self s) ⊆ played_prayers (self s').

(** Whether [fetch_and_reschedule] was entered: its first line of output. *)
Definition is_refresh (ev : event) : bool :=
  match ev with
  | Print MsgFetchingNew => true
  | _ => false
  end.

(** A stretch of execution without a daily refresh: the table, its date
    label and the scheduler's jobs stay as they are, and neither the
    refresh nor a request to the supplier shows in the output. *)
Definition no_refresh (s s' : State) : Prop :=
  prayer_times (self s') = prayer_times (self s) /\
  prayer_date (self s') = prayer_date (self s) /\
  mock_time (self s') = mock_time (self s) /\
  jobs s' = jobs s /\
  exists new,
    output s' = output s ++ new /\
    forallb (fun ev => negb (is_refresh ev)) new = true /\
    HttpGet ∉ new.

(** What [play_azaan] outputs after [afplay] has ended. *)
Definition playback_report (env : Env) (prayer : string) : list event :=
  match subprocess_run env prayer with
  | Ok _ => [Print (MsgAzaanCompleted prayer)]
  | Raise e => if is_Exception e then [Print (MsgErrorPlaying e)] else []
  end.

(** What [play_azaan] returns. *)
Definition playback_result (env : Env) (prayer : string) : result unit :=
  match subprocess_run env prayer with
  | Ok _ => Ok tt
  | Raise e => if is_Exception e then Ok tt else Raise e
  end.

(** Whether the tick fires a table entry: its time is the current minute
    and its name is not in [played_prayers]. *)
Definition due (current_time_str : string) (item : string * json)
    (s : State) : bool :=
  json_eq_str (snd item) current_time_str
  && negb (bool_decide (fst item ∈ played_prayers (self s))).

(** A stretch of execution that changes nothing of the object but
    [played_prayers], and nothing of the scheduler. *)
Definition only_played (s s' : State) : Prop :=
  jobs s' = jobs s /\
  self s' = set_played_prayers (played_prayers (self s')) (self s).

(** [r] followed by [k], for expressions that may raise. *)
Definition and_then {A B} (r : result A) (k : A -> result B) : result B :=
  match r with
  | Ok a => k a
  | Raise e => Raise e
  end.

(** The value [fetch_prayer_times] assigns to [prayer_times]: the five
    entries of [data['data']['timings']], as they come. *)
Definition read_table (data : json) : result dict :=
  and_then (subscript data "data") (fun data_data =>
  and_then (subscript data_data "timings") (fun timings =>
  and_then (subscript timings "Fajr") (fun fajr =>
  and_then (subscript timings "Dhuhr") (fun dhuhr =>
  and_then (subscript timings "Asr") (fun asr =>
  and_then (subscript timings "Maghrib") (fun maghrib =>
  and_then (subscript timings "Isha") (fun isha =>
  Ok [("Fajr", fajr); ("Dhuhr", dhuhr); ("Asr", asr);
      ("Maghrib", maghrib); ("Isha", isha)]))))))).

(** The value [fetch_prayer_times] assigns to [prayer_date]:
    [data['data']['date']['readable']]. *)
Definition read_readable (data : json) : result json :=
  and_then (subscript data "data") (fun data_data =>
  and_then (subscript data_data "date") (fun data_date =>
  subscript data_date "readable")).

(** The state with more output. *)
Definition add_output (evs : list event) (s : State) : State :=
  {| self := self s; jobs := jobs s; output := output s ++ evs |}.

(** The state with another object. *)
Definition with_self (a : AzaanApp) (s : State) : State :=
  {| self := a; jobs := jobs s; output := output s |}.

(** How the [except Exception] clause of [fetch_prayer_times] ends the
    call. *)
Definition fetch_caught (e : exn) (s : State) : result bool * State :=
  if is_Exception e
  then (Ok false, add_output [Print (MsgFetchError e)] s)
  else (Raise e, s).

(** The lines [fetch_prayer_times] prints after a table was stored. *)
Definition table_lines (a : AzaanApp) : list event :=
  Print (MsgPrayerTimesFor (location_name a))
  :: map (fun kv => Print (MsgPrayerLine (fst kv) (snd kv))) (prayer_times a).

(** The job [schedule_prayers] registers for a table entry, and the one it
    registers for the daily refresh. *)
Definition prayer_job (kv : string * json) : Job :=
  {| at_time := snd kv; job_do := DoPlayAzaan (fst kv) |}.

Definition refresh_job : Job :=
  {| at_time := JStr "00:01"; job_do := DoFetchAndReschedule |}.

(** An environment with every answer given but the audio file, which is
    there. *)
Definition env_of (now : datetime) (r : result response)
    (play : result unit) (runnable : list Job -> list Job) : Env :=
  {| datetime_now := now;
     audio_exists := true;
     requests_get := r;
     subprocess_run := fun _ => play;
     schedule_at := fun _ => Ok tt;
     schedule_runnable := runnable |}.

(** The supplier answering 200 with a payload. *)
Definition ok_response (data : json) : result response :=
  Ok {| status_code := 200; response_json := Ok data |}.

(** A payload with the five times and no date. *)
Definition payload_without_date : json :=
  JDict [("code", JNum 200);
         ("data", JDict [("timings", sample_timings)])].

(** A payload whose Fajr time is no time of day. *)
Definition payload_bad_time : json :=
  JDict [("data",
          JDict [("timings",
                  JDict [("Fajr", JStr "25:99"); ("Dhuhr", JStr "12:15");
                         ("Asr", JStr "15:45"); ("Maghrib", JStr "18:20");
                         ("Isha", JStr "19:45")]);
                 ("date", JDict [("readable", JStr "04 Nov 2026")])])].

(** The table of the day before. *)
Definition old_times : dict :=
  [("Fajr", JStr "05:29"); ("Dhuhr", JStr "12:15"); ("Asr", JStr "15:46");
   ("Maghrib", JStr "18:21"); ("Isha", JStr "19:46")].

(** The scheduler reporting the refresh job due whenever it is
    registered. *)
Definition refresh_due (js : list Job) : list Job :=
  List.filter (fun j => match job_do j with
                        | DoFetchAndReschedule => true
                        | DoPlayAzaan _ => false
                        end) js.

(* ===================================================================== *)
(** * The query route and the command line *)
(* ===================================================================== *)

(** The JSON object the route [/api/prayer-times] answers with. *)
Record api_response : Type := {
  api_prayer_times_field : dict;
  api_date : json;
  api_location : string;
  api_next_name : option string;
  api_next_time : option json;
  api_countdown_seconds : Z
}.

(** [int(td.total_seconds())]: the float quotient, truncated.  For the
    durations [get_next_prayer] returns, of at most a day, the float
    quotient lies within 2^-36 of the exact one and truncates to the
    integer quotient. *)
Definition int_total_seconds (td : timedelta) : Z := Z.quot td US_PER_SECOND.

(** [api_prayer_times()] of [setup_routes]: [if time_diff:] is false for
    [None] and for a zero duration. *)
Definition api_prayer_times (env : Env) : M api_response :=
  r <- get_next_prayer env ;;
  let '(next_prayer, next_time, time_diff) := r in
  let countdown_seconds :=
    match time_diff with
    | Some td => if td =? 0 then 0 else int_total_seconds td
    | None => 0
    end in
  a <- get_self ;;
  ret {| api_prayer_times_field := prayer_times a;
         api_date := prayer_date a;
         api_location := location_name a;
         api_next_name := next_prayer;
         api_next_time := next_time;
         api_countdown_seconds := countdown_seconds |}.

(** [s.split(sep)] for a one-character separator. *)
Fixpoint split_on (sep : ascii) (s : string) : list string :=
  match s with
  | EmptyString => [EmptyString]
  | String c r =>
      if Ascii.eqb c sep then EmptyString :: split_on sep r
      else match split_on sep r with
           | h :: t => String c h :: t
           | [] => [String c EmptyString]
           end
  end.

(** The command line after [parser.parse_args()]: an option that is not
    given is [None]. *)
Record Args : Type := {
  (** [--mock-time], a [str] *)
  args_mock_time : option string;
  (** [--test-in], an [int] *)
  args_test_in : option Z
}.

(** [bool(s)] for a [str]: the empty string is false. *)
Definition str_truthy (s : string) : bool :=
  match s with
  | EmptyString => false
  | String _ _ => true
  end.

(** [bool(v)] for a JSON value: [None], [False], zero and what is empty
    are false. *)
Definition json_truthy (v : json) : bool :=
  match v with
  | JNull => false
  | JBool b => b
  | JNum n => negb (n =? 0)
  | JStr s => str_truthy s
  | JList l => match l with [] => false | _ :: _ => true end
  | JDict d => match d with [] => false | _ :: _ => true end
  end.

(** [if a:] for an optional [str] argument: the argument when it is given
    and not empty. *)
Definition given_str (a : option string) : option string :=
  match a with
  | Some s => if str_truthy s then Some s else None
  | None => None
  end.

(** [if a:] for an optional [int] argument: the argument when it is given
    and not zero. *)
Definition given_int (a : option Z) : option Z :=
  match a with
  | Some n => if n =? 0 then None else Some n
  | None => None
  end.

(** The largest number of days of a [timedelta], in either direction. *)
Definition MAX_DELTA_DAYS : Z := 999999999.

(** [timedelta(seconds=n)] for an [int] [n]: the seconds are brought to
    days and seconds of the day, and a number of days beyond
    [MAX_DELTA_DAYS] is an [OverflowError]. *)
Definition timedelta_seconds (n : Z) : result timedelta :=
  let days := n / 86400 in
  if (- MAX_DELTA_DAYS <=? days) && (days <=? MAX_DELTA_DAYS)
  then Ok (n * US_PER_SECOND)
  else Raise OverflowError.

(** The day numbers of 0001-01-01 and of 9999-12-31, [date.min.toordinal()]
    and [date.max.toordinal()]: the day number [dt_date d] of a [datetime]
    lies between them. *)
Definition MIN_ORDINAL : Z := 1.
Definition MAX_ORDINAL : Z := 3652059.

(** [d + td] for a [datetime] and a [timedelta]: a date outside the years
    1..9999 is an [OverflowError]. *)
Definition datetime_add (d : datetime) (td : timedelta) : result datetime :=
  let r := d + td in
  if (MIN_ORDINAL <=? dt_date r) && (dt_date r <=? MAX_ORDINAL)
  then Ok r
  else Raise OverflowError.

(** [d - td], which Python computes as [d + (-td)]; where [-td] itself
    overflows, so would the sum, with the same error. *)
Definition datetime_sub (d : datetime) (td : timedelta) : result datetime :=
  datetime_add d (- td).

(** The part of [main] that chooses the mock time, from
    [mock_time = None] to the end of the [elif].  [env] answers the calls
    of the temporary object of test mode; [now_today] is the reading of
    [datetime.now()] from which today's date is taken (in either branch),
    [now_check] the reading the prayer time is compared with. *)
Definition main_clock (args : Args) (env : Env) (now_today now_check : datetime)
    : M (option datetime) :=
  match given_str (args_mock_time args) with
  | Some arg =>
      match split_on ":" arg with
      | [mock_hour; mock_minute] =>
          let today := dt_date now_today in
          match strptime_HM arg with
          | Ok t =>
              print (MsgMockTimeSet arg) ;;
              ret (Some (combine today t))
          | Raise ValueError =>
              print MsgInvalidTimeFormat ;; raise (SystemExit 1)
          | Raise e => raise e
          end
      | _ => print MsgInvalidTimeFormat ;; raise (SystemExit 1)
      end
  | None =>
      match given_int (args_test_in args) with
      | Some test_in =>
          print (MsgTestMode test_in) ;;
          init env None ;;
          fetched <- fetch_prayer_times env ;;
          if fetched then
            r <- get_next_prayer env ;;
            let '(next_prayer, next_time, _) := r in
            match next_prayer, next_time with
            | Some prayer, Some time_str =>
                if str_truthy prayer && json_truthy time_str then
                  next_prayer_time <- lift (strptime time_str) ;;
                  let today := dt_date now_today in
                  let next_prayer_datetime := combine today next_prayer_time in
                  next_prayer_datetime <-
                    (if next_prayer_datetime <=? now_check
                     then lift (datetime_add next_prayer_datetime
                                  (timedelta_days 1))
                     else ret next_prayer_datetime) ;;
                  delta <- lift (timedelta_seconds test_in) ;;
                  mock <- lift (datetime_sub next_prayer_datetime delta) ;;
                  print (MsgTestNextPrayer prayer time_str) ;;
                  print (MsgTestMockTime (dt_time mock)) ;;
                  print (MsgTestTrigger prayer test_in) ;;
                  ret (Some mock)
                else print MsgNoNextPrayer ;; raise (SystemExit 1)
            | _, _ => print MsgNoNextPrayer ;; raise (SystemExit 1)
            end
          else print MsgNoFetchForTest ;; raise (SystemExit 1)
      | None => ret None
      end
  end.

(** [main()]: the object is built with the mock time chosen, [env_app]
    answering its construction, and run. *)
Definition main (args : Args) (env : Env) (now_today now_check : datetime)
    (env_app env0 : Env) (envs : list Env) : M unit :=
  mock <- main_clock args env now_today now_check ;;
  init env_app mock ;;
  run env0 envs.

(* ===================================================================== *)
(** * Further notions used to state properties *)
(* ===================================================================== *)

(** A stretch of execution that changes nothing at all. *)
Definition unchanged (s s' : State) : Prop := s' = s.

(** Formatting an hour and a minute and parsing the result gives them
    back. *)
Definition roundtrip_ok (h m : Z) : bool :=
  match strptime_HM (pad2 h ++ ":" ++ pad2 m)%string with
  | Ok t => t =? mk_time h m
  | Raise _ => false
  end.

(** The time of day of a table value, when it parses. *)
Definition time_of (v : json) : option time :=
  match strptime v with
  | Ok t => Some t
  | Raise _ => None
  end.

(** The entries of a table come in ascending order of their times. *)
Fixpoint times_ascending (pt : dict) : bool :=
  match pt with
  | [] => true
  | (_, v) :: rest =>
      forallb (fun kv => match time_of v, time_of (snd kv) with
                         | Some t, Some t' => t <=? t'
                         | _, _ => false
                         end) rest
      && times_ascending rest
  end.

(** The first entry of a table later than a time of day, in table order. *)
Fixpoint first_later (now : time) (pt : dict) : option (string * json) :=
  match pt with
  | [] => None
  | (prayer, v) :: rest =>
      match time_of v with
      | Some t => if now <? t then Some (prayer, v) else first_later now rest
      | None => None
      end
  end.

(** A table with Isha after midnight, as at high latitudes in summer. *)
Definition late_isha_times : dict :=
  [("Fajr", JStr "02:10"); ("Dhuhr", JStr "13:05"); ("Asr", JStr "17:40");
   ("Maghrib", JStr "22:30"); ("Isha", JStr "00:20")].

(** A table with two prayers at one time. *)
Definition tied_times : dict :=
  [("Fajr", JStr "05:30"); ("Dhuhr", JStr "12:15"); ("Asr", JStr "18:20");
   ("Maghrib", JStr "18:20"); ("Isha", JStr "19:45")].

(** A table whose times are not zero padded. *)
Definition unpadded_times : dict :=
  [("Fajr", JStr "5:30"); ("Dhuhr", JStr "12:15"); ("Asr", JStr "15:45");
   ("Maghrib", JStr "18:20"); ("Isha", JStr "19:45")].

(** A stretch of execution that starts no [afplay] for a prayer. *)
Definition silent_for (prayer : string) (s s' : State) : Prop :=
  exists new, output s' = output s ++ new /\ prayer ∉ played_log new.

(** A prayer the tick cannot fire now: it is not in [played_prayers] and no
    table entry of its name has a string of five characters. *)
Definition never_due (prayer : string) (s : State) : Prop :=
  (prayer ∉ played_prayers (self s)) /\
  forall v, (prayer, v) ∈ prayer_times (self s) ->
    forall str, v = JStr str -> String.length str <> 5%nat.

(** A stretch of execution that starts no [afplay] at all. *)
Definition silent_all (s s' : State) : Prop :=
  exists new, output s' = output s ++ new /\ played_log new = [].

(** The supplier fails with an error, or answers without a table to read:
    it is unreachable, or the status is not 200, or the body is not JSON,
    or the five times are not all under data.timings. *)
Definition fails_before_table (env : Env) : Prop :=
  match requests_get env with
  | Raise e => is_Exception e = true
  | Ok response =>
      status_code response <> 200 \/
      match response_json response with
      | Raise e => is_Exception e = true
      | Ok data => exists e, read_table data = Raise e
      end
  end.

(* ===================================================================== *)
(** * The schedule library's rule for a daily job *)
(* ===================================================================== *)

(** What the program relies on, of the [schedule] library, for a job
    registered with [every().day.at(t)]: the job keeps the instant of its
    next run, computed when it is registered and again each time it has
    run, and [run_pending()] runs the jobs whose next run has come.  The
    readings of the clock the library takes during one turn of the loop are
    the reading [datetime_now] of that turn. *)

(** The time of day of the refresh job, [at("00:01")]. *)
Definition REFRESH_TIME : time := mk_time 0 1.

(** [job._schedule_next_run()] of a daily job at the time of day [t],
    called at [now]: the first instant later than [now] whose time of day
    is [t], today's if [t] is still to come and tomorrow's otherwise. *)
Definition next_run (t : time) (now : datetime) : datetime :=
  if dt_time now <? t then combine (dt_date now) t
  else combine (dt_date now + 1) t.

(** [job.should_run]: [datetime.now() >= self.next_run]. *)
Definition should_run (next now : datetime) : bool := next <=? now.

(** Whether the refresh job, registered or last run at [last], is due at
    [now]. *)
Definition refresh_is_due (last now : datetime) : bool :=
  should_run (next_run REFRESH_TIME last) now.

(** The environments of successive turns of the main loop agree with the
    library about the refresh job, [last] being the instant at which that
    job was registered or last run: at each turn, of the jobs the
    scheduler holds, the refresh jobs are reported due exactly when a next
    run computed at [last] has come; and a turn that runs the job computes
    the next run anew. *)
Fixpoint follows_schedule (last : datetime) (envs : list Env) : Prop :=
  match envs with
  | [] => True
  | env :: envs' =>
      let now := datetime_now env in
      (forall js,
         refresh_due (schedule_runnable env js)
         = if refresh_is_due last now then refresh_due js else []) /\
      follows_schedule (if refresh_is_due last now then now else last) envs'
  end.

(** The readings of the wall clock at successive turns of the loop, after
    the reading [prev]: the clock does not go back, and less than a day
    passes from one turn to the next. *)
Fixpoint polled_daily (prev : datetime) (envs : list Env) : Prop :=
  match envs with
  | [] => True
  | env :: envs' =>
      prev <= datetime_now env < prev + US_PER_DAY /\
      polled_daily (datetime_now env) envs'
  end.

(** The reading of the clock at the last of the turns, [prev] if there is
    none. *)
Fixpoint last_poll (prev : datetime) (envs : list Env) : datetime :=
  match envs with
  | [] => prev
  | env :: envs' => last_poll (datetime_now env) envs'
  end.

(** Nothing from outside ends the loop during a turn: the scheduler
    accepts the times it is given, and what fails in the playback or at
    the supplier fails with an [Exception], not with an interrupt. *)
Definition undisturbed (env : Env) : Prop :=
  (forall t, schedule_at env t = Ok tt) /\
  (forall prayer e,
     subprocess_run env prayer = Raise e -> is_Exception e = true) /\
  (forall e, requests_get env = Raise e -> is_Exception e = true) /\
  (forall response e,
     requests_get env = Ok response ->
     response_json response = Raise e -> is_Exception e = true).

(** How many times [fetch_and_reschedule] was entered. *)
Definition refresh_count (out : list event) : nat :=
  length (List.filter is_refresh out).

(** The calendar day of the last 00:01:00 at or before an instant. *)
Definition refresh_day (t : datetime) : Z := dt_date (t - REFRESH_TIME).

(** A stretch of execution in which [fetch_and_reschedule] is not
    entered. *)
Definition same_refresh_count (s s' : State) : Prop :=
  refresh_count (output s') = refresh_count (output s).

(** The environment of a turn of the loop in real mode at [now], the
    supplier answering with the sample payload and the scheduler following
    the rule for a refresh job registered or last run at [last]; no prayer
    is due. *)
Definition real_poll (last now : datetime) : Env :=
  env_of now (ok_response sample_payload) (Ok tt)
    (fun js => if refresh_is_due last now then refresh_due js else []).

(* ===================================================================== *)
(** * Facts about times of day and timestamps *)
(* ===================================================================== *)

Section TimeFacts.

Lemma US_PER_DAY_eq : US_PER_DAY = 86400000000.
Proof. reflexivity. Qed.

Lemma dt_time_range (d : datetime) : 0 <= dt_time d < US_PER_DAY.
Proof. unfold dt_time. apply Z.mod_pos_bound. reflexivity. Qed.

Lemma dt_split (d : datetime) : d = combine (dt_date d) (dt_time d).
Proof.
  unfold combine, dt_date, dt_time.
  rewrite (Z.mul_comm _ US_PER_DAY). apply Z.div_mod. discriminate.
Qed.

Lemma dt_date_combine (day : date) (t : time) :
  0 <= t < US_PER_DAY -> dt_date (combine day t) = day.
Proof.
  intros Ht. unfold dt_date, combine.
  rewrite Z.add_comm, Z.div_add by discriminate.
  rewrite Z.div_small by exact Ht. reflexivity.
Qed.

Lemma dt_time_combine (day : date) (t : time) :
  0 <= t < US_PER_DAY -> dt_time (combine day t) = t.
Proof.
  intros Ht. unfold dt_time, combine.
  rewrite Z.add_comm, Z.mod_add by discriminate.
  apply Z.mod_small, Ht.
Qed.

Lemma dt_date_tomorrow (now : datetime) :
  dt_date (now + timedelta_days 1) = dt_date now + 1.
Proof.
  unfold dt_date, timedelta_days. apply Z.div_add. discriminate.
Qed.

(** On one day, timestamps are ordered as their times of day. *)
Lemma combine_lt (day : date) (t1 t2 : time) :
  combine day t1 < combine day t2 <-> t1 < t2.
Proof. unfold combine. lia. Qed.

Lemma combine_le (day : date) (t1 t2 : time) :
  combine day t1 <= combine day t2 <-> t1 <= t2.
Proof. unfold combine. lia. Qed.

Lemma later_today (now : datetime) (t : time) :
  now < combine (dt_date now) t <-> dt_time now < t.
Proof. rewrite (dt_split now) at 1. apply combine_lt. Qed.

Lemma mk_time_range (h m : Z) :
  0 <= h < 24 -> 0 <= m < 60 -> 0 <= mk_time h m < US_PER_DAY.
Proof.
  intros Hh Hm. unfold mk_time, US_PER_DAY, US_PER_HOUR, US_PER_MINUTE,
    US_PER_SECOND. lia.
Qed.

End TimeFacts.

(* ===================================================================== *)
(** * Facts about parsing *)
(* ===================================================================== *)

Section ParseFacts.

Lemma in_class_val (lo hi : Z) (c : ascii) :
  in_class lo hi c = true -> lo <= digit_val c <= hi.
Proof.
  unfold in_class, digit_val. intros H.
  apply andb_prop in H as [H1 H2].
  apply Z.leb_le in H1, H2. lia.
Qed.

Lemma match_H_range (s : string) (h : Z) (r : string) :
  In (h, r) (match_H s) -> 0 <= h < 24.
Proof.
  destruct s as [|a [|b r']]; simpl.
  - intros [].
  - destruct (is_digit a) eqn:Ha; simpl; [|intros []].
    intros [[= <- <-]|[]]. apply in_class_val in Ha. lia.
  - rewrite !in_app_iff.
    intros [[H|H]|H].
    + destruct (Ascii.eqb a "2" && in_class 0 3 b) eqn:E; [|destruct H].
      destruct H as [[= <- <-]|[]].
      apply andb_prop in E as [_ E]. apply in_class_val in E. lia.
    + destruct (in_class 0 1 a && is_digit b) eqn:E; [|destruct H].
      destruct H as [[= <- <-]|[]].
      apply andb_prop in E as [E1 E2].
      apply in_class_val in E1, E2. lia.
    + destruct (is_digit a) eqn:E; [|destruct H].
      destruct H as [[= <- <-]|[]]. apply in_class_val in E. lia.
Qed.

Lemma match_M_range (s : string) (m : Z) (r : string) :
  In (m, r) (match_M s) -> 0 <= m < 60.
Proof.
  destruct s as [|a [|b r']]; simpl.
  - intros [].
  - destruct (is_digit a) eqn:Ha; simpl; [|intros []].
    intros [[= <- <-]|[]]. apply in_class_val in Ha. lia.
  - rewrite in_app_iff. intros [H|H].
    + destruct (in_class 0 5 a && is_digit b) eqn:E; [|destruct H].
      destruct H as [[= <- <-]|[]].
      apply andb_prop in E as [E1 E2].
      apply in_class_val in E1, E2. lia.
    + destruct (is_digit a) eqn:E; [|destruct H].
      destruct H as [[= <- <-]|[]]. apply in_class_val in E. lia.
Qed.

Lemma re_match_HM_range (s : string) (h m : Z) (rest : string) :
  re_match_HM s = Some (h, m, rest) -> 0 <= h < 24 /\ 0 <= m < 60.
Proof.
  unfold re_match_HM. intros H.
  apply head_Some_elem_of, list_elem_of_In in H.
  apply in_flat_map in H as [[h' r1] [HH H]].
  apply in_flat_map in H as [r2 [_ H]].
  apply in_map_iff in H as [[m' r3] [[= -> -> ->] HM]].
  split; [eapply match_H_range|eapply match_M_range]; eassumption.
Qed.

(** A string that parses denotes an hour below 24 and a minute below 60,
    with no seconds. *)
Lemma strptime_HM_inv (s : string) (t : time) :
  strptime_HM s = Ok t ->
  exists h m, 0 <= h < 24 /\ 0 <= m < 60 /\ t = mk_time h m.
Proof.
  unfold strptime_HM.
  destruct (re_match_HM s) as [[[h m] rest]|] eqn:E; [|discriminate].
  destruct rest; [|discriminate]. intros [= <-].
  apply re_match_HM_range in E. exists h, m. tauto.
Qed.

Lemma strptime_inv (v : json) (t : time) :
  strptime v = Ok t ->
  exists s, v = JStr s /\ strptime_HM s = Ok t.
Proof. destruct v; simpl; try discriminate. eauto. Qed.

Lemma strptime_range (v : json) (t : time) :
  strptime v = Ok t -> 0 <= t < US_PER_DAY.
Proof.
  intros H. apply strptime_inv in H as [s [_ H]].
  apply strptime_HM_inv in H as (h & m & Hh & Hm & ->).
  apply mk_time_range; assumption.
Qed.

End ParseFacts.

(* ===================================================================== *)
(** * Facts about the sort and the scan of [get_next_prayer] *)
(* ===================================================================== *)

Section SortFacts.

Lemma insert_by_time_perm x l : insert_by_time x l ≡ₚ x :: l.
Proof.
  induction l as [|y l IH]; simpl; [reflexivity|].
  destruct (snd x <=? snd y); [reflexivity|].
  rewrite IH. apply Permutation_swap.
Qed.

Lemma sort_by_time_perm l : sort_by_time l ≡ₚ l.
Proof.
  induction l as [|x l IH]; simpl; [reflexivity|].
  rewrite insert_by_time_perm, IH. reflexivity.
Qed.

Lemma sort_by_time_elem x l : x ∈ sort_by_time l <-> x ∈ l.
Proof. rewrite sort_by_time_perm. reflexivity. Qed.

Lemma insert_by_time_sorted x l :
  StronglySorted by_time l -> StronglySorted by_time (insert_by_time x l).
Proof.
  induction 1 as [|y l Hl IH Hy]; simpl.
  - repeat constructor.
  - destruct (snd x <=? snd y) eqn:E.
    + apply Z.leb_le in E. constructor.
      * constructor; assumption.
      * constructor; [exact E|].
        eapply Forall_impl; [exact Hy|].
        intros z Hz. unfold by_time in *. lia.
    + apply Z.leb_gt in E. constructor; [exact IH|].
      rewrite insert_by_time_perm. constructor; [|exact Hy].
      unfold by_time. lia.
Qed.

Lemma sort_by_time_sorted l : StronglySorted by_time (sort_by_time l).
Proof.
  induction l; simpl; [constructor|].
  apply insert_by_time_sorted. assumption.
Qed.

(** Two timestamps of one day compare as their times of day. *)
Lemma same_day_lt (a b : datetime) :
  dt_date a = dt_date b -> (dt_time a < dt_time b <-> a < b).
Proof.
  intros H. rewrite (dt_split a), (dt_split b) at 2.
  rewrite H, combine_lt. reflexivity.
Qed.

(** The scan returns an entry it was given, and one it holds to be later
    than now. *)
Lemma find_next_Some current_time l x :
  find_next current_time l = Some x ->
  x ∈ l /\ current_time < dt_time (snd x).
Proof.
  induction l as [|[p d] l IH]; simpl; [discriminate|].
  destruct (current_time <? dt_time d) eqn:E.
  - intros [= <-]. apply Z.ltb_lt in E. split; [left|exact E].
  - intros H. destruct (IH H). split; [right|]; assumption.
Qed.

(** On a list sorted by timestamp, all of the day of [now], the scan finds
    the earliest entry later than [now], if there is one. *)
Lemma find_next_sorted (now : datetime) l :
  StronglySorted by_time l ->
  Forall (fun x => dt_date (snd x) = dt_date now) l ->
  match find_next (dt_time now) l with
  | Some x =>
      x ∈ l /\ now < snd x /\ forall y, y ∈ l -> now < snd y -> snd x <= snd y
  | None => forall y, y ∈ l -> snd y <= now
  end.
Proof.
  induction 1 as [|[p d] l Hl IH Hd]; intros Hday; simpl.
  - intros y Hy. inversion Hy.
  - apply Forall_cons in Hday as [Hd0 Hday]. simpl in Hd0.
    destruct (dt_time now <? dt_time d) eqn:E.
    + apply Z.ltb_lt in E. apply (same_day_lt now d (eq_sym Hd0)) in E.
      split; [left|]. split; [exact E|].
      intros y Hy _. apply elem_of_cons in Hy as [->|Hy]; [simpl; lia|].
      rewrite Forall_forall in Hd. apply (Hd y Hy).
    + apply Z.ltb_ge in E.
      assert (d <= now) as Hle.
      { destruct (Z.le_gt_cases d now) as [?|Hlt]; [assumption|].
        apply (same_day_lt now d (eq_sym Hd0)) in Hlt. lia. }
      specialize (IH Hday).
      destruct (find_next (dt_time now) l) as [x|].
      * destruct IH as (Hx & Hnx & Hmin). split; [right; exact Hx|].
        split; [exact Hnx|].
        intros y Hy Hny. apply elem_of_cons in Hy as [->|Hy].
        -- simpl in Hny. lia.
        -- apply Hmin; assumption.
      * intros y Hy. apply elem_of_cons in Hy as [->|Hy]; [exact Hle|].
        apply IH, Hy.
Qed.

Lemma build_prayer_list_inv today pt l :
  build_prayer_list today pt = Ok l -> Forall2 (timestamp_of today) pt l.
Proof.
  revert l. induction pt as [|[p v] pt IH]; simpl; intros l.
  - intros [= <-]. constructor.
  - destruct (strptime v) as [t|] eqn:Ev; [|discriminate].
    destruct (build_prayer_list today pt) as [l'|]; [|discriminate].
    intros [= <-]. constructor; [|apply IH; reflexivity].
    split; [reflexivity|]. exists t. split; [exact Ev|reflexivity].
Qed.

Lemma build_prayer_list_total today pt :
  forallb (fun kv => parses (snd kv)) pt = true ->
  exists l, build_prayer_list today pt = Ok l.
Proof.
  induction pt as [|[p v] pt IH]; simpl; [eauto|].
  intros H. apply andb_prop in H as [Hv Hpt].
  unfold parses in Hv. destruct (strptime v); [|discriminate].
  destruct (IH Hpt) as [l ->]. eauto.
Qed.

Lemma timestamps_same_day (now : datetime) pt l :
  Forall2 (timestamp_of (dt_date now)) pt l ->
  Forall (fun x => dt_date (snd x) = dt_date now) l.
Proof.
  induction 1 as [|kv x pt l [_ (t & Ht & Hx)] _ IH]; constructor;
    [|exact IH].
  rewrite Hx. apply dt_date_combine. eapply strptime_range, Ht.
Qed.

Lemma dict_get_elem (d : dict) (k : string) (v : json) :
  dict_get d k = Some v -> (k, v) ∈ d.
Proof.
  induction d as [|[k' v'] d IH]; simpl; [discriminate|].
  destruct (String.eqb k' k) eqn:E.
  - apply String.eqb_eq in E. intros [= ->]. subst. left.
  - intros H. right. apply IH, H.
Qed.

Lemma forallb_parses (pt : dict) (p : string) (v : json) :
  forallb (fun kv => parses (snd kv)) pt = true -> (p, v) ∈ pt ->
  exists t, strptime v = Ok t.
Proof.
  intros H Hin. rewrite forallb_forall in H.
  apply list_elem_of_In, H in Hin. simpl in Hin. unfold parses in Hin.
  destruct (strptime v); [eauto|discriminate].
Qed.

End SortFacts.

(* ===================================================================== *)
(** * The next-prayer resolver *)
(* ===================================================================== *)

Section Resolver.

Lemma Forall2_elem_l {A B} (R : A -> B -> Prop) l k x :
  Forall2 R l k -> x ∈ l -> exists y, y ∈ k /\ R x y.
Proof.
  induction 1 as [|a b l k Hab _ IH]; intros Hx; [inversion Hx|].
  apply elem_of_cons in Hx as [->|Hx].
  - exists b. split; [left|exact Hab].
  - destruct (IH Hx) as (y & Hy & Hxy). exists y. split; [right|]; assumption.
Qed.

Lemma Forall2_elem_r {A B} (R : A -> B -> Prop) l k y :
  Forall2 R l k -> y ∈ k -> exists x, x ∈ l /\ R x y.
Proof.
  induction 1 as [|a b l k Hab _ IH]; intros Hy; [inversion Hy|].
  apply elem_of_cons in Hy as [->|Hy].
  - exists a. split; [left|exact Hab].
  - destruct (IH Hy) as (x & Hx & Hxy). exists x. split; [right|]; assumption.
Qed.

(** Reading the clock never fails and changes nothing. *)
Lemma get_current_time_total env s :
  exists now, get_current_time env s = (Ok now, s).
Proof.
  unfold get_current_time, bind, get_self, ret.
  destruct (mock_time (self s)), (mock_start_time (self s)); eauto.
Qed.

Variables (env : Env) (s : State) (now : datetime).
Hypothesis Hnow : get_current_time env s = (Ok now, s).

Let pt := prayer_times (self s).

(** [get_next_prayer] on a table that is not empty, as one expression. *)
Lemma get_next_prayer_unfold :
  pt <> [] ->
  get_next_prayer env s =
  (match build_prayer_list (dt_date now) pt with
   | Raise e => Raise e
   | Ok l =>
       match find_next (dt_time now) (sort_by_time l) with
       | Some (prayer, d) =>
           Ok (Some prayer, Some (JStr (strftime_HM d)), Some (d - now))
       | None =>
           match dict_getitem pt "Fajr" with
           | Raise e => Raise e
           | Ok fajr =>
               match strptime fajr with
               | Raise e => Raise e
               | Ok t =>
                   Ok (Some "Fajr", Some fajr,
                       Some (combine (dt_date (now + timedelta_days 1)) t
                             - now))
               end
           end
       end
   end, s).
Proof.
  subst pt. intros Hne. unfold get_next_prayer, bind at 1, get_self.
  destruct (prayer_times (self s)) as [|kv rest] eqn:Ept; [congruence|].
  unfold bind at 1. rewrite Hnow. unfold bind at 1, lift.
  destruct (build_prayer_list _ _) as [l|e]; [|reflexivity].
  destruct (find_next _ _) as [[prayer d]|]; [reflexivity|].
  unfold bind at 1.
  destruct (dict_getitem _ _) as [fajr|e]; [|reflexivity].
  unfold bind at 1.
  destruct (strptime fajr) as [t|e]; reflexivity.
Qed.

(** The entry found for today is an entry of the table, the earliest of
    those later than now. *)
Lemma next_today l prayer d :
  build_prayer_list (dt_date now) pt = Ok l ->
  find_next (dt_time now) (sort_by_time l) = Some (prayer, d) ->
  exists v t,
    (prayer, v) ∈ pt /\ strptime v = Ok t /\
    d = combine (dt_date now) t /\ dt_time now < t /\
    forall q v' t', (q, v') ∈ pt -> strptime v' = Ok t' ->
                    dt_time now < t' -> t <= t'.
Proof.
  intros Hl Hfind.
  apply build_prayer_list_inv in Hl.
  pose proof (timestamps_same_day _ _ _ Hl) as Hday.
  pose proof (find_next_sorted now (sort_by_time l)
                (sort_by_time_sorted l)) as Hspec.
  rewrite Hfind in Hspec. simpl in Hspec.
  destruct Hspec as (Hin & Hlater & Hmin).
  { rewrite sort_by_time_perm. exact Hday. }
  apply (proj1 (sort_by_time_elem _ _)) in Hin.
  destruct (Forall2_elem_r _ _ _ _ Hl Hin) as ([p v] & Hpv & Hp & t & Ht & Hd).
  simpl in Hp, Ht, Hd. subst p d.
  exists v, t. split; [exact Hpv|]. split; [exact Ht|].
  split; [reflexivity|]. split; [apply later_today, Hlater|].
  intros q v' t' Hq Ht' Hlt.
  destruct (Forall2_elem_l _ _ _ _ Hl Hq) as ([q' d'] & Hq' & _ & t'' & Ht'' & Hd').
  simpl in Ht'', Hd'. rewrite Ht' in Ht''. injection Ht'' as <-. subst d'.
  apply (proj2 (sort_by_time_elem _ _)) in Hq'.
  specialize (Hmin _ Hq'). simpl in Hmin.
  apply combine_le with (day := dt_date now), Hmin, later_today, Hlt.
Qed.

(** When nothing is found for today, every entry of the table is at or
    before now. *)
Lemma none_today l :
  build_prayer_list (dt_date now) pt = Ok l ->
  find_next (dt_time now) (sort_by_time l) = None ->
  forall q v t, (q, v) ∈ pt -> strptime v = Ok t -> t <= dt_time now.
Proof.
  intros Hl Hfind q v t Hq Ht.
  apply build_prayer_list_inv in Hl.
  pose proof (timestamps_same_day _ _ _ Hl) as Hday.
  pose proof (find_next_sorted now (sort_by_time l)
                (sort_by_time_sorted l)) as Hspec.
  rewrite Hfind in Hspec.
  destruct (Forall2_elem_l _ _ _ _ Hl Hq) as ([q' d'] & Hq' & _ & t' & Ht' & Hd').
  simpl in Ht', Hd'. rewrite Ht in Ht'. injection Ht' as <-. subst d'.
  apply (proj2 (sort_by_time_elem _ _)) in Hq'.
  assert (combine (dt_date now) t <= now) as Hle.
  { apply (Hspec ltac:(rewrite sort_by_time_perm; exact Hday) _ Hq'). }
  destruct (Z.le_gt_cases t (dt_time now)) as [?|Hgt]; [assumption|].
  apply later_today in Hgt. lia.
Qed.

(** The duration to a time of day of tomorrow. *)
Lemma duration_tomorrow (t : time) :
  combine (dt_date (now + timedelta_days 1)) t - now
  = US_PER_DAY + t - dt_time now.
Proof.
  rewrite dt_date_tomorrow. rewrite (dt_split now) at 2.
  unfold combine. lia.
Qed.

(** The duration to a time of day of today. *)
Lemma duration_today (t : time) :
  combine (dt_date now) t - now = t - dt_time now.
Proof. rewrite (dt_split now) at 2. unfold combine. lia. Qed.

(** Whatever the table, a duration that [get_next_prayer] returns is
    positive, and at most one day. *)
Lemma returned_duration_positive name time_str diff s' :
  get_next_prayer env s = (Ok (name, time_str, Some diff), s') ->
  0 < diff <= US_PER_DAY.
Proof.
  destruct pt as [|kv rest] eqn:Ept.
  - unfold get_next_prayer, bind, get_self. subst pt. rewrite Ept.
    discriminate.
  - rewrite get_next_prayer_unfold by (rewrite Ept; discriminate).
    destruct (build_prayer_list _ _) as [l|e] eqn:El; [|discriminate].
    pose proof (dt_time_range now) as Hrange.
    destruct (find_next _ _) as [[prayer d]|] eqn:Efind.
    + intros [= _ _ <- _].
      destruct (next_today _ _ _ El Efind) as (v & t & _ & Ht & -> & Hlt & _).
      rewrite duration_today. apply strptime_range in Ht. lia.
    + destruct (dict_getitem _ _) as [fajr|e] eqn:Efajr; [|discriminate].
      destruct (strptime fajr) as [t|e] eqn:Et; [|discriminate].
      intros [= _ _ <- _]. rewrite duration_tomorrow.
      unfold dict_getitem in Efajr.
      destruct (dict_get _ _) as [v|] eqn:Eget; [|discriminate].
      injection Efajr as ->. apply dict_get_elem in Eget.
      pose proof (none_today _ El Efind _ _ _ Eget Et).
      apply strptime_range in Et. lia.
Qed.

End Resolver.

Section ResolverOnValidTables.

Variables (env : Env) (s : State).
Hypothesis Hvalid : valid_table (prayer_times (self s)) = true.

Lemma valid_table_inv :
  map fst (prayer_times (self s)) = PRAYER_NAMES /\
  forallb (fun kv => parses (snd kv)) (prayer_times (self s)) = true.
Proof.
  unfold valid_table in Hvalid. apply andb_prop in Hvalid as [H1 H2].
  apply bool_decide_eq_true in H1. split; assumption.
Qed.

Lemma valid_table_Fajr :
  exists v rest, prayer_times (self s) = ("Fajr", v) :: rest.
Proof.
  destruct valid_table_inv as [Hnames _].
  destruct (prayer_times (self s)) as [|[k v] rest]; [discriminate|].
  injection Hnames as -> _. eauto.
Qed.

(** On a valid table the resolver returns a prayer; which one, and the
    duration to it, in terms of times of day. *)
Lemma get_next_prayer_valid :
  exists now name time_str diff,
    get_current_time env s = (Ok now, s) /\
    get_next_prayer env s = (Ok (Some name, Some time_str, Some diff), s) /\
    ((exists v t,
        (name, v) ∈ prayer_times (self s) /\ strptime v = Ok t /\
        dt_time now < t /\
        (forall q v' t', (q, v') ∈ prayer_times (self s) ->
           strptime v' = Ok t' -> dt_time now < t' -> t <= t') /\
        time_str = JStr (time_strftime_HM t) /\
        diff = t - dt_time now)
     \/
     ((forall q v' t', (q, v') ∈ prayer_times (self s) ->
         strptime v' = Ok t' -> t' <= dt_time now) /\
      name = "Fajr" /\
      exists t,
        dict_get (prayer_times (self s)) "Fajr" = Some time_str /\
        strptime time_str = Ok t /\
        diff = US_PER_DAY + t - dt_time now)).
Proof.
  destruct (get_current_time_total env s) as [now Hnow].
  destruct valid_table_inv as [_ Hparse].
  destruct valid_table_Fajr as (fajr & rest & Ept).
  destruct (build_prayer_list_total (dt_date now) _ Hparse) as [l El].
  pose proof (get_next_prayer_unfold env s now Hnow) as Hrun.
  rewrite El in Hrun.
  destruct (find_next (dt_time now) (sort_by_time l)) as [[prayer d]|]
    eqn:Efind.
  - destruct (next_today s now l prayer d El Efind)
      as (v & t & Hin & Ht & -> & Hlt & Hmin).
    exists now, prayer, (JStr (strftime_HM (combine (dt_date now) t))),
      (combine (dt_date now) t - now).
    split; [exact Hnow|]. split; [apply Hrun; rewrite Ept; discriminate|].
    left. exists v, t. repeat split; try assumption.
    + unfold strftime_HM. rewrite dt_time_combine; [reflexivity|].
      eapply strptime_range, Ht.
    + apply duration_today.
  - assert (dict_get (prayer_times (self s)) "Fajr" = Some fajr) as Hget.
    { rewrite Ept. reflexivity. }
    destruct (forallb_parses _ _ _ Hparse (dict_get_elem _ _ _ Hget))
      as [t Ht].
    unfold dict_getitem in Hrun. rewrite Hget, Ht in Hrun.
    exists now, "Fajr", fajr,
      (combine (dt_date (now + timedelta_days 1)) t - now).
    split; [exact Hnow|]. split; [apply Hrun; rewrite Ept; discriminate|].
    right. split; [exact (none_today s now l El Efind)|].
    split; [reflexivity|]. exists t. repeat split; try assumption.
    apply duration_tomorrow.
Qed.

End ResolverOnValidTables.

(** C1.  On a valid prayer table, whatever the current time,
    [get_next_prayer] returns a prayer with a duration that is not
    negative.  Either the prayer is an entry of the table whose timestamp
    of today is later than now and the least of those later than now, and
    the duration runs to that timestamp; or every entry's timestamp of today
    is at or before now, and the prayer is Fajr, the first name of the
    table, with the duration running to its time on the next calendar
    day. *)
Theorem get_next_prayer_earliest_later (env : Env) (s : State) :
  valid_table (prayer_times (self s)) = true ->
  exists now name time_str diff,
    get_current_time env s = (Ok now, s) /\
    get_next_prayer env s = (Ok (Some name, Some time_str, Some diff), s) /\
    0 <= diff /\
    ((exists v t,
        (name, v) ∈ prayer_times (self s) /\ strptime v = Ok t /\
        now < combine (dt_date now) t /\
        (forall q v' t', (q, v') ∈ prayer_times (self s) ->
           strptime v' = Ok t' -> now < combine (dt_date now) t' ->
           combine (dt_date now) t <= combine (dt_date now) t') /\
        time_str = JStr (time_strftime_HM t) /\
        diff = combine (dt_date now) t - now)
     \/
     ((forall q v' t', (q, v') ∈ prayer_times (self s) ->
         strptime v' = Ok t' -> combine (dt_date now) t' <= now) /\
      name = "Fajr" /\
      head (map fst (prayer_times (self s))) = Some name /\
      exists t,
        dict_get (prayer_times (self s)) "Fajr" = Some time_str /\
        strptime time_str = Ok t /\
        diff = combine (dt_date now + 1) t - now)).
Proof.
  intros Hvalid.
  destruct (get_next_prayer_valid env s Hvalid)
    as (now & name & time_str & diff & Hnow & Hrun & Hcases).
  exists now, name, time_str, diff.
  split; [exact Hnow|]. split; [exact Hrun|].
  split; [pose proof (returned_duration_positive env s now Hnow _ _ _ _ Hrun);
          lia|].
  destruct Hcases as [(v & t & Hin & Ht & Hlt & Hmin & Hstr & Hdiff)
                     |(Hall & Hname & t & Hget & Ht & Hdiff)].
  - left. exists v, t. repeat split; try assumption.
    + apply later_today, Hlt.
    + intros q v' t' Hq Ht' Hlater. apply combine_le.
      apply (Hmin q v' t' Hq Ht'), later_today, Hlater.
    + rewrite duration_today. exact Hdiff.
  - right. split.
    { intros q v' t' Hq Ht'. specialize (Hall q v' t' Hq Ht').
      destruct (Z.le_gt_cases (combine (dt_date now) t') now) as [?|Hgt];
        [assumption|]. apply later_today in Hgt. lia. }
    split; [exact Hname|]. split.
    { destruct (valid_table_Fajr s Hvalid) as (v & rest & ->).
      rewrite Hname. reflexivity. }
    exists t. repeat split; try assumption.
    rewrite Hdiff. rewrite (dt_split now) at 3. unfold combine. lia.
Qed.

(** The sample table at noon: Dhuhr at 12:15, in fifteen minutes. *)
Lemma get_next_prayer_earliest_later_witness :
  exists now name time_str diff,
    get_current_time (env_at (clock 738000 12 0 0)) (state_of sample_app)
      = (Ok now, state_of sample_app) /\
    get_next_prayer (env_at (clock 738000 12 0 0)) (state_of sample_app)
      = (Ok (Some name, Some time_str, Some diff), state_of sample_app) /\
    0 <= diff.
Proof.
  destruct (get_next_prayer_earliest_later
              (env_at (clock 738000 12 0 0)) (state_of sample_app))
    as (now & name & time_str & diff & Hnow & Hrun & Hdiff & _).
  - vm_compute. reflexivity.
  - exists now, name, time_str, diff. repeat split; assumption.
Defined.

(** C10.  A duration that [get_next_prayer] returns is strictly positive,
    whatever the table; and on a valid table it does return one: either to
    an entry whose time of day is strictly later than now's, or, every
    entry's time of day being at or before now's, to Fajr of the next
    day. *)
Theorem get_next_prayer_duration_positive (env : Env) (s : State) :
  (forall name time_str diff s',
     get_next_prayer env s = (Ok (name, time_str, Some diff), s') ->
     0 < diff) /\
  (valid_table (prayer_times (self s)) = true ->
   exists now name time_str diff,
     get_current_time env s = (Ok now, s) /\
     get_next_prayer env s = (Ok (Some name, Some time_str, Some diff), s) /\
     0 < diff /\
     ((exists v t,
         (name, v) ∈ prayer_times (self s) /\ strptime v = Ok t /\
         dt_time now < t /\ diff = t - dt_time now)
      \/
      ((forall q v' t', (q, v') ∈ prayer_times (self s) ->
          strptime v' = Ok t' -> t' <= dt_time now) /\
       name = "Fajr" /\
       exists t,
         dict_get (prayer_times (self s)) "Fajr" = Some time_str /\
         strptime time_str = Ok t /\
         diff = US_PER_DAY + t - dt_time now))).
Proof.
  destruct (get_current_time_total env s) as [now0 Hnow0].
  split.
  - intros name time_str diff s' Hrun.
    pose proof (returned_duration_positive env s now0 Hnow0 _ _ _ _ Hrun).
    lia.
  - intros Hvalid.
    destruct (get_next_prayer_valid env s Hvalid)
      as (now & name & time_str & diff & Hnow & Hrun & Hcases).
    exists now, name, time_str, diff.
    split; [exact Hnow|]. split; [exact Hrun|].
    split; [pose proof (returned_duration_positive env s now Hnow _ _ _ _ Hrun);
            lia|].
    destruct Hcases as [(v & t & Hin & Ht & Hlt & _ & _ & Hdiff)|Hfajr].
    + left. exists v, t. repeat split; assumption.
    + right. exact Hfajr.
Qed.

(** The sample table at 12:15:00 sharp: Dhuhr has passed, Asr is next. *)
Lemma get_next_prayer_duration_positive_witness :
  exists diff,
    get_next_prayer (env_at (clock 738000 12 15 0)) (state_of sample_app)
      = (Ok (Some "Asr", Some (JStr "15:45"), Some diff),
         state_of sample_app) /\
    0 < diff.
Proof.
  destruct (get_next_prayer_duration_positive
              (env_at (clock 738000 12 15 0)) (state_of sample_app))
    as [Hpos Hvalid].
  destruct Hvalid as (now & name & time_str & diff & _ & Hrun & _).
  - vm_compute. reflexivity.
  - exists (210 * US_PER_MINUTE). split; [reflexivity|].
    apply (Hpos (Some "Asr") (Some (JStr "15:45")) _ (state_of sample_app)).
    reflexivity.
Defined.

(** C6 (as the code has it).  When the prayer table has no entries,
    [get_next_prayer] does not fail: it returns the triple
    (None, None, None) and changes nothing. *)
Theorem get_next_prayer_empty_table (env : Env) (s : State) :
  prayer_times (self s) = [] ->
  get_next_prayer env s = (Ok (None, None, None), s).
Proof.
  intros Hempty. unfold get_next_prayer, bind, get_self.
  rewrite Hempty. reflexivity.
Qed.

Lemma get_next_prayer_empty_table_witness :
  get_next_prayer (env_at (clock 738000 12 0 0))
    (state_of (app_of [] JNull None None ∅))
  = (Ok (None, None, None), state_of (app_of [] JNull None None ∅)).
Proof. apply get_next_prayer_empty_table. reflexivity. Defined.

(** C6, the claim as stated fails: on the object as [__init__] leaves it,
    with an empty table, the call raises nothing and returns a result. *)
Lemma get_next_prayer_empty_table_counterexample :
  let s := snd (init (env_at (clock 738000 12 0 0)) None
                  (state_of sample_app)) in
  prayer_times (self s) = [] /\
  fst (get_next_prayer (env_at (clock 738000 12 0 0)) s)
    = Ok (None, None, None) /\
  ~ exists e, fst (get_next_prayer (env_at (clock 738000 12 0 0)) s)
              = Raise e.
Proof.
  split; [reflexivity|]. split; [reflexivity|].
  intros [e He]. discriminate He.
Qed.

(* ===================================================================== *)
(** * Reasoning about methods by what a stretch of execution may do *)
(* ===================================================================== *)

Section Steps.

Context (R : State -> State -> Prop) `{!PreOrder R}.

Lemma steps_ret {A} (a : A) : steps R (ret a).
Proof. intros s. reflexivity. Qed.

Lemma steps_lift {A} (r : result A) : steps R (lift r).
Proof. intros s. reflexivity. Qed.

Lemma steps_raise {A} (e : exn) : steps R (@raise A e).
Proof. intros s. reflexivity. Qed.

Lemma steps_get_self : steps R get_self.
Proof. intros s. reflexivity. Qed.

Lemma steps_get_jobs : steps R get_jobs.
Proof. intros s. reflexivity. Qed.

Lemma steps_bind {A B} (m : M A) (k : A -> M B) :
  steps R m -> (forall a, steps R (k a)) -> steps R (bind m k).
Proof.
  intros Hm Hk s. unfold bind. specialize (Hm s).
  destruct (m s) as [[a|e] s1]; simpl in *; [|exact Hm].
  etransitivity; [exact Hm|apply Hk].
Qed.

Lemma steps_try_except {A} (body : M A) (handler : exn -> M A) :
  steps R body -> (forall e, steps R (handler e)) ->
  steps R (try_except body handler).
Proof.
  intros Hb Hh s. unfold try_except. specialize (Hb s).
  destruct (body s) as [[a|e] s1]; simpl in *; [exact Hb|].
  destruct (is_Exception e); [|exact Hb].
  etransitivity; [exact Hb|apply Hh].
Qed.

Lemma steps_except_KeyboardInterrupt (body handler : M unit) :
  steps R body -> steps R handler ->
  steps R (except_KeyboardInterrupt body handler).
Proof.
  intros Hb Hh s. unfold except_KeyboardInterrupt. specialize (Hb s).
  destruct (body s) as [[a|e] s1]; simpl in *; [exact Hb|].
  destruct e; try exact Hb.
  etransitivity; [exact Hb|apply Hh].
Qed.

Lemma steps_for_each {A} (xs : list A) (body : A -> M unit) :
  (forall x, steps R (body x)) -> steps R (for_each xs body).
Proof.
  intros Hbody. induction xs as [|x xs IH]; simpl.
  - apply steps_ret.
  - apply steps_bind; [apply Hbody|intros _; exact IH].
Qed.

End Steps.

(** One step of the structural proof that a method is made of pieces
    that each keep to [R]. *)
Ltac steps_structure :=
  lazymatch goal with
  | |- steps _ (bind _ _) =>
      apply steps_bind; try typeclasses eauto; [|intros ?]
  | |- steps _ (ret _) => apply steps_ret; typeclasses eauto
  | |- steps _ (lift _) => apply steps_lift; typeclasses eauto
  | |- steps _ (raise _) => apply steps_raise; typeclasses eauto
  | |- steps _ get_self => apply steps_get_self; typeclasses eauto
  | |- steps _ get_jobs => apply steps_get_jobs; typeclasses eauto
  | |- steps _ (try_except _ _) =>
      apply steps_try_except; try typeclasses eauto; [|intros ?]
  | |- steps _ (except_KeyboardInterrupt _ _) =>
      apply steps_except_KeyboardInterrupt; try typeclasses eauto
  | |- steps _ (for_each _ _) =>
      apply steps_for_each; try typeclasses eauto; intros ?
  | |- steps _ (if ?b then _ else _) => destruct b
  | |- steps _ (match ?x with _ => _ end) => destruct x
  end.

#[local] Instance fires_pending_once_preorder : PreOrder fires_pending_once.
Proof.
  split.
  - intros s. split; [reflexivity|]. exists []. rewrite app_nil_r.
    split; [reflexivity|]. split; [constructor|]. intros p Hp. inversion Hp.
  - intros s1 s2 s3 (Hsub1 & new1 & Hout1 & Hnd1 & Hnew1)
                    (Hsub2 & new2 & Hout2 & Hnd2 & Hnew2).
    split; [etransitivity; eassumption|]. exists (new1 ++ new2).
    split; [rewrite Hout2, Hout1, app_assoc; reflexivity|].
    unfold played_log in *. rewrite omap_app.
    rewrite elem_of_subseteq in Hsub1, Hsub2. split.
    + apply NoDup_app. split; [exact Hnd1|]. split; [|exact Hnd2].
      intros p Hp1 Hp2. apply Hnew1 in Hp1. apply Hnew2 in Hp2. tauto.
    + intros p Hp. apply elem_of_app in Hp as [Hp|Hp].
      * destruct (Hnew1 p Hp) as [Hout Hin]. split; [exact Hout|].
        apply Hsub2, Hin.
      * destruct (Hnew2 p Hp) as [Hout Hin]. split; [|exact Hin].
        intros Hp1. apply Hout, Hsub1, Hp1.
Qed.

#[local] Instance same_self_preorder : PreOrder same_self.
Proof.
  split; [intros s; reflexivity|].
  intros s1 s2 s3 H1 H2. unfold same_self in *. congruence.
Qed.

#[local] Instance same_anchor_preorder : PreOrder same_anchor.
Proof.
  split; [intros s; split; reflexivity|].
  intros s1 s2 s3 [H1 H1'] [H2 H2']. split; congruence.
Qed.

#[local] Instance same_played_preorder : PreOrder same_played.
Proof.
  split; [intros s; reflexivity|].
  intros s1 s2 s3 H1 H2. unfold same_played in *. congruence.
Qed.

#[local] Instance played_grows_preorder : PreOrder played_grows.
Proof.
  split; [intros s; unfold played_grows; reflexivity|].
  intros s1 s2 s3 H1 H2. unfold played_grows in *.
  etransitivity; eassumption.
Qed.

#[local] Instance no_refresh_preorder : PreOrder no_refresh.
Proof.
  split.
  - intros s. repeat (split; [reflexivity|]). exists [].
    rewrite app_nil_r. split; [reflexivity|]. split; [reflexivity|].
    intros H. inversion H.
  - intros s1 s2 s3 (Ht1 & Hd1 & Hm1 & Hj1 & new1 & Ho1 & Hr1 & Hh1)
                    (Ht2 & Hd2 & Hm2 & Hj2 & new2 & Ho2 & Hr2 & Hh2).
    repeat (split; [congruence|]). exists (new1 ++ new2).
    split; [rewrite Ho2, Ho1, app_assoc; reflexivity|].
    split; [rewrite forallb_app, Hr1, Hr2; reflexivity|].
    intros H. apply elem_of_app in H as [H|H]; tauto.
Qed.

(* ===================================================================== *)
(** * The firing tick of mock mode *)
(* ===================================================================== *)

Section Firing.

Variable env : Env.

(** [play_azaan] starts [afplay] once, reports, and changes nothing of the
    object; an [Exception] of the playback is caught. *)
Lemma play_azaan_effect prayer s :
  play_azaan env prayer s =
  (playback_result env prayer,
   {| self := self s; jobs := jobs s;
      output := output s ++
        Print (MsgTimeFor prayer) :: Afplay prayer (audio_file (self s))
        :: playback_report env prayer |}).
Proof.
  unfold play_azaan, try_except, bind, print, emit, get_self, lift,
    playback_result, playback_report. simpl.
  destruct (subprocess_run env prayer) as [[]|e]; simpl.
  - rewrite <- !app_assoc. reflexivity.
  - destruct (is_Exception e); simpl; rewrite <- !app_assoc; reflexivity.
Qed.

Lemma playback_report_quiet prayer : played_log (playback_report env prayer) = [].
Proof.
  unfold playback_report.
  destruct (subprocess_run env prayer) as [|e]; [reflexivity|].
  destruct (is_Exception e); reflexivity.
Qed.

(** One entry of the tick: a due entry is first added to
    [played_prayers], then played; another entry changes nothing. *)
Lemma check_entry_effect current_time_str item s :
  check_entry env current_time_str item s =
  if due current_time_str item s then
    (playback_result env (fst item),
     {| self := set_played_prayers
                  (played_prayers (self s) ∪ {[fst item]}) (self s);
        jobs := jobs s;
        output := output s ++
          Print (MsgTimeFor (fst item))
          :: Afplay (fst item) (audio_file (self s))
          :: playback_report env (fst item) |})
  else (Ok tt, s).
Proof.
  destruct item as [prayer time_str]. unfold check_entry, due. simpl.
  unfold bind at 1, get_self.
  destruct (json_eq_str time_str current_time_str
            && negb (bool_decide (prayer ∈ played_prayers (self s))));
    [|reflexivity].
  unfold bind, modify_self. rewrite play_azaan_effect. reflexivity.
Qed.

Lemma check_entry_fires_pending_once current_time_str item :
  steps fires_pending_once (check_entry env current_time_str item).
Proof.
  intros s. rewrite check_entry_effect.
  destruct (due current_time_str item s) eqn:Edue; [|reflexivity].
  apply andb_prop in Edue as [_ Hnot].
  apply negb_true_iff, bool_decide_eq_false in Hnot.
  split; simpl; [apply union_subseteq_l|].
  eexists. split; [reflexivity|].
  unfold played_log. simpl. fold (played_log (playback_report env (fst item))).
  rewrite playback_report_quiet. split; [apply NoDup_singleton|].
  intros p Hp. apply list_elem_of_singleton in Hp as ->.
  split; [exact Hnot|]. apply elem_of_union_r, elem_of_singleton.
  reflexivity.
Qed.

Lemma check_prayer_times_mock_fires_pending_once :
  steps fires_pending_once (check_prayer_times_mock env).
Proof.
  unfold check_prayer_times_mock, get_current_time.
  repeat steps_structure.
  all: apply check_entry_fires_pending_once.
Qed.

End Firing.

Lemma mock_ticks_fires_pending_once envs :
  steps fires_pending_once (mock_ticks envs).
Proof.
  unfold mock_ticks. apply steps_for_each; [typeclasses eauto|].
  intros env. apply check_prayer_times_mock_fires_pending_once.
Qed.

Lemma filter_absent (prayer : string) (l : list string) :
  prayer ∉ l -> filter (fun p => p = prayer) l = [].
Proof.
  induction l as [|x l IH]; intros Hnot; [reflexivity|].
  apply not_elem_of_cons in Hnot as [Hne Hnot].
  rewrite filter_cons_False by congruence. apply IH, Hnot.
Qed.

Lemma filter_NoDup (prayer : string) (l : list string) :
  NoDup l -> (length (filter (fun p => p = prayer) l) <= 1)%nat.
Proof.
  induction 1 as [|x l Hx _ IH]; [simpl; lia|].
  destruct (decide (x = prayer)) as [->|Hne].
  - rewrite filter_cons_True by reflexivity.
    rewrite filter_absent by exact Hx. simpl. lia.
  - rewrite filter_cons_False by exact Hne. exact IH.
Qed.

(** A prayer that is in [played_prayers] is not played again, and each
    prayer is played at most once, whatever the ticks. *)
Lemma fires_pending_once_count s s' prayer :
  fires_pending_once s s' ->
  exists new,
    output s' = output s ++ new /\
    (afplay_count prayer new <= 1)%nat /\
    (prayer ∈ played_prayers (self s) -> afplay_count prayer new = 0%nat).
Proof.
  intros (_ & new & Hout & Hnd & Hnew). exists new.
  split; [exact Hout|]. unfold afplay_count.
  split; [apply filter_NoDup, Hnd|].
  intros Hin. rewrite filter_absent; [reflexivity|].
  intros Hlog. apply Hnew in Hlog. tauto.
Qed.

(** C2.  Once a prayer is in [played_prayers], the fire-check tick can be
    evaluated any number of times, at any times (so also again and again
    within one minute): [afplay] is never started for that prayer again,
    and the prayer stays in [played_prayers]. *)
Theorem firing_is_idempotent (envs : list Env) (s : State) (prayer : string) :
  prayer ∈ played_prayers (self s) ->
  exists new,
    output (snd (mock_ticks envs s)) = output s ++ new /\
    afplay_count prayer new = 0%nat /\
    Forall (fun ev => afplay_of ev <> Some prayer) new /\
    prayer ∈ played_prayers (self (snd (mock_ticks envs s))).
Proof.
  intros Hin.
  pose proof (mock_ticks_fires_pending_once envs s) as Hsteps.
  destruct (fires_pending_once_count _ _ prayer Hsteps)
    as (new & Hout & _ & Hzero).
  exists new. split; [exact Hout|]. split; [exact (Hzero Hin)|].
  destruct Hsteps as (Hsub & new' & Hout' & _ & Hnew).
  split; [|rewrite elem_of_subseteq in Hsub; apply Hsub, Hin].
  rewrite Hout in Hout'. apply app_inv_head in Hout' as <-.
  apply Forall_forall. intros ev Hev Hplay.
  assert (prayer ∈ played_log new) as Hlog.
  { unfold played_log. apply list_elem_of_omap. eauto. }
  apply Hnew in Hlog. tauto.
Qed.

(** Maghrib has fired; two more ticks in its minute, 18:20:05 and 18:20:06,
    start no playback. *)
Lemma firing_is_idempotent_witness :
  exists new,
    output (snd (mock_ticks
                   [env_at (clock 738000 18 20 5);
                    env_at (clock 738000 18 20 6)]
                   (state_of (app_of sample_times JNull None None
                                {["Maghrib"]}))))
    = [] ++ new /\
    afplay_count "Maghrib" new = 0%nat.
Proof.
  destruct (firing_is_idempotent
              [env_at (clock 738000 18 20 5); env_at (clock 738000 18 20 6)]
              (state_of (app_of sample_times JNull None None {["Maghrib"]}))
              "Maghrib")
    as (new & Hout & Hcount & _).
  - simpl. apply elem_of_singleton. reflexivity.
  - exists new. split; assumption.
Defined.

Lemma afplay_count_elem (prayer : string) (out : list event) :
  prayer ∈ played_log out -> (1 <= afplay_count prayer out)%nat.
Proof.
  unfold afplay_count. intros Hin.
  assert (prayer ∈ filter (fun p => p = prayer) (played_log out)) as Hf.
  { apply list_elem_of_filter. split; [reflexivity|exact Hin]. }
  destruct (filter _ _); [inversion Hf|simpl; lia].
Qed.

Section FailedPlayback.

Variables (env : Env) (current_time_str : string).

(** No playback of this tick ends in something that is not an
    [Exception]. *)
Hypothesis Herrors :
  forall q e, subprocess_run env q = Raise e -> is_Exception e = true.

Lemma playback_result_ok prayer : playback_result env prayer = Ok tt.
Proof.
  unfold playback_result.
  destruct (subprocess_run env prayer) as [|e] eqn:E; [reflexivity|].
  rewrite (Herrors _ _ E). reflexivity.
Qed.

Lemma check_entry_ok item s :
  fst (check_entry env current_time_str item s) = Ok tt.
Proof.
  rewrite check_entry_effect.
  destruct (due current_time_str item s); [|reflexivity].
  apply playback_result_ok.
Qed.

Lemma tick_loop_ok items s :
  fst (for_each items (check_entry env current_time_str) s) = Ok tt.
Proof.
  revert s. induction items as [|item items IH]; intros s; [reflexivity|].
  simpl. unfold bind at 1.
  pose proof (check_entry_ok item s) as Hok.
  destruct (check_entry env current_time_str item s) as [[[]|e] s1];
    [apply IH|discriminate Hok].
Qed.

Lemma tick_loop_cons item items s :
  for_each (item :: items) (check_entry env current_time_str) s =
  for_each items (check_entry env current_time_str)
    (snd (check_entry env current_time_str item s)).
Proof.
  simpl. unfold bind.
  pose proof (check_entry_ok item s) as Hok.
  destruct (check_entry env current_time_str item s) as [[[]|e] s1];
    [reflexivity|discriminate Hok].
Qed.

Lemma tick_loop_fires_pending_once items :
  steps fires_pending_once (for_each items (check_entry env current_time_str)).
Proof.
  apply steps_for_each; [typeclasses eauto|].
  intros item. apply check_entry_fires_pending_once.
Qed.

(** A due entry of the table is fired by the loop of the tick. *)
Lemma tick_loop_fires items s prayer v :
  (prayer, v) ∈ items ->
  json_eq_str v current_time_str = true ->
  prayer ∉ played_prayers (self s) ->
  prayer ∈ played_prayers
    (self (snd (for_each items (check_entry env current_time_str) s))) /\
  exists before after,
    output (snd (for_each items (check_entry env current_time_str) s)) =
    output s ++ before ++
      (Print (MsgTimeFor prayer) :: Afplay prayer (audio_file (self s))
       :: playback_report env prayer) ++ after.
Proof.
  intros Hin Hstr. revert s Hin.
  induction items as [|item items IH]; intros s Hin Hnot;
    [inversion Hin|].
  rewrite tick_loop_cons, check_entry_effect.
  destruct (due current_time_str item s) eqn:Edue; cbn [snd].
  - set (s1 := {| self := _; jobs := _; output := _ |}).
    destruct (tick_loop_fires_pending_once items s1)
      as (Hsub & new & Hout & _ & _).
    rewrite elem_of_subseteq in Hsub.
    destruct (decide (fst item = prayer)) as [Heq|Hne].
    + split.
      * apply Hsub. simpl. rewrite Heq.
        apply elem_of_union_r, elem_of_singleton. reflexivity.
      * exists [], new. rewrite Hout. simpl. rewrite Heq.
        rewrite <- !app_assoc. reflexivity.
    + assert ((prayer, v) ∈ items) as Hin'.
      { apply elem_of_cons in Hin as [Heq|Hin]; [|exact Hin].
        subst item. contradiction Hne. reflexivity. }
      destruct (IH s1 Hin') as (Hplayed & before & after & Hout').
      { simpl. intros Hp. apply elem_of_union in Hp as [Hp|Hp];
          [contradiction|].
        apply elem_of_singleton in Hp. congruence. }
      split; [exact Hplayed|].
      exists ((Print (MsgTimeFor (fst item))
               :: Afplay (fst item) (audio_file (self s))
               :: playback_report env (fst item)) ++ before), after.
      rewrite Hout'. subst s1. cbn [self output audio_file set_played_prayers].
      rewrite <- !app_assoc. reflexivity.
  - assert ((prayer, v) ∈ items) as Hin'.
    { apply elem_of_cons in Hin as [Heq|Hin]; [|exact Hin].
      subst item. unfold due in Edue. simpl in Edue. rewrite Hstr in Edue.
      simpl in Edue. apply negb_false_iff, bool_decide_eq_true in Edue.
      contradiction. }
    apply IH; assumption.
Qed.

End FailedPlayback.

(** C7.  A prayer whose minute has come and that is not in
    [played_prayers], while [afplay] fails with an error: the tick returns
    normally, the error is printed, the prayer is in [played_prayers]
    afterwards, and however many ticks follow, at whatever times, [afplay]
    is started for this prayer this once only. *)
Theorem failed_playback_still_fired
    (env : Env) (s : State) (now : datetime) (prayer : string) (e : exn) :
  get_current_time env s = (Ok now, s) ->
  (prayer, JStr (strftime_HM now)) ∈ prayer_times (self s) ->
  prayer ∉ played_prayers (self s) ->
  subprocess_run env prayer = Raise e ->
  (forall q e', subprocess_run env q = Raise e' -> is_Exception e' = true) ->
  fst (check_prayer_times_mock env s) = Ok tt /\
  prayer ∈ played_prayers (self (snd (check_prayer_times_mock env s))) /\
  (exists before after,
     output (snd (check_prayer_times_mock env s)) =
     output s ++ before ++
       [Print (MsgTimeFor prayer); Afplay prayer (audio_file (self s));
        Print (MsgErrorPlaying e)] ++ after) /\
  forall envs, exists new,
    output (snd (mock_ticks (env :: envs) s)) = output s ++ new /\
    afplay_count prayer new = 1%nat /\
    prayer ∈ played_prayers (self (snd (mock_ticks (env :: envs) s))).
Proof.
  intros Hnow Hin Hnot Hfail Herrors.
  assert (check_prayer_times_mock env s =
          for_each (prayer_times (self s))
            (check_entry env (strftime_HM now)) s) as Htick.
  { unfold check_prayer_times_mock, bind at 1. rewrite Hnow.
    reflexivity. }
  pose proof (tick_loop_ok env (strftime_HM now) Herrors
                (prayer_times (self s)) s) as Hok.
  destruct (tick_loop_fires env (strftime_HM now) Herrors
              (prayer_times (self s)) s prayer _ Hin)
    as (Hplayed & before & after & Hout); [apply String.eqb_refl|exact Hnot|].
  rewrite <- Htick in Hok, Hplayed, Hout.
  assert (playback_report env prayer = [Print (MsgErrorPlaying e)]) as Hrep.
  { unfold playback_report. rewrite Hfail, (Herrors _ _ Hfail). reflexivity. }
  rewrite Hrep in Hout.
  split; [exact Hok|]. split; [exact Hplayed|].
  split; [exists before, after; exact Hout|].
  intros envs.
  assert (mock_ticks (env :: envs) s =
          mock_ticks envs (snd (check_prayer_times_mock env s))) as Hseq.
  { unfold mock_ticks. simpl. unfold bind.
    destruct (check_prayer_times_mock env s) as [[[]|e'] s1];
      [reflexivity|discriminate Hok]. }
  pose proof (mock_ticks_fires_pending_once (env :: envs) s) as Hall.
  destruct (fires_pending_once_count _ _ prayer Hall)
    as (new & Hnew & Hle & _).
  destruct (mock_ticks_fires_pending_once envs
              (snd (check_prayer_times_mock env s)))
    as (Hsub & new2 & Hout2 & _ & _).
  rewrite elem_of_subseteq in Hsub.
  exists new. split; [exact Hnew|].
  split; [|rewrite Hseq; apply Hsub, Hplayed].
  rewrite Hseq, Hout2, Hout, <- !app_assoc in Hnew.
  apply app_inv_head in Hnew. subst new.
  apply Nat.le_antisymm; [exact Hle|].
  apply afplay_count_elem. unfold played_log. rewrite omap_app.
  apply elem_of_app. right. simpl. left.
Qed.

(** Maghrib at 18:20, the clock at 18:20:05, [afplay] exiting with status
    1: the tick returns, Maghrib is in [played_prayers]. *)
Lemma failed_playback_still_fired_witness :
  fst (check_prayer_times_mock
         (env_afplay (clock 738000 18 20 5) (Raise (CalledProcessError 1)))
         (state_of sample_app)) = Ok tt /\
  "Maghrib" ∈ played_prayers (self (snd (check_prayer_times_mock
         (env_afplay (clock 738000 18 20 5) (Raise (CalledProcessError 1)))
         (state_of sample_app)))).
Proof.
  destruct (failed_playback_still_fired
              (env_afplay (clock 738000 18 20 5)
                 (Raise (CalledProcessError 1)))
              (state_of sample_app) (clock 738000 18 20 5) "Maghrib"
              (CalledProcessError 1))
    as (Hok & Hplayed & _).
  - reflexivity.
  - change (strftime_HM (clock 738000 18 20 5)) with "18:20".
    simpl. unfold sample_times. repeat constructor.
  - simpl. apply not_elem_of_empty.
  - reflexivity.
  - simpl. intros q e' [= <-]. reflexivity.
  - split; assumption.
Defined.

(* ===================================================================== *)
(** * What each method leaves unchanged *)
(* ===================================================================== *)

(** Proves [steps R m] for a method [m] from its structure; [leaf] proves
    the assignments and the output, [known] the calls of other methods. *)
Ltac steps_auto known leaf :=
  repeat first [ steps_structure | solve [known] | solve [leaf] ].

Ltac same_played_leaf := intros ?; reflexivity.
Ltac same_anchor_leaf := intros ?; split; reflexivity.
Ltac played_grows_leaf :=
  intros ?; unfold played_grows; simpl;
  first [ reflexivity | apply union_subseteq_l ].
Ltac no_refresh_leaf :=
  intros ?; unfold no_refresh; simpl; repeat (split; [reflexivity|]);
  first
    [ exists []; rewrite app_nil_r; split; [reflexivity|];
      split; [reflexivity|]; intros H; inversion H
    | eexists [_]; split; [reflexivity|]; split; [reflexivity|];
      intros H; apply list_elem_of_singleton in H; discriminate H ].

Section Frames.

Variable env : Env.

(** ** [played_prayers] is written by the tick only *)

Lemma get_current_time_same_played : steps same_played (get_current_time env).
Proof. unfold get_current_time. steps_auto fail same_played_leaf. Qed.

Lemma fetch_prayer_times_same_played :
  steps same_played (fetch_prayer_times env).
Proof. unfold fetch_prayer_times. steps_auto fail same_played_leaf. Qed.

Lemma play_azaan_same_played prayer : steps same_played (play_azaan env prayer).
Proof. unfold play_azaan. steps_auto fail same_played_leaf. Qed.

Lemma register_jobs_same_played : steps same_played (register_jobs env).
Proof.
  unfold register_jobs, schedule_every_day_at_do, schedule_clear.
  steps_auto fail same_played_leaf.
Qed.

Lemma schedule_prayers_same_played : steps same_played (schedule_prayers env).
Proof.
  unfold schedule_prayers.
  steps_auto ltac:(first [ apply fetch_prayer_times_same_played
                         | apply register_jobs_same_played ])
             same_played_leaf.
Qed.

Lemma fetch_and_reschedule_same_played :
  steps same_played (fetch_and_reschedule env).
Proof.
  unfold fetch_and_reschedule.
  steps_auto ltac:(first [ apply fetch_prayer_times_same_played
                         | apply schedule_prayers_same_played ])
             same_played_leaf.
Qed.

Lemma get_next_prayer_same_played : steps same_played (get_next_prayer env).
Proof.
  unfold get_next_prayer.
  steps_auto ltac:(apply get_current_time_same_played) same_played_leaf.
Qed.

Lemma schedule_run_pending_same_played :
  steps same_played (schedule_run_pending env).
Proof.
  unfold schedule_run_pending, run_job.
  steps_auto ltac:(first [ apply play_azaan_same_played
                         | apply fetch_and_reschedule_same_played ])
             same_played_leaf.
Qed.

(** ** Nothing is ever removed from [played_prayers] *)

Lemma same_played_grows {A} (m : M A) : steps same_played m -> steps played_grows m.
Proof.
  intros H s. specialize (H s). unfold same_played, played_grows in *.
  rewrite H. reflexivity.
Qed.

Lemma check_prayer_times_mock_played_grows :
  steps played_grows (check_prayer_times_mock env).
Proof. intros s. apply check_prayer_times_mock_fires_pending_once. Qed.

Lemma loop_iteration_played_grows : steps played_grows (loop_iteration env).
Proof.
  unfold loop_iteration.
  steps_auto ltac:(first [ apply check_prayer_times_mock_played_grows
                         | apply same_played_grows,
                             schedule_run_pending_same_played ])
             played_grows_leaf.
Qed.

Lemma exec_played_grows c : steps played_grows (exec c env).
Proof.
  destruct c; simpl;
  steps_auto ltac:(first
    [ apply check_prayer_times_mock_played_grows
    | apply loop_iteration_played_grows
    | apply same_played_grows;
      first [ apply get_current_time_same_played
            | apply fetch_prayer_times_same_played
            | apply play_azaan_same_played
            | apply schedule_prayers_same_played
            | apply fetch_and_reschedule_same_played
            | apply get_next_prayer_same_played
            | apply schedule_run_pending_same_played ] ])
    played_grows_leaf.
Qed.

(** ** The anchor pair of the simulated clock is written by no method *)

Lemma get_current_time_same_anchor : steps same_anchor (get_current_time env).
Proof. unfold get_current_time. steps_auto fail same_anchor_leaf. Qed.

Lemma fetch_prayer_times_same_anchor :
  steps same_anchor (fetch_prayer_times env).
Proof. unfold fetch_prayer_times. steps_auto fail same_anchor_leaf. Qed.

Lemma play_azaan_same_anchor prayer : steps same_anchor (play_azaan env prayer).
Proof. unfold play_azaan. steps_auto fail same_anchor_leaf. Qed.

Lemma register_jobs_same_anchor : steps same_anchor (register_jobs env).
Proof.
  unfold register_jobs, schedule_every_day_at_do, schedule_clear.
  steps_auto fail same_anchor_leaf.
Qed.

Lemma schedule_prayers_same_anchor : steps same_anchor (schedule_prayers env).
Proof.
  unfold schedule_prayers.
  steps_auto ltac:(first [ apply fetch_prayer_times_same_anchor
                         | apply register_jobs_same_anchor ])
             same_anchor_leaf.
Qed.

Lemma fetch_and_reschedule_same_anchor :
  steps same_anchor (fetch_and_reschedule env).
Proof.
  unfold fetch_and_reschedule.
  steps_auto ltac:(first [ apply fetch_prayer_times_same_anchor
                         | apply schedule_prayers_same_anchor ])
             same_anchor_leaf.
Qed.

Lemma get_next_prayer_same_anchor : steps same_anchor (get_next_prayer env).
Proof.
  unfold get_next_prayer.
  steps_auto ltac:(apply get_current_time_same_anchor) same_anchor_leaf.
Qed.

Lemma check_prayer_times_mock_same_anchor :
  steps same_anchor (check_prayer_times_mock env).
Proof.
  unfold check_prayer_times_mock, check_entry.
  steps_auto ltac:(first [ apply get_current_time_same_anchor
                         | apply play_azaan_same_anchor ])
             same_anchor_leaf.
Qed.

Lemma schedule_run_pending_same_anchor :
  steps same_anchor (schedule_run_pending env).
Proof.
  unfold schedule_run_pending, run_job.
  steps_auto ltac:(first [ apply play_azaan_same_anchor
                         | apply fetch_and_reschedule_same_anchor ])
             same_anchor_leaf.
Qed.

Lemma loop_iteration_same_anchor : steps same_anchor (loop_iteration env).
Proof.
  unfold loop_iteration.
  steps_auto ltac:(first [ apply check_prayer_times_mock_same_anchor
                         | apply schedule_run_pending_same_anchor ])
             same_anchor_leaf.
Qed.

Lemma exec_same_anchor c : steps same_anchor (exec c env).
Proof.
  destruct c; simpl;
  steps_auto ltac:(first
    [ apply get_current_time_same_anchor
    | apply fetch_prayer_times_same_anchor
    | apply play_azaan_same_anchor
    | apply schedule_prayers_same_anchor
    | apply fetch_and_reschedule_same_anchor
    | apply get_next_prayer_same_anchor
    | apply check_prayer_times_mock_same_anchor
    | apply schedule_run_pending_same_anchor
    | apply loop_iteration_same_anchor ])
    same_anchor_leaf.
Qed.

(** ** The tick of mock mode does not refresh *)

Lemma check_prayer_times_mock_no_refresh :
  steps no_refresh (check_prayer_times_mock env).
Proof.
  unfold check_prayer_times_mock, check_entry, get_current_time, play_azaan.
  steps_auto fail no_refresh_leaf.
Qed.

End Frames.

Lemma exec_all_steps (R : State -> State -> Prop) `{!PreOrder R} :
  (forall c env, steps R (exec c env)) ->
  forall cs s, R s (exec_all cs s).
Proof.
  intros Hexec cs. induction cs as [|[c env] cs IH]; intros s; simpl.
  - reflexivity.
  - etransitivity; [apply Hexec|apply IH].
Qed.

(* ===================================================================== *)
(** * Fetching the table and the daily refresh *)
(* ===================================================================== *)

Section Fetch.

Variables (env : Env) (s : State).

Let s0 : State := add_output [Print MsgFetching; HttpGet] s.

Lemma subscript_raises_Exception v k e :
  subscript v k = Raise e -> is_Exception e = true.
Proof.
  destruct v; simpl; try (intros [= <-]; reflexivity).
  unfold dict_getitem. destruct (dict_get d k); [discriminate|].
  intros [= <-]. reflexivity.
Qed.

Lemma and_then_raises {A B} (r : result A) (k : A -> result B) e :
  and_then r k = Raise e ->
  r = Raise e \/ exists a, r = Ok a /\ k a = Raise e.
Proof. destruct r as [a|e']; simpl; [eauto|intros [= ->]; eauto]. Qed.

Lemma read_table_raises_Exception data e :
  read_table data = Raise e -> is_Exception e = true.
Proof.
  unfold read_table. intros H.
  do 7 (apply and_then_raises in H as [H|(? & _ & H)];
        [eapply subscript_raises_Exception; exact H|]).
  discriminate H.
Qed.

Lemma read_readable_raises_Exception data e :
  read_readable data = Raise e -> is_Exception e = true.
Proof.
  unfold read_readable. intros H.
  do 2 (apply and_then_raises in H as [H|(? & _ & H)];
        [eapply subscript_raises_Exception; exact H|]).
  eapply subscript_raises_Exception. exact H.
Qed.

(** [fetch_prayer_times], case by case.  The table is assigned as soon as
    its five entries are read, before the date label is looked for. *)
Lemma fetch_prayer_times_unfold :
  fetch_prayer_times env s =
  match requests_get env with
  | Raise e => fetch_caught e s0
  | Ok response =>
      if status_code response =? 200 then
        match response_json response with
        | Raise e => fetch_caught e s0
        | Ok data =>
            match read_table data with
            | Raise e => fetch_caught e s0
            | Ok table =>
                let s1 := with_self (set_prayer_times table (self s)) s0 in
                match read_readable data with
                | Raise e => fetch_caught e s1
                | Ok readable =>
                    let a := set_prayer_date readable (self s1) in
                    (Ok true, add_output (table_lines a) (with_self a s1))
                end
            end
        end
      else
        (Ok false,
         add_output [Print (MsgFetchStatus (status_code response))] s0)
  end.
Proof.
  subst s0.
  unfold fetch_prayer_times, try_except, fetch_caught, add_output,
    with_self, table_lines.
  unfold bind at 1, print, emit. unfold bind at 1, emit.
  unfold bind at 1, lift. cbn [self jobs output].
  rewrite <- app_assoc. cbn [app].
  destruct (requests_get env) as [response|e]; [|reflexivity].
  destruct (status_code response =? 200); [|reflexivity].
  unfold bind at 1.
  destruct (response_json response) as [data|e]; [|reflexivity].
  unfold read_table, read_readable, and_then.
  unfold bind at 1.
  destruct (subscript data "data") as [data_data|e]; [|reflexivity].
  unfold bind at 1.
  destruct (subscript data_data "timings") as [timings|e]; [|reflexivity].
  unfold bind at 1.
  destruct (subscript timings "Fajr") as [fajr|e]; [|reflexivity].
  unfold bind at 1.
  destruct (subscript timings "Dhuhr") as [dhuhr|e]; [|reflexivity].
  unfold bind at 1.
  destruct (subscript timings "Asr") as [asr|e]; [|reflexivity].
  unfold bind at 1.
  destruct (subscript timings "Maghrib") as [maghrib|e]; [|reflexivity].
  unfold bind at 1.
  destruct (subscript timings "Isha") as [isha|e]; [|reflexivity].
  unfold bind at 1, modify_self. cbn [self jobs output].
  unfold bind at 1.
  unfold bind at 1.
  destruct (subscript data_data "date") as [data_date|e]; [|reflexivity].
  unfold bind at 1.
  destruct (subscript data_date "readable") as [readable|e]; [|reflexivity].
  unfold bind, get_self, ret. cbn.
  rewrite <- !app_assoc. reflexivity.
Qed.

End Fetch.

Section FetchOutcomes.

Variables (env : Env) (s : State).

(** A fetch that reports failure has either changed nothing of the object
    and of the scheduler, or has stored a new table and then failed to
    find the date label. *)
Lemma fetch_failure_cases :
  fst (fetch_prayer_times env s) = Ok false ->
  (self (snd (fetch_prayer_times env s)) = self s /\
   jobs (snd (fetch_prayer_times env s)) = jobs s)
  \/
  (exists response data table e,
     requests_get env = Ok response /\
     response_json response = Ok data /\
     read_table data = Ok table /\
     read_readable data = Raise e /\
     self (snd (fetch_prayer_times env s))
       = set_prayer_times table (self s)).
Proof.
  rewrite fetch_prayer_times_unfold. unfold fetch_caught.
  destruct (requests_get env) as [response|e].
  2:{ destruct (is_Exception e); intros _; left; split; reflexivity. }
  destruct (status_code response =? 200);
    [|intros _; left; split; reflexivity].
  destruct (response_json response) as [data|e] eqn:Ejson.
  2:{ destruct (is_Exception e); intros _; left; split; reflexivity. }
  destruct (read_table data) as [table|e] eqn:Etable.
  2:{ destruct (is_Exception e); intros _; left; split; reflexivity. }
  destruct (read_readable data) as [readable|e] eqn:Edate;
    [discriminate|].
  intros _. right. exists response, data, table, e.
  repeat (split; [reflexivity || assumption|]).
  destruct (is_Exception e); reflexivity.
Qed.

(** A fetch that stops before the table is read changes nothing of the
    object and of the scheduler. *)
Lemma fetch_failure_before_table :
  (forall response data table,
     requests_get env = Ok response -> status_code response = 200 ->
     response_json response = Ok data -> read_table data <> Ok table) ->
  self (snd (fetch_prayer_times env s)) = self s /\
  jobs (snd (fetch_prayer_times env s)) = jobs s.
Proof.
  intros Hno. rewrite fetch_prayer_times_unfold. unfold fetch_caught.
  destruct (requests_get env) as [response|e].
  2:{ destruct (is_Exception e); split; reflexivity. }
  destruct (status_code response =? 200) eqn:Estatus;
    [|split; reflexivity].
  apply Z.eqb_eq in Estatus.
  destruct (response_json response) as [data|e] eqn:Ejson.
  2:{ destruct (is_Exception e); split; reflexivity. }
  destruct (read_table data) as [table|e] eqn:Etable.
  - destruct (Hno response data table eq_refl Estatus Ejson Etable).
  - destruct (is_Exception e); split; reflexivity.
Qed.

Lemma missing_name_read_table data data_data t name :
  subscript data "data" = Ok data_data ->
  subscript data_data "timings" = Ok (JDict t) ->
  name ∈ PRAYER_NAMES -> dict_get t name = None ->
  exists e, read_table data = Raise e.
Proof.
  intros Hdata Htimings Hname Hnone.
  unfold read_table, and_then. rewrite Hdata, Htimings. simpl.
  unfold dict_getitem.
  unfold PRAYER_NAMES in Hname.
  repeat (apply elem_of_cons in Hname as [->|Hname];
          [rewrite Hnone;
           repeat (destruct (dict_get t _); [|eauto]); eauto|]).
  inversion Hname.
Qed.

End FetchOutcomes.

(** C5 (as the code has it).  From a 200 answer with a JSON payload,
    [fetch_prayer_times] fails, leaving the object and the scheduler as they
    were and printing the error as its last line, when one of the five
    prayer names is absent from the timings; and
    when the five names and the date label are there it succeeds and stores
    the five values as they come, in display order, without parsing them,
    changing only [prayer_times] and [prayer_date]. *)
Theorem fetch_stores_times_unparsed
    (env : Env) (s : State) (response : response) (data data_data : json) :
  requests_get env = Ok response ->
  status_code response = 200 ->
  response_json response = Ok data ->
  subscript data "data" = Ok data_data ->
  (forall t name,
     subscript data_data "timings" = Ok (JDict t) ->
     name ∈ PRAYER_NAMES -> dict_get t name = None ->
     fst (fetch_prayer_times env s) = Ok false /\
     self (snd (fetch_prayer_times env s)) = self s /\
     jobs (snd (fetch_prayer_times env s)) = jobs s /\
     exists e,
       read_table data = Raise e /\
       last (output (snd (fetch_prayer_times env s)))
       = Some (Print (MsgFetchError e))) /\
  (forall timings fajr dhuhr asr maghrib isha data_date readable,
     subscript data_data "timings" = Ok timings ->
     subscript timings "Fajr" = Ok fajr ->
     subscript timings "Dhuhr" = Ok dhuhr ->
     subscript timings "Asr" = Ok asr ->
     subscript timings "Maghrib" = Ok maghrib ->
     subscript timings "Isha" = Ok isha ->
     subscript data_data "date" = Ok data_date ->
     subscript data_date "readable" = Ok readable ->
     fst (fetch_prayer_times env s) = Ok true /\
     self (snd (fetch_prayer_times env s)) =
       set_prayer_date readable
         (set_prayer_times
            [("Fajr", fajr); ("Dhuhr", dhuhr); ("Asr", asr);
             ("Maghrib", maghrib); ("Isha", isha)] (self s)) /\
     jobs (snd (fetch_prayer_times env s)) = jobs s).
Proof.
  intros Hget Hstatus Hjson Hdata. split.
  - intros t name Htimings Hname Hnone.
    destruct (missing_name_read_table data data_data t name
                Hdata Htimings Hname Hnone) as [e He].
    rewrite fetch_prayer_times_unfold, Hget, Hstatus, Hjson, He.
    unfold fetch_caught.
    rewrite (read_table_raises_Exception _ _ He). simpl.
    split; [reflexivity|]. split; [reflexivity|]. split; [reflexivity|].
    exists e. split; [reflexivity|]. apply last_snoc.
  - intros timings fajr dhuhr asr maghrib isha data_date readable
      Htimings Hfajr Hdhuhr Hasr Hmaghrib Hisha Hdate Hreadable.
    rewrite fetch_prayer_times_unfold, Hget, Hstatus, Hjson.
    unfold read_table, read_readable, and_then.
    rewrite Hdata, Htimings, Hfajr, Hdhuhr, Hasr, Hmaghrib, Hisha,
      Hdate, Hreadable.
    simpl. repeat split; reflexivity.
Qed.

(** The sample payload is stored as the sample table. *)
Lemma fetch_stores_times_unparsed_witness :
  fst (fetch_prayer_times
         (env_with (clock 738000 0 1 0) (ok_response sample_payload))
         (state_of (app_of [] JNull None None ∅))) = Ok true /\
  prayer_times (self (snd (fetch_prayer_times
         (env_with (clock 738000 0 1 0) (ok_response sample_payload))
         (state_of (app_of [] JNull None None ∅))))) = sample_times.
Proof.
  destruct (fetch_stores_times_unparsed
              (env_with (clock 738000 0 1 0) (ok_response sample_payload))
              (state_of (app_of [] JNull None None ∅))
              {| status_code := 200; response_json := Ok sample_payload |}
              sample_payload
              (JDict [("timings", sample_timings);
                      ("date", JDict [("readable", JStr "04 Nov 2026")])])
              eq_refl eq_refl eq_refl eq_refl) as [_ Hok].
  destruct (Hok sample_timings (JStr "05:30") (JStr "12:15") (JStr "15:45")
              (JStr "18:20") (JStr "19:45")
              (JDict [("readable", JStr "04 Nov 2026")])
              (JStr "04 Nov 2026")
              eq_refl eq_refl eq_refl eq_refl eq_refl eq_refl eq_refl eq_refl)
    as (Hres & Hself & _).
  split; [exact Hres|]. rewrite Hself. reflexivity.
Defined.

(** C5, the claim as stated fails: a payload whose Fajr time is "25:99",
    not a time of day, is stored and the fetch reports success; the string
    is refused only later, when [get_next_prayer] parses it. *)
Lemma fetch_stores_times_unparsed_counterexample :
  let env := env_with (clock 738000 0 1 0) (ok_response payload_bad_time) in
  let s := state_of (app_of [] JNull None None ∅) in
  fst (fetch_prayer_times env s) = Ok true /\
  dict_get (prayer_times (self (snd (fetch_prayer_times env s)))) "Fajr"
    = Some (JStr "25:99") /\
  strptime (JStr "25:99") = Raise ValueError /\
  fst (get_next_prayer env (snd (fetch_prayer_times env s)))
    = Raise ValueError.
Proof. repeat split; vm_compute; reflexivity. Qed.

(** C4, at a failing input: the supplier answers 200 with the five times
    and no date.  The refresh reports failure, yet the table has been
    replaced, while the date label is the one of the day before. *)
Theorem refresh_failure_after_table_stored :
  let env := env_with (clock 738001 0 1 0) (ok_response payload_without_date) in
  let s := state_of (app_of old_times (JStr "03 Nov 2026") None None ∅) in
  fst (fetch_prayer_times env s) = Ok false /\
  fst (fetch_and_reschedule env s) = Ok tt /\
  last (output (snd (fetch_and_reschedule env s)))
    = Some (Print MsgFailedToUpdate) /\
  prayer_times (self s) = old_times /\
  prayer_times (self (snd (fetch_and_reschedule env s))) = sample_times /\
  prayer_times (self (snd (fetch_and_reschedule env s)))
    <> prayer_times (self s) /\
  prayer_date (self (snd (fetch_and_reschedule env s))) = JStr "03 Nov 2026".
Proof.
  repeat split; try (vm_compute; reflexivity).
  vm_compute. discriminate.
Qed.

(* ===================================================================== *)
(** * The daily refresh and the fired set *)
(* ===================================================================== *)

(** A loop whose every turn keeps to [R] and keeps [I] true. *)
Lemma for_each_steps_inv {A} (R : State -> State -> Prop) `{!PreOrder R}
    (I : State -> Prop) (body : A -> M unit) (xs : list A) :
  (forall x s, I s -> R s (snd (body x s)) /\ I (snd (body x s))) ->
  forall s, I s ->
    R s (snd (for_each xs body s)) /\ I (snd (for_each xs body s)).
Proof.
  intros Hbody. induction xs as [|x xs IH]; intros s Hs; simpl.
  - split; [reflexivity|exact Hs].
  - unfold bind. destruct (Hbody x s Hs) as [HR HI].
    destruct (body x s) as [[[]|e] s1]; simpl in *; [|split; assumption].
    destruct (IH s1 HI) as [HR' HI'].
    split; [etransitivity; eassumption|exact HI'].
Qed.

(** In real mode the main loop leaves [played_prayers] as it is. *)
Lemma real_loop_same_played (envs : list Env) (s : State) :
  mock_time (self s) = None ->
  same_played s (snd (for_each envs loop_iteration s)).
Proof.
  intros Hreal.
  apply (for_each_steps_inv same_played
           (fun s => mock_time (self s) = None) loop_iteration envs);
    [|exact Hreal].
  intros env s1 Hs1.
  assert (loop_iteration env s1 = schedule_run_pending env s1) as ->.
  { unfold loop_iteration, bind, get_self. rewrite Hs1. reflexivity. }
  split; [apply schedule_run_pending_same_played|].
  destruct (schedule_run_pending_same_anchor env s1) as [Hm _]. congruence.
Qed.

(** C3 (as the code has it).  The daily refresh leaves [played_prayers]
    exactly as it was, whether or not the fetch succeeds; no sequence of
    method calls ever removes a name from it; and in real clock mode, the
    only mode in which the main loop runs the refresh, the loop adds
    nothing to it either, so that it is empty after a refresh only if it
    was empty before. *)
Theorem refresh_keeps_played_prayers :
  (forall env s,
     played_prayers (self (snd (fetch_and_reschedule env s)))
     = played_prayers (self s)) /\
  (forall cs s,
     played_prayers (self s) ⊆ played_prayers (self (exec_all cs s))) /\
  (forall envs s,
     mock_time (self s) = None ->
     played_prayers (self (snd (for_each envs loop_iteration s)))
     = played_prayers (self s)).
Proof.
  split; [|split].
  - intros env s. apply fetch_and_reschedule_same_played.
  - intros cs s.
    apply (exec_all_steps played_grows). intros c env.
    apply exec_played_grows.
  - intros envs s Hreal. apply real_loop_same_played, Hreal.
Qed.

(** A real-mode object: two turns of the main loop with the refresh due. *)
Lemma refresh_keeps_played_prayers_witness :
  played_prayers (self (snd (for_each
    [env_of (clock 738001 0 1 0) (ok_response sample_payload) (Ok tt)
       refresh_due;
     env_of (clock 738001 0 2 0) (ok_response sample_payload) (Ok tt)
       refresh_due]
    loop_iteration
    {| self := sample_app; jobs := [refresh_job]; output := [] |})))
  = ∅.
Proof.
  destruct refresh_keeps_played_prayers as (_ & _ & Hreal).
  apply (Hreal _ {| self := sample_app; jobs := [refresh_job];
                    output := [] |}).
  reflexivity.
Defined.

(** C3, the claim as stated fails.  An object built in mock mode at
    18:19:50 fetches its table, fires Maghrib at 18:20:00, and then runs a
    refresh whose fetch succeeds: Maghrib is still in [played_prayers]. *)
Lemma refresh_keeps_played_prayers_counterexample :
  let s1 := snd (init (env_at (clock 738000 18 19 50))
                   (Some (clock 738000 18 19 50)) (state_of sample_app)) in
  let s2 := snd (schedule_prayers
                   (env_with (clock 738000 18 19 50)
                      (ok_response sample_payload)) s1) in
  let s3 := snd (check_prayer_times_mock
                   (env_at (clock 738000 18 20 0)) s2) in
  let refresh := env_with (clock 738001 0 1 0) (ok_response sample_payload) in
  played_prayers (self s1) = ∅ /\
  played_log (output s3) = ["Maghrib"] /\
  fst (fetch_prayer_times refresh s3) = Ok true /\
  fst (fetch_and_reschedule refresh s3) = Ok tt /\
  elements (played_prayers (self (snd (fetch_and_reschedule refresh s3))))
    = ["Maghrib"] /\
  played_prayers (self (snd (fetch_and_reschedule refresh s3))) <> ∅.
Proof.
  repeat split; try (vm_compute; reflexivity).
  intros Hempty.
  assert (elements (played_prayers (self (snd (fetch_and_reschedule
            (env_with (clock 738001 0 1 0) (ok_response sample_payload))
            (snd (check_prayer_times_mock (env_at (clock 738000 18 20 0))
              (snd (schedule_prayers
                 (env_with (clock 738000 18 19 50)
                    (ok_response sample_payload))
                 (snd (init (env_at (clock 738000 18 19 50))
                        (Some (clock 738000 18 19 50))
                        (state_of sample_app)))))))))))
          = ["Maghrib"]) as Hel by (vm_compute; reflexivity).
  rewrite Hempty, elements_empty in Hel. discriminate Hel.
Qed.

(* ===================================================================== *)
(** * The simulated clock *)
(* ===================================================================== *)

Lemma get_current_time_simulated env s mock start :
  mock_time (self s) = Some mock ->
  mock_start_time (self s) = Some start ->
  get_current_time env s = (Ok (mock + (datetime_now env - start)), s).
Proof.
  intros Hmock Hstart. unfold get_current_time, bind, get_self.
  rewrite Hmock, Hstart. reflexivity.
Qed.

Lemma run_same_anchor env0 envs : steps same_anchor (run env0 envs).
Proof.
  unfold run.
  assert (forall now items, steps same_anchor (print_next now items)) as Hnext.
  { intros now items. induction items as [|[prayer time_str] items IH]; simpl;
      steps_auto ltac:(exact IH) same_anchor_leaf. }
  steps_auto ltac:(first [ apply schedule_prayers_same_anchor
                         | apply get_current_time_same_anchor
                         | apply loop_iteration_same_anchor
                         | apply Hnext ])
             same_anchor_leaf.
Qed.

(** C8.  With the anchor pair (mock_time, mock_start_time) set,
    [get_current_time] returns mock_time + (now - mock_start_time) and
    changes nothing: the result is a function of the anchor pair and of the
    real time elapsed, and two readings differ by the real time between
    them.  [__init__] sets the pair, to the given time and to the wall
    clock, and no method, nor [run], assigns it again. *)
Theorem simulated_clock_fixed_offset :
  (forall env s mock start,
     mock_time (self s) = Some mock ->
     mock_start_time (self s) = Some start ->
     get_current_time env s
       = (Ok (mock + (datetime_now env - start)), s)) /\
  (forall env env' s s' mock start,
     mock_time (self s) = Some mock ->
     mock_start_time (self s) = Some start ->
     mock_time (self s') = Some mock ->
     mock_start_time (self s') = Some start ->
     datetime_now env - start = datetime_now env' - start ->
     fst (get_current_time env s) = fst (get_current_time env' s')) /\
  (forall env env' s mock start now now',
     mock_time (self s) = Some mock ->
     mock_start_time (self s) = Some start ->
     fst (get_current_time env s) = Ok now ->
     fst (get_current_time env' s) = Ok now' ->
     now' - now = datetime_now env' - datetime_now env) /\
  (forall env mock s,
     mock_time (self (snd (init env (Some mock) s))) = Some mock /\
     mock_start_time (self (snd (init env (Some mock) s)))
       = Some (datetime_now env)) /\
  (forall cs s,
     mock_time (self (exec_all cs s)) = mock_time (self s) /\
     mock_start_time (self (exec_all cs s)) = mock_start_time (self s)) /\
  (forall env0 envs s,
     mock_time (self (snd (run env0 envs s))) = mock_time (self s) /\
     mock_start_time (self (snd (run env0 envs s)))
       = mock_start_time (self s)).
Proof.
  split; [exact get_current_time_simulated|].
  split.
  { intros env env' s s' mock start Hm Hs Hm' Hs' Hdelta.
    rewrite (get_current_time_simulated env s mock start Hm Hs),
            (get_current_time_simulated env' s' mock start Hm' Hs').
    simpl. rewrite Hdelta. reflexivity. }
  split.
  { intros env env' s mock start now now' Hm Hs.
    rewrite (get_current_time_simulated env s mock start Hm Hs),
            (get_current_time_simulated env' s mock start Hm Hs).
    simpl. intros [= <-] [= <-]. lia. }
  split.
  { intros env mock s. unfold init, bind, modify_self. simpl.
    destruct (audio_exists env); simpl; split; reflexivity. }
  split.
  { intros cs s. apply (exec_all_steps same_anchor). intros c env.
    apply exec_same_anchor. }
  intros env0 envs s. apply run_same_anchor.
Qed.

(** Anchor 18:19:50 captured at wall-clock midnight; ten real seconds
    later the simulated clock reads 18:20:00. *)
Lemma simulated_clock_fixed_offset_witness :
  get_current_time (env_at (clock 738000 0 0 10))
    (state_of (app_of sample_times JNull
                 (Some (clock 738000 18 19 50)) (Some (clock 738000 0 0 0))
                 ∅))
  = (Ok (clock 738000 18 20 0),
     state_of (app_of sample_times JNull
                 (Some (clock 738000 18 19 50)) (Some (clock 738000 0 0 0))
                 ∅)).
Proof.
  destruct simulated_clock_fixed_offset as (Hformula & _).
  rewrite (Hformula (env_at (clock 738000 0 0 10))
             (state_of (app_of sample_times JNull
                          (Some (clock 738000 18 19 50))
                          (Some (clock 738000 0 0 0)) ∅))
             (clock 738000 18 19 50) (clock 738000 0 0 0)
             eq_refl eq_refl).
  reflexivity.
Defined.

(* ===================================================================== *)
(** * When the daily refresh runs *)
(* ===================================================================== *)

Section Registration.

Variable env : Env.

(** The scheduler accepts every time it is given. *)
Hypothesis Haccept : forall t, schedule_at env t = Ok tt.

Lemma register_loop items s :
  for_each items (fun '(prayer, time_str) =>
    schedule_every_day_at_do env time_str (DoPlayAzaan prayer) ;;
    print (MsgScheduled prayer time_str)) s =
  (Ok tt,
   {| self := self s;
      jobs := jobs s ++ map prayer_job items;
      output := output s ++
        map (fun kv => Print (MsgScheduled (fst kv) (snd kv))) items |}).
Proof.
  revert s. induction items as [|[prayer time_str] items IH]; intros s.
  - simpl. unfold ret. rewrite !app_nil_r. destruct s; reflexivity.
  - simpl. unfold bind at 1. unfold bind at 1.
    unfold schedule_every_day_at_do, bind at 1, lift. rewrite Haccept.
    unfold bind, get_jobs, set_jobs, print, emit. cbn [self jobs output].
    rewrite IH. cbn [self jobs output].
    rewrite <- !app_assoc. reflexivity.
Qed.

Lemma register_jobs_effect s :
  register_jobs env s =
  (Ok true,
   {| self := self s;
      jobs := map prayer_job (prayer_times (self s)) ++ [refresh_job];
      output := output s ++
        map (fun kv => Print (MsgScheduled (fst kv) (snd kv)))
          (prayer_times (self s)) |}).
Proof.
  unfold register_jobs, schedule_clear.
  unfold bind at 1, set_jobs. unfold bind at 1, get_self.
  cbn [self jobs output]. unfold bind at 1. rewrite register_loop.
  unfold schedule_every_day_at_do, bind, lift. rewrite Haccept.
  unfold get_jobs, set_jobs, ret. reflexivity.
Qed.

Lemma schedule_prayers_registers s :
  prayer_times (self s) <> [] ->
  fst (schedule_prayers env s) = Ok true /\
  jobs (snd (schedule_prayers env s))
    = map prayer_job (prayer_times (self s)) ++ [refresh_job].
Proof.
  intros Hne.
  assert (schedule_prayers env s = register_jobs env s) as ->.
  { unfold schedule_prayers, bind at 1, get_self.
    destruct (prayer_times (self s)); [congruence|reflexivity]. }
  rewrite register_jobs_effect. split; reflexivity.
Qed.

End Registration.

(** In mock mode the main loop never refreshes. *)
Lemma mock_loop_no_refresh (envs : list Env) (s : State) :
  mock_time (self s) <> None ->
  no_refresh s (snd (for_each envs loop_iteration s)).
Proof.
  intros Hmock.
  apply (for_each_steps_inv no_refresh
           (fun s => mock_time (self s) <> None) loop_iteration envs);
    [|exact Hmock].
  intros env s1 Hs1.
  assert (loop_iteration env s1 = check_prayer_times_mock env s1) as ->.
  { unfold loop_iteration, bind, get_self.
    destruct (mock_time (self s1)); [reflexivity|congruence]. }
  pose proof (check_prayer_times_mock_no_refresh env s1) as Hno.
  split; [exact Hno|].
  destruct Hno as (_ & _ & Hm & _). congruence.
Qed.

(* ===================================================================== *)
(** * Further properties of the resolver *)
(* ===================================================================== *)

#[local] Instance unchanged_preorder : PreOrder unchanged.
Proof.
  split; [intros s; reflexivity|].
  intros s1 s2 s3 H1 H2. unfold unchanged in *. congruence.
Qed.

Ltac unchanged_leaf := intros ?; reflexivity.

Lemma get_current_time_unchanged env : steps unchanged (get_current_time env).
Proof. unfold get_current_time. steps_auto fail unchanged_leaf. Qed.

Lemma get_next_prayer_unchanged env : steps unchanged (get_next_prayer env).
Proof.
  unfold get_next_prayer.
  steps_auto ltac:(apply get_current_time_unchanged) unchanged_leaf.
Qed.

Lemma api_prayer_times_unchanged env : steps unchanged (api_prayer_times env).
Proof.
  unfold api_prayer_times.
  steps_auto ltac:(apply get_next_prayer_unchanged) unchanged_leaf.
Qed.

(** X1.  The queries are read-only: [get_current_time], [get_next_prayer]
    and the route [api_prayer_times] leave the object, the scheduler and
    the output exactly as they were, whatever they return or raise. *)
Theorem queries_change_nothing (env : Env) (s : State) :
  snd (get_current_time env s) = s /\
  snd (get_next_prayer env s) = s /\
  snd (api_prayer_times env s) = s.
Proof.
  split; [apply get_current_time_unchanged|].
  split; [apply get_next_prayer_unchanged|apply api_prayer_times_unchanged].
Qed.

Lemma build_prayer_list_raises today (l1 l2 : dict) prayer v e :
  forallb (fun kv => parses (snd kv)) l1 = true ->
  strptime v = Raise e ->
  build_prayer_list today (l1 ++ (prayer, v) :: l2) = Raise e.
Proof.
  intros Hl1 Hv. induction l1 as [|[p w] l1 IH]; simpl.
  - rewrite Hv. reflexivity.
  - simpl in Hl1. apply andb_prop in Hl1 as [Hw Hl1].
    unfold parses in Hw. destruct (strptime w); [|discriminate].
    rewrite (IH Hl1). reflexivity.
Qed.

Lemma strptime_raises v e :
  strptime v = Raise e -> e = ValueError \/ e = TypeError.
Proof.
  destruct v; simpl; try (intros [= <-]; right; reflexivity).
  unfold strptime_HM.
  destruct (re_match_HM s) as [[[h m] [|c rest]]|]; try discriminate;
    intros [= <-]; left; reflexivity.
Qed.

(** X2.  A table entry that is not a string in the format "%H:%M" makes
    [get_next_prayer] raise, with the error of the first such entry in
    table order, a [ValueError] for a string and a [TypeError] for another
    JSON value: no prayer is returned, whatever the time. *)
Theorem get_next_prayer_unparsable_entry
    (env : Env) (s : State) (l1 l2 : dict) (prayer : string) (v : json)
    (e : exn) :
  prayer_times (self s) = l1 ++ (prayer, v) :: l2 ->
  forallb (fun kv => parses (snd kv)) l1 = true ->
  strptime v = Raise e ->
  get_next_prayer env s = (Raise e, s) /\
  (e = ValueError \/ e = TypeError).
Proof.
  intros Hpt Hl1 Hv.
  destruct (get_current_time_total env s) as [now Hnow].
  split; [|apply (strptime_raises v e Hv)].
  rewrite (get_next_prayer_unfold env s now Hnow).
  - rewrite Hpt, (build_prayer_list_raises _ l1 l2 prayer v e Hl1 Hv).
    reflexivity.
  - rewrite Hpt. destruct l1; discriminate.
Qed.

(** A table whose Asr is "15h45": the call raises [ValueError]. *)
Lemma get_next_prayer_unparsable_entry_witness :
  get_next_prayer (env_at (clock 738000 12 0 0))
    (state_of (app_of
       [("Fajr", JStr "05:30"); ("Dhuhr", JStr "12:15");
        ("Asr", JStr "15h45"); ("Maghrib", JStr "18:20");
        ("Isha", JStr "19:45")] JNull None None ∅))
  = (Raise ValueError,
     state_of (app_of
       [("Fajr", JStr "05:30"); ("Dhuhr", JStr "12:15");
        ("Asr", JStr "15h45"); ("Maghrib", JStr "18:20");
        ("Isha", JStr "19:45")] JNull None None ∅)).
Proof.
  apply (get_next_prayer_unparsable_entry _ _
           [("Fajr", JStr "05:30"); ("Dhuhr", JStr "12:15")]
           [("Maghrib", JStr "18:20"); ("Isha", JStr "19:45")]
           "Asr" (JStr "15h45") ValueError);
    reflexivity.
Defined.

Lemma get_next_prayer_empty_table_eq env s :
  prayer_times (self s) = [] ->
  get_next_prayer env s = (Ok (None, None, None), s).
Proof.
  intros Hempty. unfold get_next_prayer, bind, get_self.
  rewrite Hempty. reflexivity.
Qed.

Lemma time_hour_mk_time (h m : Z) :
  0 <= m < 60 -> time_hour (mk_time h m) = h.
Proof.
  intros Hm. unfold time_hour, mk_time.
  rewrite Z.add_comm, Z.div_add by discriminate.
  rewrite Z.div_small; [lia|].
  unfold US_PER_HOUR, US_PER_MINUTE, US_PER_SECOND. lia.
Qed.

Lemma time_minute_mk_time (h m : Z) :
  0 <= m < 60 -> time_minute (mk_time h m) = m.
Proof.
  intros Hm. unfold time_minute, mk_time.
  replace (h * US_PER_HOUR + m * US_PER_MINUTE)
    with ((h * 60 + m) * US_PER_MINUTE)
    by (unfold US_PER_HOUR; lia).
  rewrite Z.div_mul by discriminate.
  rewrite Z.add_comm, Z.mod_add by discriminate.
  apply Z.mod_small, Hm.
Qed.

Lemma roundtrip_all :
  forallb (fun h => forallb (roundtrip_ok h) (seqZ 0 60)) (seqZ 0 24) = true.
Proof. vm_compute. reflexivity. Qed.

(** Formatting a time of day with "%H:%M" and parsing it gives it back. *)
Lemma strptime_strftime (h m : Z) :
  0 <= h < 24 -> 0 <= m < 60 ->
  strptime_HM (time_strftime_HM (mk_time h m)) = Ok (mk_time h m).
Proof.
  intros Hh Hm. unfold time_strftime_HM.
  rewrite time_hour_mk_time, time_minute_mk_time by exact Hm.
  pose proof roundtrip_all as Hall.
  rewrite forallb_forall in Hall.
  assert (In h (seqZ 0 24)) as Hin by (apply list_elem_of_In, elem_of_seqZ; lia).
  specialize (Hall h Hin). rewrite forallb_forall in Hall.
  assert (In m (seqZ 0 60)) as Hin' by (apply list_elem_of_In, elem_of_seqZ; lia).
  specialize (Hall m Hin'). unfold roundtrip_ok in Hall.
  destruct (strptime_HM _) as [t|]; [|discriminate].
  apply Z.eqb_eq in Hall. congruence.
Qed.

Lemma strptime_strftime_time (v : json) (t : time) :
  strptime v = Ok t -> strptime (JStr (time_strftime_HM t)) = Ok t.
Proof.
  intros H. apply strptime_inv in H as (str & _ & H).
  apply strptime_HM_inv in H as (h & m & Hh & Hm & ->).
  simpl. apply strptime_strftime; assumption.
Qed.

(** X3.  What [get_next_prayer] returns is coherent: the duration is
    positive and at most one day, the time string parses with "%H:%M"
    (the table's string, brought to two digits, or Fajr's string as it is),
    and the current time plus the duration falls exactly on that time of
    day. *)
Theorem get_next_prayer_lands_on_time
    (env : Env) (s s' : State) (now : datetime)
    (name : option string) (time_str : json) (diff : timedelta) :
  get_current_time env s = (Ok now, s) ->
  get_next_prayer env s = (Ok (name, Some time_str, Some diff), s') ->
  0 < diff <= US_PER_DAY /\
  exists t,
    strptime time_str = Ok t /\
    dt_time (now + diff) = t.
Proof.
  intros Hnow Hrun.
  split; [apply (returned_duration_positive env s now Hnow _ _ _ _ Hrun)|].
  destruct (prayer_times (self s)) as [|kv rest] eqn:Ept.
  { unfold get_next_prayer, bind, get_self in Hrun. rewrite Ept in Hrun.
    discriminate Hrun. }
  rewrite (get_next_prayer_unfold env s now Hnow) in Hrun
    by (rewrite Ept; discriminate).
  clear Ept kv rest.
  destruct (build_prayer_list _ _) as [l|e] eqn:El; [|discriminate].
  destruct (find_next _ _) as [[prayer d]|] eqn:Efind.
  - injection Hrun as _ <- <- _.
    destruct (next_today s now l prayer d El Efind)
      as (v & t & _ & Ht & -> & _ & _).
    exists t. pose proof (strptime_range v t Ht) as Hrange.
    unfold strftime_HM. rewrite dt_time_combine by exact Hrange.
    split; [apply (strptime_strftime_time v t Ht)|].
    replace (now + (combine (dt_date now) t - now))
      with (combine (dt_date now) t) by lia.
    apply dt_time_combine, Hrange.
  - destruct (dict_getitem _ _) as [fajr|e]; [|discriminate].
    destruct (strptime fajr) as [t|e] eqn:Et; [|discriminate].
    injection Hrun as _ <- <- _.
    exists t. split; [exact Et|].
    replace (now + (combine (dt_date (now + timedelta_days 1)) t - now))
      with (combine (dt_date (now + timedelta_days 1)) t) by lia.
    apply dt_time_combine. eapply strptime_range, Et.
Qed.

(** At 19:59:30 with the times written without padding, Fajr "5:30" of the
    next day is 9 hours 30 minutes 30 seconds away. *)
Lemma get_next_prayer_lands_on_time_witness :
  dt_time (clock 738000 19 59 30
           + (9 * US_PER_HOUR + 30 * US_PER_MINUTE + 30 * US_PER_SECOND))
  = mk_time 5 30.
Proof.
  destruct (get_next_prayer_lands_on_time
              (env_at (clock 738000 19 59 30))
              (state_of (app_of unpadded_times JNull None None ∅))
              (state_of (app_of unpadded_times JNull None None ∅))
              (clock 738000 19 59 30) (Some "Fajr") (JStr "5:30")
              (9 * US_PER_HOUR + 30 * US_PER_MINUTE + 30 * US_PER_SECOND)
              eq_refl eq_refl)
    as (_ & t & Ht & Hland).
  rewrite Hland. injection Ht as <-. reflexivity.
Defined.

(* ===================================================================== *)
(** * Further properties of the firing tick *)
(* ===================================================================== *)

Lemma check_prayer_times_mock_loop env s now :
  get_current_time env s = (Ok now, s) ->
  check_prayer_times_mock env s =
  for_each (prayer_times (self s)) (check_entry env (strftime_HM now)) s.
Proof.
  intros Hnow. unfold check_prayer_times_mock, bind at 1. rewrite Hnow.
  reflexivity.
Qed.

Lemma tick_loop_idle env current_time_str items s :
  forallb (fun item => negb (due current_time_str item s)) items = true ->
  for_each items (check_entry env current_time_str) s = (Ok tt, s).
Proof.
  induction items as [|item items IH]; intros Hidle; [reflexivity|].
  simpl in Hidle. apply andb_prop in Hidle as [Hitem Hitems].
  apply negb_true_iff in Hitem.
  simpl. unfold bind. rewrite check_entry_effect, Hitem.
  apply IH, Hitems.
Qed.

(** X4.  A tick at which no table entry is due (every entry either has a
    time string other than the current "%H:%M" or a name in
    [played_prayers]) does nothing: it returns normally and the state is
    the same, with no output. *)
Theorem idle_tick_changes_nothing (env : Env) (s : State) (now : datetime) :
  get_current_time env s = (Ok now, s) ->
  forallb (fun item => negb (due (strftime_HM now) item s))
    (prayer_times (self s)) = true ->
  check_prayer_times_mock env s = (Ok tt, s).
Proof.
  intros Hnow Hidle.
  rewrite (check_prayer_times_mock_loop env s now Hnow).
  apply tick_loop_idle, Hidle.
Qed.

(** The sample table at 18:19:59: nothing is due. *)
Lemma idle_tick_changes_nothing_witness :
  check_prayer_times_mock (env_at (clock 738000 18 19 59))
    (state_of sample_app)
  = (Ok tt, state_of sample_app).
Proof.
  apply (idle_tick_changes_nothing _ _ (clock 738000 18 19 59));
    reflexivity.
Defined.

(** X5.  Whatever the state and the times of the ticks, over any number of
    ticks [afplay] is started at most once for each prayer name, and each
    name it is started for is in [played_prayers] afterwards. *)
Theorem ticks_play_each_prayer_at_most_once
    (envs : list Env) (s : State) (prayer : string) :
  exists new,
    output (snd (mock_ticks envs s)) = output s ++ new /\
    (afplay_count prayer new <= 1)%nat /\
    (prayer ∈ played_log new ->
     prayer ∈ played_prayers (self (snd (mock_ticks envs s)))).
Proof.
  pose proof (mock_ticks_fires_pending_once envs s) as Hsteps.
  destruct (fires_pending_once_count _ _ prayer Hsteps)
    as (new & Hout & Hle & _).
  exists new. split; [exact Hout|]. split; [exact Hle|].
  destruct Hsteps as (_ & new' & Hout' & _ & Hnew).
  rewrite Hout in Hout'. apply app_inv_head in Hout' as <-.
  intros Hlog. apply Hnew, Hlog.
Qed.

(** Three ticks within Maghrib's minute: at most one playback. *)
Lemma ticks_play_each_prayer_at_most_once_witness :
  exists new,
    output (snd (mock_ticks
       [env_at (clock 738000 18 20 0); env_at (clock 738000 18 20 1);
        env_at (clock 738000 18 20 59)]
       (state_of sample_app))) = [] ++ new /\
    (afplay_count "Maghrib" new <= 1)%nat.
Proof.
  destruct (ticks_play_each_prayer_at_most_once
              [env_at (clock 738000 18 20 0); env_at (clock 738000 18 20 1);
               env_at (clock 738000 18 20 59)]
              (state_of sample_app) "Maghrib")
    as (new & Hout & Hle & _).
  exists new. split; [exact Hout|exact Hle].
Defined.

(** X6.  A prayer whose time string is the current "%H:%M" and whose name
    is not in [played_prayers] is fired by the tick, whether [afplay]
    succeeds or fails with an error: the tick returns normally, [afplay]
    is started for it exactly once, followed by the line that reports the
    outcome, and the name is in [played_prayers] afterwards. *)
Theorem due_prayer_is_fired
    (env : Env) (s : State) (now : datetime) (prayer : string) :
  get_current_time env s = (Ok now, s) ->
  (prayer, JStr (strftime_HM now)) ∈ prayer_times (self s) ->
  prayer ∉ played_prayers (self s) ->
  (forall q e, subprocess_run env q = Raise e -> is_Exception e = true) ->
  fst (check_prayer_times_mock env s) = Ok tt /\
  prayer ∈ played_prayers (self (snd (check_prayer_times_mock env s))) /\
  exists before after,
    output (snd (check_prayer_times_mock env s)) =
    output s ++ before ++
      (Print (MsgTimeFor prayer) :: Afplay prayer (audio_file (self s))
       :: playback_report env prayer) ++ after /\
    afplay_count prayer
      (before ++
       (Print (MsgTimeFor prayer) :: Afplay prayer (audio_file (self s))
        :: playback_report env prayer) ++ after) = 1%nat.
Proof.
  intros Hnow Hin Hnot Herrors.
  rewrite (check_prayer_times_mock_loop env s now Hnow).
  split; [apply tick_loop_ok, Herrors|].
  destruct (tick_loop_fires env (strftime_HM now) Herrors
              (prayer_times (self s)) s prayer _ Hin)
    as (Hplayed & before & after & Hout); [apply String.eqb_refl|exact Hnot|].
  split; [exact Hplayed|]. exists before, after. split; [exact Hout|].
  destruct (fires_pending_once_count s _ prayer
              (tick_loop_fires_pending_once env (strftime_HM now)
                 (prayer_times (self s)) s))
    as (new & Hnew & Hle & _).
  rewrite Hout in Hnew. apply app_inv_head in Hnew. rewrite Hnew.
  apply Nat.le_antisymm; [exact Hle|].
  apply afplay_count_elem. rewrite <- Hnew.
  unfold played_log. rewrite omap_app. apply elem_of_app. right.
  simpl. left.
Qed.

(** Maghrib at 18:20:30, [afplay] succeeding. *)
Lemma due_prayer_is_fired_witness :
  fst (check_prayer_times_mock (env_at (clock 738000 18 20 30))
         (state_of sample_app)) = Ok tt /\
  "Maghrib" ∈ played_prayers (self (snd (check_prayer_times_mock
         (env_at (clock 738000 18 20 30)) (state_of sample_app)))).
Proof.
  destruct (due_prayer_is_fired (env_at (clock 738000 18 20 30))
              (state_of sample_app) (clock 738000 18 20 30) "Maghrib")
    as (Hok & Hplayed & _).
  - reflexivity.
  - change (strftime_HM (clock 738000 18 20 30)) with "18:20".
    simpl. unfold sample_times. repeat constructor.
  - simpl. apply not_elem_of_empty.
  - simpl. intros q e [=].
  - split; assumption.
Defined.

#[local] Instance only_played_preorder : PreOrder only_played.
Proof.
  split.
  - intros s. split; [reflexivity|]. destruct (self s); reflexivity.
  - intros s1 s2 s3 [Hj1 Hs1] [Hj2 Hs2]. split; [congruence|].
    rewrite Hs2, Hs1. reflexivity.
Qed.

#[local] Instance silent_for_preorder prayer : PreOrder (silent_for prayer).
Proof.
  split.
  - intros s. exists []. rewrite app_nil_r. split; [reflexivity|].
    intros H. inversion H.
  - intros s1 s2 s3 (new1 & Ho1 & Hn1) (new2 & Ho2 & Hn2).
    exists (new1 ++ new2). split; [rewrite Ho2, Ho1, app_assoc; reflexivity|].
    unfold played_log in *. rewrite omap_app. intros H.
    apply elem_of_app in H as [H|H]; tauto.
Qed.

Ltac only_played_leaf :=
  intros ?; split; simpl; [reflexivity|destruct (self _); reflexivity].

(** The tick writes [played_prayers] and nothing else of the object, and
    nothing of the scheduler. *)
Lemma check_prayer_times_mock_only_played env :
  steps only_played (check_prayer_times_mock env).
Proof.
  unfold check_prayer_times_mock, check_entry, get_current_time, play_azaan.
  steps_auto fail only_played_leaf.
Qed.

Lemma strftime_HM_length (d : datetime) :
  String.length (strftime_HM d) = 5%nat.
Proof. reflexivity. Qed.

Lemma never_due_entry prayer s current_time_str item :
  never_due prayer s ->
  (item ∈ prayer_times (self s)) ->
  String.length current_time_str = 5%nat ->
  due current_time_str item s = true -> fst item <> prayer.
Proof.
  intros [_ Hlen] Hin Hfive Hdue Heq.
  destruct item as [p v]. simpl in Heq. subst p.
  unfold due in Hdue. simpl in Hdue.
  apply andb_prop in Hdue as [Hstr _].
  destruct v; simpl in Hstr; try discriminate.
  apply String.eqb_eq in Hstr. subst s0.
  apply (Hlen _ Hin _ eq_refl Hfive).
Qed.

Lemma tick_loop_never_due env current_time_str prayer items table :
  String.length current_time_str = 5%nat ->
  (forall item, item ∈ items -> item ∈ table) ->
  forall s,
    prayer_times (self s) = table -> never_due prayer s ->
    silent_for prayer s
      (snd (for_each items (check_entry env current_time_str) s)) /\
    prayer_times (self (snd (for_each items
                               (check_entry env current_time_str) s)))
      = table /\
    never_due prayer
      (snd (for_each items (check_entry env current_time_str) s)).
Proof.
  intros Hfive. induction items as [|item items IH]; intros Hsub s Ht Hnd.
  - simpl. split; [reflexivity|]. split; assumption.
  - simpl. unfold bind. rewrite check_entry_effect.
    assert (item ∈ table) as Hitem by (apply Hsub; left).
    assert (forall it, it ∈ items -> it ∈ table) as Hsub'
      by (intros it Hit; apply Hsub; right; exact Hit).
    destruct (due current_time_str item s) eqn:Edue.
    + assert (fst item <> prayer) as Hne.
      { apply (never_due_entry prayer s current_time_str item Hnd);
          [rewrite Ht; exact Hitem|exact Hfive|exact Edue]. }
      set (s1 := {| self := _; jobs := _; output := _ |}).
      assert (silent_for prayer s s1) as Hsilent.
      { eexists. split; [reflexivity|]. unfold played_log. simpl.
        fold (played_log (playback_report env (fst item))).
        rewrite playback_report_quiet. intros H.
        apply list_elem_of_singleton in H. congruence. }
      assert (prayer_times (self s1) = table) as Ht1 by exact Ht.
      assert (never_due prayer s1) as Hnd1.
      { destruct Hnd as [Hnot Hlen]. split; [|exact Hlen].
        simpl. intros H. apply elem_of_union in H as [H|H]; [tauto|].
        apply elem_of_singleton in H. congruence. }
      destruct (playback_result env (fst item)) as [[]|e]; simpl.
      * destruct (IH Hsub' s1 Ht1 Hnd1) as (Hs & Htab & Hn).
        split; [etransitivity; eassumption|]. split; assumption.
      * split; [exact Hsilent|]. split; assumption.
    + apply (IH Hsub' s Ht Hnd).
Qed.

Lemma tick_never_due env prayer s :
  never_due prayer s ->
  silent_for prayer s (snd (check_prayer_times_mock env s)) /\
  never_due prayer (snd (check_prayer_times_mock env s)).
Proof.
  intros Hnd.
  destruct (get_current_time_total env s) as [now Hnow].
  rewrite (check_prayer_times_mock_loop env s now Hnow).
  destruct (tick_loop_never_due env (strftime_HM now) prayer
              (prayer_times (self s)) (prayer_times (self s))
              (strftime_HM_length now) (fun _ H => H) s eq_refl Hnd)
    as (Hs & _ & Hn).
  split; assumption.
Qed.

(** X7.  The tick compares strings, not times: a prayer whose table string
    does not have the five characters of "%H:%M" (such as "5:30", which
    [get_next_prayer] accepts) is never fired, whatever the ticks: no
    [afplay] is started for it and it never enters [played_prayers]. *)
Theorem unpadded_time_never_fires
    (envs : list Env) (s : State) (prayer : string) :
  prayer ∉ played_prayers (self s) ->
  (forall v, (prayer, v) ∈ prayer_times (self s) ->
     forall str, v = JStr str -> String.length str <> 5%nat) ->
  exists new,
    output (snd (mock_ticks envs s)) = output s ++ new /\
    afplay_count prayer new = 0%nat /\
    prayer ∉ played_prayers (self (snd (mock_ticks envs s))).
Proof.
  intros Hnot Hlen.
  destruct (for_each_steps_inv (silent_for prayer) (never_due prayer)
              check_prayer_times_mock envs
              (fun env s1 => tick_never_due env prayer s1)
              s (conj Hnot Hlen))
    as ((new & Hout & Hsilent) & Hnd).
  exists new. split; [exact Hout|].
  split; [|exact (proj1 Hnd)].
  unfold afplay_count. rewrite filter_absent; [reflexivity|exact Hsilent].
Qed.

(** Fajr written "5:30": ticks at 05:30:00 and 05:30:30 start nothing for
    it. *)
Lemma unpadded_time_never_fires_witness :
  exists new,
    output (snd (mock_ticks
       [env_at (clock 738000 5 30 0); env_at (clock 738000 5 30 30)]
       (state_of (app_of unpadded_times JNull None None ∅))))
    = [] ++ new /\
    afplay_count "Fajr" new = 0%nat.
Proof.
  destruct (unpadded_time_never_fires
              [env_at (clock 738000 5 30 0); env_at (clock 738000 5 30 30)]
              (state_of (app_of unpadded_times JNull None None ∅)) "Fajr")
    as (new & Hout & Hzero & _).
  - simpl. apply not_elem_of_empty.
  - simpl. unfold unpadded_times. intros v Hin str ->.
    apply elem_of_cons in Hin as [[= ->]|Hin]; [discriminate|].
    repeat (apply elem_of_cons in Hin as [[=]|Hin]).
    inversion Hin.
  - exists new. split; assumption.
Defined.

(* ===================================================================== *)
(** * Further properties of the fetch and of the scheduling *)
(* ===================================================================== *)

Lemma and_then_ok {A B} (r : result A) (k : A -> result B) b :
  and_then r k = Ok b -> exists a, r = Ok a /\ k a = Ok b.
Proof. destruct r as [a|e]; simpl; [eauto|discriminate]. Qed.

Lemma read_table_names data table :
  read_table data = Ok table -> map fst table = PRAYER_NAMES.
Proof.
  unfold read_table. intros H.
  do 7 (apply and_then_ok in H as (? & _ & H)).
  injection H as <-. reflexivity.
Qed.

(** The result of the fetch and what it does to the object do not depend
    on the output so far, nor on the scheduler. *)
Lemma fetch_prayer_times_frame env s s' :
  self s' = self s ->
  fst (fetch_prayer_times env s') = fst (fetch_prayer_times env s) /\
  self (snd (fetch_prayer_times env s'))
    = self (snd (fetch_prayer_times env s)) /\
  jobs (snd (fetch_prayer_times env s')) = jobs s'.
Proof.
  intros Hself. rewrite !fetch_prayer_times_unfold. unfold fetch_caught.
  destruct (requests_get env) as [response|e].
  2:{ destruct (is_Exception e); simpl; auto. }
  destruct (status_code response =? 200); [|simpl; auto].
  destruct (response_json response) as [data|e].
  2:{ destruct (is_Exception e); simpl; auto. }
  destruct (read_table data) as [table|e].
  2:{ destruct (is_Exception e); simpl; auto. }
  destruct (read_readable data) as [readable|e].
  - simpl. rewrite Hself. auto.
  - destruct (is_Exception e); simpl; rewrite Hself; auto.
Qed.

(** X8.  When the failures of the supplier are errors, [fetch_prayer_times]
    never raises: it returns [True] exactly when the answer has status 200,
    its body is JSON, the five names are under data.timings and the label
    is under data.date.readable; and then the table holds the five names in
    display order. *)
Theorem fetch_succeeds_exactly_when (env : Env) (s : State) :
  (forall e, requests_get env = Raise e -> is_Exception e = true) ->
  (forall response e,
     requests_get env = Ok response ->
     response_json response = Raise e -> is_Exception e = true) ->
  exists b,
    fst (fetch_prayer_times env s) = Ok b /\
    (b = true <->
     exists response data table readable,
       requests_get env = Ok response /\ status_code response = 200 /\
       response_json response = Ok data /\
       read_table data = Ok table /\ read_readable data = Ok readable) /\
    (b = true ->
     map fst (prayer_times (self (snd (fetch_prayer_times env s))))
     = PRAYER_NAMES).
Proof.
  intros Hget Hjson. rewrite fetch_prayer_times_unfold. unfold fetch_caught.
  destruct (requests_get env) as [response|e] eqn:Eget.
  2:{ rewrite (Hget e eq_refl). exists false. split; [reflexivity|].
      split; [|discriminate]. split; [discriminate|].
      intros (? & ? & ? & ? & [=] & _). }
  destruct (status_code response =? 200) eqn:Estatus.
  2:{ exists false. split; [reflexivity|]. split; [|discriminate].
      split; [discriminate|].
      intros (? & ? & ? & ? & [= <-] & Hs & _).
      apply Z.eqb_neq in Estatus. contradiction. }
  apply Z.eqb_eq in Estatus.
  destruct (response_json response) as [data|e] eqn:Ejson.
  2:{ rewrite (Hjson response e eq_refl Ejson). exists false.
      split; [reflexivity|]. split; [|discriminate].
      split; [discriminate|].
      intros (? & ? & ? & ? & [= <-] & _ & Hj & _). congruence. }
  destruct (read_table data) as [table|e] eqn:Etable.
  2:{ rewrite (read_table_raises_Exception data e Etable). exists false.
      split; [reflexivity|]. split; [|discriminate].
      split; [discriminate|].
      intros (? & ? & ? & ? & [= <-] & _ & Hj & Ht & _). congruence. }
  destruct (read_readable data) as [readable|e] eqn:Edate.
  2:{ rewrite (read_readable_raises_Exception data e Edate). exists false.
      split; [reflexivity|]. split; [|discriminate].
      split; [discriminate|].
      intros (? & ? & ? & ? & [= <-] & _ & Hj & _ & Hr). congruence. }
  exists true. split; [reflexivity|]. split.
  - split; [|reflexivity]. intros _.
    exists response, data, table, readable. auto.
  - intros _. simpl. apply (read_table_names data table Etable).
Qed.

(** The sample payload: the fetch returns [True]. *)
Lemma fetch_succeeds_exactly_when_witness :
  exists b,
    fst (fetch_prayer_times
           (env_with (clock 738000 0 1 0) (ok_response sample_payload))
           (state_of sample_app)) = Ok b.
Proof.
  destruct (fetch_succeeds_exactly_when
              (env_with (clock 738000 0 1 0) (ok_response sample_payload))
              (state_of sample_app))
    as (b & Hb & _).
  - simpl. intros e [=].
  - simpl. intros response e [= <-]. simpl. intros [=].
  - exists b. exact Hb.
Defined.

(** X9.  After a fetch that returned [True], if the five fetched values
    parse as times, [get_next_prayer] returns one of the five prayer names
    with a time and a duration, at whatever time it is asked. *)
Theorem fetch_then_next_prayer (env env' : Env) (s : State) :
  fst (fetch_prayer_times env s) = Ok true ->
  forallb (fun kv => parses (snd kv))
    (prayer_times (self (snd (fetch_prayer_times env s)))) = true ->
  exists name time_str diff,
    get_next_prayer env' (snd (fetch_prayer_times env s))
    = (Ok (Some name, Some time_str, Some diff),
       snd (fetch_prayer_times env s)) /\
    name ∈ PRAYER_NAMES.
Proof.
  intros Htrue Hparse.
  assert (map fst (prayer_times (self (snd (fetch_prayer_times env s))))
          = PRAYER_NAMES) as Hnames.
  { revert Htrue. rewrite fetch_prayer_times_unfold. unfold fetch_caught.
    destruct (requests_get env) as [response|e];
      [|destruct (is_Exception e); discriminate].
    destruct (status_code response =? 200); [|discriminate].
    destruct (response_json response) as [data|e];
      [|destruct (is_Exception e); discriminate].
    destruct (read_table data) as [table|e] eqn:Etable;
      [|destruct (is_Exception e); discriminate].
    destruct (read_readable data) as [readable|e];
      [|destruct (is_Exception e); discriminate].
    intros _. simpl. apply (read_table_names data table Etable). }
  assert (valid_table (prayer_times (self (snd (fetch_prayer_times env s))))
          = true) as Hvalid.
  { unfold valid_table. rewrite Hparse, andb_true_r.
    apply bool_decide_eq_true, Hnames. }
  destruct (get_next_prayer_valid env' _ Hvalid)
    as (now & name & time_str & diff & _ & Hrun & Hcases).
  exists name, time_str, diff. split; [exact Hrun|].
  destruct Hcases as [(v & t & Hin & _)|(_ & -> & _)].
  - rewrite <- Hnames. apply list_elem_of_fmap.
    exists (name, v). split; [reflexivity|exact Hin].
  - unfold PRAYER_NAMES. left.
Qed.

(** The sample payload fetched at 00:01; asked at noon, the answer is
    Dhuhr. *)
Lemma fetch_then_next_prayer_witness :
  exists name time_str diff,
    fst (get_next_prayer (env_at (clock 738000 12 0 0))
           (snd (fetch_prayer_times
                   (env_with (clock 738000 0 1 0)
                      (ok_response sample_payload))
                   (state_of (app_of [] JNull None None ∅)))))
    = Ok (Some name, Some time_str, Some diff) /\
    name ∈ PRAYER_NAMES.
Proof.
  destruct (fetch_then_next_prayer
              (env_with (clock 738000 0 1 0) (ok_response sample_payload))
              (env_at (clock 738000 12 0 0))
              (state_of (app_of [] JNull None None ∅)))
    as (name & time_str & diff & Hrun & Hname).
  - vm_compute. reflexivity.
  - vm_compute. reflexivity.
  - exists name, time_str, diff. rewrite Hrun. split; [reflexivity|exact Hname].
Defined.

#[local] Instance silent_all_preorder : PreOrder silent_all.
Proof.
  split.
  - intros s. exists []. rewrite app_nil_r. split; reflexivity.
  - intros s1 s2 s3 (new1 & Ho1 & Hn1) (new2 & Ho2 & Hn2).
    exists (new1 ++ new2). split; [rewrite Ho2, Ho1, app_assoc; reflexivity|].
    unfold played_log in *. rewrite omap_app, Hn1, Hn2. reflexivity.
Qed.

Ltac silent_all_leaf :=
  intros ?; unfold silent_all; simpl;
  first [ exists []; rewrite app_nil_r; split; reflexivity
        | eexists [_]; split; reflexivity ].

(** The fetch starts no playback. *)
Lemma fetch_prayer_times_silent env : steps silent_all (fetch_prayer_times env).
Proof. unfold fetch_prayer_times. steps_auto fail silent_all_leaf. Qed.

Lemma fetch_true_table env s :
  fst (fetch_prayer_times env s) = Ok true ->
  prayer_times (self (snd (fetch_prayer_times env s))) <> [].
Proof.
  rewrite fetch_prayer_times_unfold. unfold fetch_caught.
  destruct (requests_get env) as [response|e];
    [|destruct (is_Exception e); discriminate].
  destruct (status_code response =? 200); [|discriminate].
  destruct (response_json response) as [data|e];
    [|destruct (is_Exception e); discriminate].
  destruct (read_table data) as [table|e] eqn:Etable;
    [|destruct (is_Exception e); discriminate].
  destruct (read_readable data) as [readable|e];
    [|destruct (is_Exception e); discriminate].
  intros _. simpl. apply read_table_names in Etable.
  destruct table; discriminate.
Qed.

Lemma last_snoc_event (l : list event) (ev : event) :
  last (l ++ [ev]) = Some ev.
Proof. apply last_snoc. Qed.

Lemma fetch_and_reschedule_unfold env s :
  fetch_and_reschedule env s =
  match fetch_prayer_times env (add_output [Print MsgFetchingNew] s) with
  | (Ok true, s1) =>
      match schedule_prayers env s1 with
      | (Ok _, s2) => (Ok tt, add_output [Print MsgUpdated] s2)
      | (Raise e, s2) => (Raise e, s2)
      end
  | (Ok false, s1) => (Ok tt, add_output [Print MsgFailedToUpdate] s1)
  | (Raise e, s1) => (Raise e, s1)
  end.
Proof.
  unfold fetch_and_reschedule, bind at 1, print, emit, add_output.
  unfold bind at 1.
  destruct (fetch_prayer_times env _) as [[[|]|e] s1]; reflexivity.
Qed.

(** X10.  The daily refresh, with a scheduler that accepts the times.  If
    the fetch returns [True], the jobs of the scheduler are replaced, not
    added to: afterwards they are one job per entry of the new table, in
    table order, followed by the refresh job at "00:01", whatever was
    registered before.  If the fetch returns [False], the jobs stay as they
    were.  In both cases the call returns normally and the object is as the
    fetch left it. *)
Theorem refresh_replaces_jobs (env : Env) (s : State) :
  (forall t, schedule_at env t = Ok tt) ->
  (fst (fetch_prayer_times env s) = Ok true ->
   fst (fetch_and_reschedule env s) = Ok tt /\
   self (snd (fetch_and_reschedule env s))
     = self (snd (fetch_prayer_times env s)) /\
   jobs (snd (fetch_and_reschedule env s))
     = map prayer_job (prayer_times (self (snd (fetch_prayer_times env s))))
       ++ [refresh_job] /\
   last (output (snd (fetch_and_reschedule env s)))
     = Some (Print MsgUpdated)) /\
  (fst (fetch_prayer_times env s) = Ok false ->
   fst (fetch_and_reschedule env s) = Ok tt /\
   self (snd (fetch_and_reschedule env s))
     = self (snd (fetch_prayer_times env s)) /\
   jobs (snd (fetch_and_reschedule env s)) = jobs s /\
   last (output (snd (fetch_and_reschedule env s)))
     = Some (Print MsgFailedToUpdate)).
Proof.
  intros Haccept.
  set (sp := add_output [Print MsgFetchingNew] s).
  destruct (fetch_prayer_times_frame env s sp eq_refl) as (Hfst & Hself & Hjobs).
  rewrite fetch_and_reschedule_unfold. fold sp.
  destruct (fetch_prayer_times env sp) as [r s1] eqn:Efetch.
  simpl in Hfst, Hself, Hjobs. split; intros Hres; rewrite Hres in Hfst;
    subst r.
  - assert (prayer_times (self s1) <> []) as Hne.
    { rewrite Hself. apply fetch_true_table, Hres. }
    destruct (schedule_prayers_registers env Haccept s1 Hne) as [Hok Hreg].
    destruct (schedule_prayers env s1) as [[b|e] s2] eqn:Esched;
      [|discriminate Hok].
    simpl in Hreg. simpl.
    assert (self s2 = self s1) as Hself2.
    { assert (schedule_prayers env s1 = register_jobs env s1) as Heq.
      { unfold schedule_prayers, bind at 1, get_self.
        destruct (prayer_times (self s1)); [congruence|reflexivity]. }
      rewrite Heq, (register_jobs_effect env Haccept) in Esched.
      injection Esched as _ <-. reflexivity. }
    split; [reflexivity|]. split; [congruence|].
    split; [rewrite Hreg, Hself; reflexivity|apply last_snoc_event].
  - simpl. split; [reflexivity|]. split; [exact Hself|].
    split; [exact Hjobs|apply last_snoc_event].
Qed.

(** Yesterday's six jobs and today's payload: six jobs again. *)
Lemma refresh_replaces_jobs_witness :
  jobs (snd (fetch_and_reschedule
               (env_with (clock 738001 0 1 0) (ok_response sample_payload))
               {| self := app_of old_times (JStr "03 Nov 2026") None None ∅;
                  jobs := map prayer_job old_times ++ [refresh_job];
                  output := [] |}))
  = map prayer_job sample_times ++ [refresh_job].
Proof.
  destruct (refresh_replaces_jobs
              (env_with (clock 738001 0 1 0) (ok_response sample_payload))
              {| self := app_of old_times (JStr "03 Nov 2026") None None ∅;
                 jobs := map prayer_job old_times ++ [refresh_job];
                 output := [] |})
    as [Hok _].
  - intros t. reflexivity.
  - destruct Hok as (_ & _ & Hjobs & _); [vm_compute; reflexivity|].
    rewrite Hjobs. vm_compute. reflexivity.
Defined.

Lemma schedule_prayers_no_table env s :
  prayer_times (self s) = [] ->
  fst (fetch_prayer_times env s) = Ok false ->
  exists s1,
    schedule_prayers env s
    = (Ok false, add_output [Print MsgFailedToFetch] s1) /\
    jobs s1 = jobs s /\
    self s1 = self (snd (fetch_prayer_times env s)) /\
    silent_all s s1.
Proof.
  intros Hempty Hfalse.
  set (sp := {| self := self s; jobs := jobs s;
                output := output s ++ [Print MsgNoPrayerTimes] |}).
  destruct (fetch_prayer_times_frame env s sp eq_refl) as (Hfst & Hself & Hjobs).
  assert (schedule_prayers env s =
          match fetch_prayer_times env sp with
          | (Ok false, s1) => (Ok false, add_output [Print MsgFailedToFetch] s1)
          | (Ok true, s1) => register_jobs env s1
          | (Raise e, s1) => (Raise e, s1)
          end) as ->.
  { unfold schedule_prayers, bind at 1, get_self. rewrite Hempty.
    unfold bind at 1, print, emit. fold sp. unfold bind at 1.
    destruct (fetch_prayer_times env sp) as [[[|]|e] s1]; reflexivity. }
  pose proof (fetch_prayer_times_silent env sp) as Hsilent.
  destruct (fetch_prayer_times env sp) as [r s1].
  simpl in Hfst, Hself, Hjobs, Hsilent. rewrite Hfalse in Hfst. subst r.
  exists s1. split; [reflexivity|]. split; [exact Hjobs|].
  split; [exact Hself|].
  transitivity sp; [|exact Hsilent].
  exists [Print MsgNoPrayerTimes]. split; [reflexivity|reflexivity].
Qed.

(** X11.  [schedule_prayers] on an object without a table fetches one
    first.  If that fetch returns [False], it returns [False] and leaves the
    scheduler alone: the jobs are not cleared. *)
Theorem schedule_prayers_without_table (env : Env) (s : State) :
  prayer_times (self s) = [] ->
  fst (fetch_prayer_times env s) = Ok false ->
  fst (schedule_prayers env s) = Ok false /\
  jobs (snd (schedule_prayers env s)) = jobs s /\
  self (snd (schedule_prayers env s)) = self (snd (fetch_prayer_times env s)) /\
  last (output (snd (schedule_prayers env s)))
    = Some (Print MsgFailedToFetch).
Proof.
  intros Hempty Hfalse.
  destruct (schedule_prayers_no_table env s Hempty Hfalse)
    as (s1 & -> & Hjobs & Hself & _).
  simpl. split; [reflexivity|]. split; [exact Hjobs|].
  split; [exact Hself|apply last_snoc_event].
Qed.

(** No table, the supplier unreachable, one old job: it stays. *)
Lemma schedule_prayers_without_table_witness :
  jobs (snd (schedule_prayers (env_at (clock 738000 9 0 0))
               {| self := app_of [] JNull None None ∅;
                  jobs := [refresh_job]; output := [] |}))
  = [refresh_job].
Proof.
  apply (schedule_prayers_without_table (env_at (clock 738000 9 0 0))
           {| self := app_of [] JNull None None ∅;
              jobs := [refresh_job]; output := [] |});
    reflexivity.
Defined.

Lemma register_loop_rejected env (l1 l2 : dict) prayer v e s :
  (forall kv, kv ∈ l1 -> schedule_at env (snd kv) = Ok tt) ->
  schedule_at env v = Raise e ->
  for_each (l1 ++ (prayer, v) :: l2) (fun '(prayer, time_str) =>
    schedule_every_day_at_do env time_str (DoPlayAzaan prayer) ;;
    print (MsgScheduled prayer time_str)) s =
  (Raise e,
   {| self := self s;
      jobs := jobs s ++ map prayer_job l1;
      output := output s ++
        map (fun kv => Print (MsgScheduled (fst kv) (snd kv))) l1 |}).
Proof.
  intros Hacc Hrej. revert s.
  induction l1 as [|[p w] l1 IH]; intros s.
  - simpl. unfold bind at 1. unfold bind at 1.
    unfold schedule_every_day_at_do, bind at 1, lift. rewrite Hrej.
    rewrite !app_nil_r. destruct s; reflexivity.
  - simpl. unfold bind at 1. unfold bind at 1.
    unfold schedule_every_day_at_do, bind at 1, lift.
    pose proof (Hacc (p, w) ltac:(left)) as Hw. simpl in Hw. rewrite Hw.
    unfold bind at 1, get_jobs, set_jobs, print, emit.
    cbn [self jobs output].
    rewrite IH by (intros kv Hkv; apply Hacc; right; exact Hkv).
    cbn [self jobs output]. rewrite <- !app_assoc. reflexivity.
Qed.

(** X12.  When the scheduler refuses the time of a table entry,
    [schedule_prayers] raises the scheduler's error.  The jobs have been
    cleared by then: what is left are the jobs of the entries before the
    refused one, and the refresh job at "00:01" is not registered. *)
Theorem schedule_prayers_refused_time
    (env : Env) (s : State) (l1 l2 : dict) (prayer : string) (v : json)
    (e : exn) :
  prayer_times (self s) = l1 ++ (prayer, v) :: l2 ->
  (forall kv, kv ∈ l1 -> schedule_at env (snd kv) = Ok tt) ->
  schedule_at env v = Raise e ->
  fst (schedule_prayers env s) = Raise e /\
  jobs (snd (schedule_prayers env s)) = map prayer_job l1 /\
  refresh_job ∉ jobs (snd (schedule_prayers env s)).
Proof.
  intros Hpt Hacc Hrej.
  assert (schedule_prayers env s =
          (Raise e,
           {| self := self s; jobs := map prayer_job l1;
              output := output s ++
                map (fun kv => Print (MsgScheduled (fst kv) (snd kv))) l1 |}))
    as ->.
  { assert (schedule_prayers env s = register_jobs env s) as ->.
    { unfold schedule_prayers, bind at 1, get_self. rewrite Hpt.
      destruct l1; reflexivity. }
    unfold register_jobs, schedule_clear.
    unfold bind at 1, set_jobs. unfold bind at 1, get_self.
    cbn [self jobs output]. rewrite Hpt. unfold bind at 1.
    rewrite (register_loop_rejected env l1 l2 prayer v e _ Hacc Hrej).
    reflexivity. }
  simpl. split; [reflexivity|]. split; [reflexivity|].
  intros Hin. apply list_elem_of_fmap in Hin as (kv & Heq & _).
  discriminate Heq.
Qed.

(** A scheduler that refuses "25:99", the time of Fajr. *)
Lemma schedule_prayers_refused_time_witness :
  fst (schedule_prayers
         {| datetime_now := clock 738000 0 1 0;
            audio_exists := true;
            requests_get := Raise RequestException;
            subprocess_run := fun _ => Ok tt;
            schedule_at := fun t =>
              if json_eq_str t "25:99" then Raise ScheduleValueError
              else Ok tt;
            schedule_runnable := fun _ => [] |}
         {| self := app_of
              [("Fajr", JStr "25:99"); ("Dhuhr", JStr "12:15")]
              JNull None None ∅;
            jobs := [refresh_job]; output := [] |})
  = Raise ScheduleValueError.
Proof.
  apply (schedule_prayers_refused_time _ _ [] [("Dhuhr", JStr "12:15")]
           "Fajr" (JStr "25:99") ScheduleValueError).
  - reflexivity.
  - intros kv Hkv. inversion Hkv.
  - reflexivity.
Defined.

(* ===================================================================== *)
(** * Construction and the main loop *)
(* ===================================================================== *)

(** X13.  [__init__].  Without the audio file it prints the error and ends
    the process with [sys.exit(1)].  With it, the object has no table, no
    date label and nothing played; built with a mock time, its clock reads
    that mock time at the instant of construction, and built without, its
    clock is the wall clock; and [get_next_prayer] answers
    (None, None, None) on the fresh object. *)
Theorem init_contract (env : Env) (mock : option datetime) (s : State) :
  (audio_exists env = false ->
   fst (init env mock s) = Raise (SystemExit 1) /\
   last (output (snd (init env mock s))) = Some (Print MsgAudioNotFound)) /\
  (audio_exists env = true ->
   fst (init env mock s) = Ok tt /\
   prayer_times (self (snd (init env mock s))) = [] /\
   prayer_date (self (snd (init env mock s))) = JNull /\
   played_prayers (self (snd (init env mock s))) = ∅ /\
   jobs (snd (init env mock s)) = jobs s /\
   (forall m, mock = Some m ->
      fst (get_current_time env (snd (init env mock s))) = Ok m) /\
   (forall env', mock = None ->
      fst (get_current_time env' (snd (init env mock s)))
      = Ok (datetime_now env')) /\
   (forall env',
      fst (get_next_prayer env' (snd (init env mock s)))
      = Ok (None, None, None))).
Proof.
  unfold init, bind, modify_self. simpl. split; intros Haudio;
    rewrite Haudio; simpl.
  - split; [reflexivity|]. apply last_snoc_event.
  - destruct mock as [m|]; simpl; repeat split; try reflexivity;
      try discriminate.
    intros m' [= <-]. unfold get_current_time, bind, get_self, ret. simpl.
    f_equal. lia.
Qed.

(** Built at 09:00:00 with the mock time 18:19:50: the clock reads
    18:19:50. *)
Lemma init_contract_witness :
  fst (get_current_time (env_at (clock 738000 9 0 0))
         (snd (init (env_at (clock 738000 9 0 0))
                 (Some (clock 738000 18 19 50)) (state_of sample_app))))
  = Ok (clock 738000 18 19 50).
Proof.
  destruct (init_contract (env_at (clock 738000 9 0 0))
              (Some (clock 738000 18 19 50)) (state_of sample_app))
    as [_ Hok].
  destruct (Hok eq_refl) as (_ & _ & _ & _ & _ & Hclock & _).
  apply Hclock. reflexivity.
Defined.

(** [run], case by case. *)
Lemma run_unfold env0 envs s :
  run env0 envs s =
  match schedule_prayers env0 (add_output [Print MsgStarting] s) with
  | (Ok true, s1) =>
      match get_current_time env0 s1 with
      | (Ok now, s1') =>
          match print_next (dt_time now) (prayer_times (self s1')) s1' with
          | (Ok _, s2) =>
              except_KeyboardInterrupt (for_each envs loop_iteration)
                (print MsgStopped) (add_output [Print MsgRunning] s2)
          | (Raise e, s2) => (Raise e, s2)
          end
      | (Raise e, s1') => (Raise e, s1')
      end
  | (Ok false, s1) => (Ok tt, s1)
  | (Raise e, s1) => (Raise e, s1)
  end.
Proof.
  unfold run, bind at 1, print, emit, add_output. unfold bind at 1.
  destruct (schedule_prayers env0 _) as [[[|]|e] s1]; reflexivity.
Qed.

(** X14.  [run] on an object without a table, when the first fetch returns
    [False]: it returns at once, normally.  The loop is not entered,
    however long it would have been observed: no job is registered, no
    playback is started, and the last line printed is the failure to
    fetch. *)
Theorem run_without_table_returns (env0 : Env) (envs : list Env) (s : State) :
  prayer_times (self s) = [] ->
  fst (fetch_prayer_times env0 s) = Ok false ->
  fst (run env0 envs s) = Ok tt /\
  run env0 envs s = run env0 [] s /\
  jobs (snd (run env0 envs s)) = jobs s /\
  (exists new,
     output (snd (run env0 envs s)) = output s ++ new /\
     played_log new = [] /\
     last new = Some (Print MsgFailedToFetch)).
Proof.
  intros Hempty Hfalse.
  set (sp := add_output [Print MsgStarting] s).
  destruct (fetch_prayer_times_frame env0 s sp eq_refl) as (Hfst & _ & _).
  rewrite Hfalse in Hfst.
  destruct (schedule_prayers_no_table env0 sp Hempty Hfst)
    as (s1 & Hsched & Hjobs & _ & (new & Hout & Hquiet)).
  rewrite !run_unfold. fold sp. rewrite Hsched. simpl.
  split; [reflexivity|]. split; [reflexivity|]. split; [exact Hjobs|].
  exists ([Print MsgStarting] ++ new ++ [Print MsgFailedToFetch]).
  split; [rewrite Hout; simpl; rewrite <- !app_assoc; reflexivity|].
  split.
  - unfold played_log in *. simpl. rewrite omap_app, Hquiet. reflexivity.
  - rewrite app_assoc. apply last_snoc_event.
Qed.

(** The supplier unreachable at start: [run] returns, whatever the
    environments of the turns that do not happen. *)
Lemma run_without_table_returns_witness :
  fst (run (env_at (clock 738000 9 0 0))
         [env_at (clock 738000 9 0 1); env_at (clock 738000 9 0 2)]
         (state_of (app_of [] JNull None None ∅))) = Ok tt.
Proof.
  apply (run_without_table_returns (env_at (clock 738000 9 0 0))
           [env_at (clock 738000 9 0 1); env_at (clock 738000 9 0 2)]
           (state_of (app_of [] JNull None None ∅)));
    reflexivity.
Defined.

Lemma bind_fst_ok {A B} (m : M A) (k : A -> M B) s b :
  fst (bind m k s) = Ok b ->
  exists a s1, m s = (Ok a, s1) /\ fst (k a s1) = Ok b.
Proof.
  unfold bind. destruct (m s) as [[a|e] s1]; simpl; [eauto|discriminate].
Qed.

Lemma register_jobs_returns_true env s b :
  fst (register_jobs env s) = Ok b -> b = true.
Proof.
  unfold register_jobs. intros H.
  do 4 (apply bind_fst_ok in H as (? & ? & _ & H)).
  simpl in H. congruence.
Qed.

(** [schedule_prayers] returns [False] only after the line that says the
    fetch failed. *)
Lemma schedule_prayers_unfold env s :
  schedule_prayers env s =
  match prayer_times (self s) with
  | [] =>
      match fetch_prayer_times env
              (add_output [Print MsgNoPrayerTimes] s) with
      | (Ok true, s1) => register_jobs env s1
      | (Ok false, s1) => (Ok false, add_output [Print MsgFailedToFetch] s1)
      | (Raise e, s1) => (Raise e, s1)
      end
  | _ :: _ => register_jobs env s
  end.
Proof.
  unfold schedule_prayers, bind at 1, get_self.
  destruct (prayer_times (self s)); [|reflexivity].
  unfold bind at 1, print, emit, add_output. unfold bind at 1.
  destruct (fetch_prayer_times env _) as [[[|]|e] s1]; reflexivity.
Qed.

Lemma schedule_prayers_false_last env s :
  fst (schedule_prayers env s) = Ok false ->
  last (output (snd (schedule_prayers env s)))
  = Some (Print MsgFailedToFetch).
Proof.
  rewrite schedule_prayers_unfold.
  destruct (prayer_times (self s)).
  - destruct (fetch_prayer_times env _) as [[[|]|e] s1]; simpl.
    + intros H. apply register_jobs_returns_true in H. discriminate H.
    + intros _. apply last_snoc_event.
    + discriminate.
  - intros H. apply register_jobs_returns_true in H. discriminate H.
Qed.

(** X15.  Once the set-up of [run] is over and the loop runs, a
    [KeyboardInterrupt] raised in a turn of the loop (Ctrl-C while [afplay]
    plays, for one) does not escape: [run] prints that the app stopped and
    returns normally, with the state the interrupted turn left. *)
Theorem run_catches_keyboard_interrupt
    (env0 : Env) (envs : list Env) (s s2 : State) :
  fst (run env0 [] s) = Ok tt ->
  last (output (snd (run env0 [] s))) = Some (Print MsgRunning) ->
  for_each envs loop_iteration (snd (run env0 [] s))
    = (Raise KeyboardInterrupt, s2) ->
  run env0 envs s = (Ok tt, add_output [Print MsgStopped] s2).
Proof.
  rewrite !run_unfold.
  pose proof (schedule_prayers_false_last env0
                (add_output [Print MsgStarting] s)) as Hfalse.
  destruct (schedule_prayers env0 _) as [[[|]|e] s1]; simpl.
  - destruct (get_current_time env0 s1) as [[now|e] s1']; [|discriminate].
    destruct (print_next _ _ s1') as [[[]|e] s2']; [|discriminate].
    unfold except_KeyboardInterrupt. simpl. intros _ _ Hloop.
    rewrite Hloop. reflexivity.
  - intros _ Hlast. specialize (Hfalse eq_refl). simpl in Hfalse.
    rewrite Hfalse in Hlast. discriminate Hlast.
  - discriminate.
Qed.

(** Mock mode, Maghrib due at the first turn, the playback interrupted
    from the keyboard: [run] returns normally. *)
Lemma run_catches_keyboard_interrupt_witness :
  fst (run
         (env_of (clock 738000 9 0 0) (ok_response sample_payload)
            (Raise KeyboardInterrupt) refresh_due)
         [env_of (clock 738000 9 0 1) (ok_response sample_payload)
            (Raise KeyboardInterrupt) refresh_due]
         (state_of (app_of [] JNull (Some (clock 738000 18 19 59))
                      (Some (clock 738000 9 0 0)) ∅)))
  = Ok tt.
Proof.
  rewrite (run_catches_keyboard_interrupt
             (env_of (clock 738000 9 0 0) (ok_response sample_payload)
                (Raise KeyboardInterrupt) refresh_due)
             [env_of (clock 738000 9 0 1) (ok_response sample_payload)
                (Raise KeyboardInterrupt) refresh_due]
             (state_of (app_of [] JNull (Some (clock 738000 18 19 59))
                          (Some (clock 738000 9 0 0)) ∅))
             (snd (for_each
                [env_of (clock 738000 9 0 1) (ok_response sample_payload)
                   (Raise KeyboardInterrupt) refresh_due]
                loop_iteration
                (snd (run
                   (env_of (clock 738000 9 0 0) (ok_response sample_payload)
                      (Raise KeyboardInterrupt) refresh_due) []
                   (state_of (app_of [] JNull (Some (clock 738000 18 19 59))
                                (Some (clock 738000 9 0 0)) ∅))))))).
  - reflexivity.
  - vm_compute. reflexivity.
  - vm_compute. reflexivity.
  - vm_compute. reflexivity.
Defined.

(* ===================================================================== *)
(** * Ties, and the order of the table *)
(* ===================================================================== *)

(** The sort is stable: entries with one timestamp keep their order. *)
Lemma filter_insert_by_time (k : datetime) x l :
  filter (fun y : string * datetime => snd y = k) (insert_by_time x l)
  = filter (fun y : string * datetime => snd y = k) (x :: l).
Proof.
  induction l as [|y l IH]; simpl; [reflexivity|].
  destruct (snd x <=? snd y) eqn:E; [reflexivity|].
  apply Z.leb_gt in E.
  rewrite filter_cons, IH, !filter_cons.
  destruct (decide (snd y = k)), (decide (snd x = k)); try reflexivity.
  lia.
Qed.

Lemma filter_sort_by_time (k : datetime) l :
  filter (fun y : string * datetime => snd y = k) (sort_by_time l)
  = filter (fun y : string * datetime => snd y = k) l.
Proof.
  induction l as [|x l IH]; simpl; [reflexivity|].
  rewrite filter_insert_by_time, !filter_cons, IH. reflexivity.
Qed.

Lemma find_next_split current_time l x :
  find_next current_time l = Some x ->
  exists pre post,
    l = pre ++ x :: post /\
    forall y, y ∈ pre -> dt_time (snd y) <= current_time.
Proof.
  induction l as [|[p d] l IH]; simpl; [discriminate|].
  destruct (current_time <? dt_time d) eqn:E.
  - intros [= <-]. exists [], l. split; [reflexivity|].
    intros y Hy. inversion Hy.
  - apply Z.ltb_ge in E. intros H.
    destruct (IH H) as (pre & post & -> & Hpre).
    exists ((p, d) :: pre), post. split; [reflexivity|].
    intros y Hy. apply elem_of_cons in Hy as [->|Hy]; [exact E|].
    apply Hpre, Hy.
Qed.

Lemma head_filter_first {A} (P : A -> Prop) `{!forall x, Decision (P x)}
    (pre post : list A) (x : A) :
  (forall y, y ∈ pre -> ~ P y) -> P x ->
  head (filter P (pre ++ x :: post)) = Some x.
Proof.
  intros Hpre Hx. induction pre as [|y pre IH]; simpl.
  - rewrite filter_cons_True by exact Hx. reflexivity.
  - rewrite filter_cons_False by (apply Hpre; left).
    apply IH. intros z Hz. apply Hpre. right. exact Hz.
Qed.

Lemma combine_inj (day : date) (t1 t2 : time) :
  combine day t1 = combine day t2 -> t1 = t2.
Proof. unfold combine. lia. Qed.

(** What the sort and the scan find for today: the first entry of the
    table among those with the earliest time later than now. *)
Lemma next_today_first s now (l1 l2 : dict) prayer v t l :
  prayer_times (self s) = l1 ++ (prayer, v) :: l2 ->
  strptime v = Ok t ->
  dt_time now < t ->
  (forall q v' t', (q, v') ∈ prayer_times (self s) ->
     strptime v' = Ok t' -> dt_time now < t' -> t <= t') ->
  (forall q v' t', (q, v') ∈ l1 -> strptime v' = Ok t' -> t' <> t) ->
  build_prayer_list (dt_date now) (prayer_times (self s)) = Ok l ->
  find_next (dt_time now) (sort_by_time l)
  = Some (prayer, combine (dt_date now) t).
Proof.
  intros Hpt Hv Hlater Hmin Hfirst Hl.
  pose proof (build_prayer_list_inv _ _ _ Hl) as HF.
  pose proof (timestamps_same_day _ _ _ HF) as Hday.
  pose proof (strptime_range v t Hv) as Hrange.
  (* the scan finds something, since the entry is later than now *)
  destruct (find_next (dt_time now) (sort_by_time l)) as [[p d]|] eqn:Efind.
  2:{ pose proof (none_today s now l Hl Efind prayer v t) as Hle.
      rewrite Hpt in Hle.
      specialize (Hle ltac:(apply elem_of_app; right; left) Hv). lia. }
  (* its timestamp is the one of [t] *)
  destruct (next_today s now l p d Hl Efind)
    as (v0 & t0 & Hin0 & Ht0 & -> & Hlt0 & Hmin0).
  assert (t0 = t) as ->.
  { assert (t0 <= t) by (apply (Hmin0 prayer v t);
      [rewrite Hpt; apply elem_of_app; right; left|exact Hv|exact Hlater]).
    assert (t <= t0) by (apply (Hmin p v0 t0 Hin0 Ht0 Hlt0)). lia. }
  f_equal. f_equal.
  (* it is the first of the sorted list with that timestamp *)
  pose proof Efind as Hsplit. apply find_next_split in Hsplit
    as (pre & post & Hsorted & Hpre).
  assert (head (filter (fun y : string * datetime =>
                          snd y = combine (dt_date now) t)
                  (sort_by_time l))
          = Some (p, combine (dt_date now) t)) as Hhead.
  { rewrite Hsorted. apply head_filter_first; [|reflexivity].
    intros y Hy Heq. specialize (Hpre y Hy). rewrite Heq in Hpre.
    rewrite dt_time_combine in Hpre by exact Hrange. lia. }
  rewrite filter_sort_by_time in Hhead.
  (* and so the first of the built list, which follows the table *)
  rewrite Hpt in HF. apply Forall2_app_inv_l in HF
    as (m1 & m2' & HF1 & HF2 & ->).
  apply Forall2_cons_inv_l in HF2 as ([p' d'] & m2 & Hhere & _ & ->).
  destruct Hhere as [Hp (t' & Ht' & Hd')]. simpl in Hp, Ht', Hd'.
  rewrite Hv in Ht'. injection Ht' as <-. subst p' d'.
  rewrite head_filter_first in Hhead; [congruence| |reflexivity].
  intros [q dq] Hq Heq. simpl in Heq.
  destruct (Forall2_elem_r _ _ _ _ HF1 Hq)
    as ([q' vq] & Hq' & _ & tq & Htq & Hdq).
  simpl in Htq, Hdq. rewrite Hdq in Heq. apply combine_inj in Heq.
  apply (Hfirst q' vq tq Hq' Htq Heq).
Qed.

Lemma get_next_prayer_first
    (env : Env) (s : State) (now : datetime)
    (l1 l2 : dict) (prayer : string) (v : json) (t : time) :
  get_current_time env s = (Ok now, s) ->
  forallb (fun kv => parses (snd kv)) (prayer_times (self s)) = true ->
  prayer_times (self s) = l1 ++ (prayer, v) :: l2 ->
  strptime v = Ok t ->
  dt_time now < t ->
  (forall q v' t', (q, v') ∈ prayer_times (self s) ->
     strptime v' = Ok t' -> dt_time now < t' -> t <= t') ->
  (forall q v' t', (q, v') ∈ l1 -> strptime v' = Ok t' -> t' <> t) ->
  get_next_prayer env s
  = (Ok (Some prayer, Some (JStr (time_strftime_HM t)),
         Some (t - dt_time now)), s).
Proof.
  intros Hnow Hparse Hpt Hv Hlater Hmin Hfirst.
  destruct (build_prayer_list_total (dt_date now) _ Hparse) as [l Hl].
  rewrite (get_next_prayer_unfold env s now Hnow)
    by (rewrite Hpt; destruct l1; discriminate).
  rewrite Hl.
  rewrite (next_today_first s now l1 l2 prayer v t l
             Hpt Hv Hlater Hmin Hfirst Hl).
  unfold strftime_HM.
  rewrite dt_time_combine by (eapply strptime_range, Hv).
  rewrite duration_today. reflexivity.
Qed.

(** X16.  Ties are broken by the order of the table.  When some entry is
    later than now, [get_next_prayer] returns the first entry of the table
    among those with the earliest such time, with that time on two digits
    and the duration to it. *)
Theorem get_next_prayer_first_of_ties
    (env : Env) (s : State) (now : datetime)
    (l1 l2 : dict) (prayer : string) (v : json) (t : time) :
  get_current_time env s = (Ok now, s) ->
  forallb (fun kv => parses (snd kv)) (prayer_times (self s)) = true ->
  prayer_times (self s) = l1 ++ (prayer, v) :: l2 ->
  strptime v = Ok t ->
  dt_time now < t ->
  (forall q v' t', (q, v') ∈ prayer_times (self s) ->
     strptime v' = Ok t' -> dt_time now < t' -> t <= t') ->
  (forall q v' t', (q, v') ∈ l1 -> strptime v' = Ok t' -> t' <> t) ->
  get_next_prayer env s
  = (Ok (Some prayer, Some (JStr (time_strftime_HM t)),
         Some (t - dt_time now)), s).
Proof.
  intros Hnow Hparse Hpt Hv Hlater Hmin Hfirst.
  destruct (build_prayer_list_total (dt_date now) _ Hparse) as [l Hl].
  assert (prayer_times (self s) <> []) as Hne
    by (rewrite Hpt; destruct l1; discriminate).
  rewrite (get_next_prayer_unfold env s now Hnow Hne), Hl.
  rewrite (next_today_first s now l1 l2 prayer v t l
             Hpt Hv Hlater Hmin Hfirst Hl).
  unfold strftime_HM.
  rewrite dt_time_combine by (eapply strptime_range, Hv).
  rewrite duration_today. reflexivity.
Qed.

(** Asr and Maghrib both at 18:20: at 18:00, Asr, which comes first in the
    table, is returned. *)
Lemma get_next_prayer_first_of_ties_witness :
  get_next_prayer (env_at (clock 738000 18 0 0))
    (state_of (app_of tied_times JNull None None ∅))
  = (Ok (Some "Asr", Some (JStr "18:20"), Some (20 * US_PER_MINUTE)),
     state_of (app_of tied_times JNull None None ∅)).
Proof.
  rewrite (get_next_prayer_first_of_ties
             (env_at (clock 738000 18 0 0))
             (state_of (app_of tied_times JNull None None ∅))
             (clock 738000 18 0 0)
             [("Fajr", JStr "05:30"); ("Dhuhr", JStr "12:15")]
             [("Maghrib", JStr "18:20"); ("Isha", JStr "19:45")]
             "Asr" (JStr "18:20") (mk_time 18 20)).
  - reflexivity.
  - reflexivity.
  - reflexivity.
  - reflexivity.
  - reflexivity.
  - vm_compute. reflexivity.
  - simpl. unfold tied_times. intros q v' t' Hin Ht' Hlt.
    repeat (apply elem_of_cons in Hin as [[= -> ->]|Hin];
            [vm_compute in Ht'; injection Ht' as <-;
             first [ vm_compute in Hlt; discriminate Hlt
                   | vm_compute; discriminate ]|]).
    inversion Hin.
  - intros q v' t' Hin Ht'.
    repeat (apply elem_of_cons in Hin as [[= -> ->]|Hin];
            [vm_compute in Ht'; injection Ht' as <-; vm_compute;
             discriminate|]).
    inversion Hin.
Defined.

Lemma time_of_Some v t : time_of v = Some t <-> strptime v = Ok t.
Proof.
  unfold time_of. destruct (strptime v); split; congruence.
Qed.

Lemma first_later_split (now : time) (pt : dict) prayer v :
  first_later now pt = Some (prayer, v) ->
  exists l1 l2 t,
    pt = l1 ++ (prayer, v) :: l2 /\ strptime v = Ok t /\ now < t /\
    forall q v' t', (q, v') ∈ l1 -> strptime v' = Ok t' -> t' <= now.
Proof.
  induction pt as [|[p w] pt IH]; simpl; [discriminate|].
  destruct (time_of w) as [tw|] eqn:Ew; [|discriminate].
  apply time_of_Some in Ew.
  destruct (now <? tw) eqn:E.
  - apply Z.ltb_lt in E. intros [= -> ->].
    exists [], pt, tw. repeat split; try assumption.
    intros q v' t' Hin. inversion Hin.
  - apply Z.ltb_ge in E. intros H.
    destruct (IH H) as (l1 & l2 & t & -> & Ht & Hlt & Hpre).
    exists ((p, w) :: l1), l2, t. repeat split; try assumption.
    intros q v' t' Hin Ht'. apply elem_of_cons in Hin as [[= -> ->]|Hin].
    + rewrite Ew in Ht'. injection Ht' as <-. exact E.
    + apply (Hpre q v' t' Hin Ht').
Qed.

Lemma first_later_None (now : time) (pt : dict) :
  forallb (fun kv => parses (snd kv)) pt = true ->
  first_later now pt = None ->
  forall q v t, (q, v) ∈ pt -> strptime v = Ok t -> t <= now.
Proof.
  induction pt as [|[p w] pt IH]; simpl; intros Hparse Hnone q v t Hin Ht;
    [inversion Hin|].
  apply andb_prop in Hparse as [Hw Hparse]. unfold parses in Hw.
  unfold time_of in Hnone.
  destruct (strptime w) as [tw|] eqn:Ew; [|discriminate].
  destruct (now <? tw) eqn:E; [discriminate|]. apply Z.ltb_ge in E.
  apply elem_of_cons in Hin as [[= -> ->]|Hin].
  - rewrite Ew in Ht. injection Ht as <-. exact E.
  - apply (IH Hparse Hnone q v t Hin Ht).
Qed.

(** The loop of [run] that announces the next prayer prints the first
    entry later than now in table order, or nothing. *)
Lemma print_next_effect (now : time) (pt : dict) s :
  forallb (fun kv => parses (snd kv)) pt = true ->
  print_next now pt s =
  match first_later now pt with
  | Some (prayer, v) => (Ok tt, add_output [Print (MsgNext prayer v)] s)
  | None => (Ok tt, s)
  end.
Proof.
  induction pt as [|[p w] pt IH]; simpl; intros Hparse; [reflexivity|].
  apply andb_prop in Hparse as [Hw Hparse]. unfold parses in Hw.
  unfold time_of, bind, lift.
  destruct (strptime w) as [tw|]; [|discriminate].
  destruct (now <? tw); [reflexivity|]. apply IH, Hparse.
Qed.

Lemma times_ascending_after (l1 l2 : dict) prayer v t :
  times_ascending (l1 ++ (prayer, v) :: l2) = true ->
  strptime v = Ok t ->
  forall q v' t', (q, v') ∈ l2 -> strptime v' = Ok t' -> t <= t'.
Proof.
  induction l1 as [|[p w] l1 IH]; simpl; intros Hasc Hv q v' t' Hin Ht'.
  - apply andb_prop in Hasc as [Hall _].
    rewrite forallb_forall in Hall.
    specialize (Hall (q, v') ltac:(apply list_elem_of_In; exact Hin)).
    simpl in Hall. unfold time_of in Hall. rewrite Hv, Ht' in Hall.
    apply Z.leb_le, Hall.
  - apply andb_prop in Hasc as [_ Hasc].
    apply (IH Hasc Hv q v' t' Hin Ht').
Qed.

(** X17.  On a table whose times parse and come in ascending order, the
    prayer [run] announces at start (the first entry later than now, in
    table order) is the prayer [get_next_prayer] returns; and when no entry
    is later than now, [run] announces nothing. *)
Theorem run_announces_next_prayer
    (env : Env) (s : State) (now : datetime) :
  get_current_time env s = (Ok now, s) ->
  forallb (fun kv => parses (snd kv)) (prayer_times (self s)) = true ->
  times_ascending (prayer_times (self s)) = true ->
  match first_later (dt_time now) (prayer_times (self s)) with
  | Some (prayer, v) =>
      print_next (dt_time now) (prayer_times (self s)) s
      = (Ok tt, add_output [Print (MsgNext prayer v)] s) /\
      exists t,
        strptime v = Ok t /\
        get_next_prayer env s
        = (Ok (Some prayer, Some (JStr (time_strftime_HM t)),
               Some (t - dt_time now)), s)
  | None =>
      print_next (dt_time now) (prayer_times (self s)) s = (Ok tt, s) /\
      forall q v t, (q, v) ∈ prayer_times (self s) ->
                    strptime v = Ok t -> t <= dt_time now
  end.
Proof.
  intros Hnow Hparse Hasc.
  rewrite (print_next_effect _ _ s Hparse).
  destruct (first_later (dt_time now) (prayer_times (self s)))
    as [[prayer v]|] eqn:Efirst.
  - split; [reflexivity|].
    destruct (first_later_split _ _ _ _ Efirst)
      as (l1 & l2 & t & Hpt & Hv & Hlt & Hpre).
    exists t. split; [exact Hv|].
    apply (get_next_prayer_first env s now l1 l2 prayer v t
             Hnow Hparse Hpt Hv Hlt).
    + intros q v' t' Hin Ht' Hlater. rewrite Hpt in Hin.
      apply elem_of_app in Hin as [Hin|Hin].
      * specialize (Hpre q v' t' Hin Ht'). lia.
      * apply elem_of_cons in Hin as [[= -> ->]|Hin].
        -- rewrite Hv in Ht'. injection Ht' as <-. lia.
        -- rewrite Hpt in Hasc.
           apply (times_ascending_after l1 l2 prayer v t Hasc Hv
                    q v' t' Hin Ht').
    + intros q v' t' Hin Ht' ->. specialize (Hpre q v' t Hin Ht'). lia.
  - split; [reflexivity|].
    apply (first_later_None _ _ Hparse Efirst).
Qed.

(** The sample table at noon: Dhuhr is announced and returned. *)
Lemma run_announces_next_prayer_witness :
  print_next (dt_time (clock 738000 12 0 0)) sample_times
    (state_of sample_app)
  = (Ok tt, add_output [Print (MsgNext "Dhuhr" (JStr "12:15"))]
              (state_of sample_app)) /\
  fst (get_next_prayer (env_at (clock 738000 12 0 0)) (state_of sample_app))
  = Ok (Some "Dhuhr", Some (JStr "12:15"), Some (15 * US_PER_MINUTE)).
Proof.
  pose proof (run_announces_next_prayer
                (env_at (clock 738000 12 0 0)) (state_of sample_app)
                (clock 738000 12 0 0) eq_refl eq_refl eq_refl) as H.
  change (first_later (dt_time (clock 738000 12 0 0))
            (prayer_times (self (state_of sample_app))))
    with (Some ("Dhuhr", JStr "12:15")) in H.
  destruct H as [Hprint (t & Ht & Hrun)].
  split; [exact Hprint|]. rewrite Hrun. simpl.
  vm_compute in Ht. injection Ht as <-. reflexivity.
Defined.

(** With Isha after midnight the table is not in ascending order, and the
    two differ: at 00:10 [run] announces Fajr while [get_next_prayer]
    returns Isha. *)
Lemma run_announcement_differs_when_unordered :
  times_ascending late_isha_times = false /\
  first_later (dt_time (clock 738000 0 10 0)) late_isha_times
    = Some ("Fajr", JStr "02:10") /\
  fst (get_next_prayer (env_at (clock 738000 0 10 0))
         (state_of (app_of late_isha_times JNull None None ∅)))
    = Ok (Some "Isha", Some (JStr "00:20"), Some (10 * US_PER_MINUTE)).
Proof. repeat split; vm_compute; reflexivity. Qed.

(* ===================================================================== *)
(** * The query route *)
(* ===================================================================== *)

(** X18.  The route [/api/prayer-times].  Without a table it answers with
    no next prayer and a countdown of 0.  On a valid table it answers with
    the prayer, the time and the duration of [get_next_prayer], the
    countdown being the whole seconds of that duration, between 0 and
    86400; the table, the date label and the location are the object's. *)
Theorem api_countdown (env : Env) (s : State) :
  (prayer_times (self s) = [] ->
   fst (api_prayer_times env s)
   = Ok {| api_prayer_times_field := [];
           api_date := prayer_date (self s);
           api_location := location_name (self s);
           api_next_name := None; api_next_time := None;
           api_countdown_seconds := 0 |}) /\
  (valid_table (prayer_times (self s)) = true ->
   exists name time_str diff r,
     get_next_prayer env s = (Ok (Some name, Some time_str, Some diff), s) /\
     api_prayer_times env s = (Ok r, s) /\
     api_next_name r = Some name /\
     api_next_time r = Some time_str /\
     api_countdown_seconds r * US_PER_SECOND <= diff
       < (api_countdown_seconds r + 1) * US_PER_SECOND /\
     0 <= api_countdown_seconds r <= 86400 /\
     api_prayer_times_field r = prayer_times (self s) /\
     api_date r = prayer_date (self s) /\
     api_location r = location_name (self s)).
Proof.
  split.
  - intros Hempty. unfold api_prayer_times, bind at 1.
    rewrite (get_next_prayer_empty_table_eq env s Hempty).
    unfold bind, get_self, ret. simpl. rewrite Hempty. reflexivity.
  - intros Hvalid.
    destruct (get_next_prayer_valid env s Hvalid)
      as (now & name & time_str & diff & Hnow & Hrun & _).
    pose proof (returned_duration_positive env s now Hnow _ _ _ _ Hrun)
      as Hdiff.
    exists name, time_str, diff.
    eexists. split; [exact Hrun|].
    unfold api_prayer_times, bind at 1. rewrite Hrun.
    unfold bind, get_self, ret. cbn [fst snd].
    split; [reflexivity|]. cbn [api_next_name api_next_time
      api_countdown_seconds api_prayer_times_field api_date api_location].
    assert ((diff =? 0) = false) as -> by (apply Z.eqb_neq; lia).
    unfold int_total_seconds. rewrite Z.quot_div_nonneg by (try lia; reflexivity).
    assert (0 < US_PER_SECOND) as Hpos by reflexivity.
    pose proof (Z.mul_div_le diff US_PER_SECOND Hpos).
    pose proof (Z.mul_succ_div_gt diff US_PER_SECOND Hpos).
    assert (diff / US_PER_SECOND <= 86400).
    { apply Z.div_le_upper_bound; [exact Hpos|].
      change (US_PER_SECOND * 86400) with US_PER_DAY. lia. }
    assert (0 <= diff / US_PER_SECOND) by (apply Z.div_pos; lia).
    repeat split; try reflexivity; lia.
Qed.

(** The sample table at 12:00:00.5: Dhuhr, 899 whole seconds away. *)
Lemma api_countdown_witness :
  exists r,
    fst (api_prayer_times (env_at (clock 738000 12 0 0 + 500000))
           (state_of sample_app)) = Ok r /\
    api_next_name r = Some "Dhuhr" /\
    api_countdown_seconds r = 899.
Proof.
  destruct (api_countdown (env_at (clock 738000 12 0 0 + 500000))
              (state_of sample_app)) as [_ Hvalid].
  destruct (Hvalid eq_refl) as (name & time_str & diff & r & _ & Hr & _).
  exists r. rewrite Hr. split; [reflexivity|].
  vm_compute in Hr. injection Hr as <-. split; reflexivity.
Defined.

(* ===================================================================== *)
(** * The command line *)
(* ===================================================================== *)

Lemma in_class_digit (lo hi : Z) (c : ascii) :
  0 <= lo -> hi <= 9 -> in_class lo hi c = true -> is_digit c = true.
Proof.
  unfold is_digit, in_class. intros Hlo Hhi H.
  apply andb_prop in H as [H1 H2]. apply Z.leb_le in H1, H2.
  apply andb_true_intro. split; apply Z.leb_le; lia.
Qed.

Lemma digit_not_colon (c : ascii) :
  is_digit c = true -> Ascii.eqb c ":" = false.
Proof.
  intros H. destruct (Ascii.eqb c ":") eqn:E; [|reflexivity].
  apply Ascii.eqb_eq in E. subst c. discriminate H.
Qed.

(** What [%H] and [%M] consume: one or two digits. *)
Lemma match_H_shape (s : string) (h : Z) (r : string) :
  In (h, r) (match_H s) ->
  (exists a, s = String a r /\ is_digit a = true) \/
  (exists a b, s = String a (String b r) /\
               is_digit a = true /\ is_digit b = true).
Proof.
  destruct s as [|a [|b r']]; simpl.
  - intros [].
  - destruct (is_digit a) eqn:Ha; simpl; [|intros []].
    intros [[= _ <-]|[]]. left. eauto.
  - rewrite !in_app_iff. intros [[H|H]|H].
    + destruct (Ascii.eqb a "2" && in_class 0 3 b) eqn:E; [|destruct H].
      destruct H as [[= _ <-]|[]]. apply andb_prop in E as [Ea Eb].
      apply Ascii.eqb_eq in Ea. subst a. right. exists "2"%char, b.
      split; [reflexivity|]. split; [reflexivity|].
      apply (in_class_digit 0 3); [lia|lia|exact Eb].
    + destruct (in_class 0 1 a && is_digit b) eqn:E; [|destruct H].
      destruct H as [[= _ <-]|[]]. apply andb_prop in E as [Ea Eb].
      right. exists a, b. split; [reflexivity|]. split; [|exact Eb].
      apply (in_class_digit 0 1); [lia|lia|exact Ea].
    + destruct (is_digit a) eqn:E; [|destruct H].
      destruct H as [[= _ <-]|[]]. left. eauto.
Qed.

Lemma match_M_shape (s : string) (m : Z) (r : string) :
  In (m, r) (match_M s) ->
  (exists a, s = String a r /\ is_digit a = true) \/
  (exists a b, s = String a (String b r) /\
               is_digit a = true /\ is_digit b = true).
Proof.
  destruct s as [|a [|b r']]; simpl.
  - intros [].
  - destruct (is_digit a) eqn:Ha; simpl; [|intros []].
    intros [[= _ <-]|[]]. left. eauto.
  - rewrite in_app_iff. intros [H|H].
    + destruct (in_class 0 5 a && is_digit b) eqn:E; [|destruct H].
      destruct H as [[= _ <-]|[]]. apply andb_prop in E as [Ea Eb].
      right. exists a, b. split; [reflexivity|]. split; [|exact Eb].
      apply (in_class_digit 0 5); [lia|lia|exact Ea].
    + destruct (is_digit a) eqn:E; [|destruct H].
      destruct H as [[= _ <-]|[]]. left. eauto.
Qed.

Lemma match_colon_shape (s r : string) :
  In r (match_colon s) -> s = String ":" r.
Proof.
  destruct s as [|c s']; simpl; [intros []|].
  destruct (Ascii.eqb c ":") eqn:E; [|intros []].
  apply Ascii.eqb_eq in E. subst c. intros [<-|[]]. reflexivity.
Qed.

(** A string that parses with "%H:%M" splits at [:] into two parts. *)
Lemma strptime_HM_splits (arg : string) (t : time) :
  strptime_HM arg = Ok t ->
  exists mock_hour mock_minute, split_on ":" arg = [mock_hour; mock_minute].
Proof.
  unfold strptime_HM.
  destruct (re_match_HM arg) as [[[h m] rest]|] eqn:E; [|discriminate].
  destruct rest; [|discriminate]. intros _.
  unfold re_match_HM in E.
  apply head_Some_elem_of, list_elem_of_In in E.
  apply in_flat_map in E as [[h' r1] [HH E]].
  apply in_flat_map in E as [r2 [HC E]].
  apply in_map_iff in E as [[m' r3] [[= -> -> ->] HM]].
  apply match_colon_shape in HC. subst r1.
  apply match_H_shape in HH. apply match_M_shape in HM.
  destruct HH as [(a & -> & Ha)|(a & b & -> & Ha & Hb)];
    destruct HM as [(c & -> & Hc)|(c & d & -> & Hc & Hd)];
    simpl;
    repeat match goal with
           | H : is_digit ?x = true |- _ =>
               rewrite (digit_not_colon x H); clear H
           end;
    eauto.
Qed.

Lemma strptime_HM_raises (arg : string) (e : exn) :
  strptime_HM arg = Raise e -> e = ValueError.
Proof.
  unfold strptime_HM.
  destruct (re_match_HM arg) as [[[h m] [|c rest]]|]; try discriminate;
    intros [= <-]; reflexivity.
Qed.

Lemma bind_ok {A B} (m : M A) (k : A -> M B) (s s' : State) (a : A) :
  m s = (Ok a, s') -> bind m k s = k a s'.
Proof. intros H. unfold bind. rewrite H. reflexivity. Qed.

Lemma bind_raise {A B} (m : M A) (k : A -> M B) (s s' : State) (e : exn) :
  m s = (Raise e, s') -> bind m k s = (Raise e, s').
Proof. intros H. unfold bind. rewrite H. reflexivity. Qed.

(** What [__init__] makes of the anchor pair, with or without the audio
    file. *)
Lemma init_anchor env mock s :
  mock_time (self (snd (init env mock s))) = mock /\
  mock_start_time (self (snd (init env mock s)))
  = match mock with Some _ => Some (datetime_now env) | None => None end.
Proof.
  unfold init, bind, modify_self. simpl.
  destruct (audio_exists env), mock; simpl; split; reflexivity.
Qed.

Lemma init_ok env mock s :
  audio_exists env = true -> fst (init env mock s) = Ok tt.
Proof.
  intros Haudio. unfold init, bind, modify_self. simpl. rewrite Haudio.
  destruct mock; reflexivity.
Qed.

(** X19.  [--mock-time].  An argument that is given and not empty is
    accepted exactly when it parses with "%H:%M" (the split at [:] refuses
    nothing that parses): the mock time is then that time of day on today's
    date, whatever [--test-in] says, and otherwise the process prints the
    format error and ends with [sys.exit(1)].  When the argument is absent
    or empty the branch is skipped: with no [--test-in] either, or with
    [--test-in 0], nothing is printed, no mock time is chosen, and the
    object [main] builds and runs is on the real clock. *)
Theorem main_mock_time_accepts
    (args : Args) (env : Env) (now_today now_check : datetime) (s : State) :
  (forall arg,
     args_mock_time args = Some arg -> arg <> EmptyString ->
     (forall t, strptime_HM arg = Ok t ->
        main_clock args env now_today now_check s
        = (Ok (Some (combine (dt_date now_today) t)),
           add_output [Print (MsgMockTimeSet arg)] s)) /\
     (forall e, strptime_HM arg = Raise e ->
        main_clock args env now_today now_check s
        = (Raise (SystemExit 1),
           add_output [Print MsgInvalidTimeFormat] s)) /\
     (forall r s', main_clock args env now_today now_check s = (Ok r, s') ->
        exists d h m,
          r = Some d /\ dt_date d = dt_date now_today /\
          0 <= h < 24 /\ 0 <= m < 60 /\ dt_time d = mk_time h m)) /\
  ((args_mock_time args = None \/ args_mock_time args = Some EmptyString) ->
   (args_test_in args = None \/ args_test_in args = Some 0) ->
   main_clock args env now_today now_check s = (Ok None, s) /\
   forall env_app env0 envs,
     mock_time (self (snd (main args env now_today now_check
                             env_app env0 envs s))) = None /\
     mock_start_time (self (snd (main args env now_today now_check
                                   env_app env0 envs s))) = None).
Proof.
  split.
  - intros arg Harg Hne.
    assert (given_str (args_mock_time args) = Some arg) as Hgiven.
    { rewrite Harg. destruct arg; [congruence|reflexivity]. }
    assert (forall t, strptime_HM arg = Ok t ->
              main_clock args env now_today now_check s
              = (Ok (Some (combine (dt_date now_today) t)),
                 add_output [Print (MsgMockTimeSet arg)] s)) as Hok.
    { intros t Ht. destruct (strptime_HM_splits arg t Ht) as (a & b & Hsplit).
      unfold main_clock. rewrite Hgiven, Hsplit, Ht. reflexivity. }
    assert (forall e, strptime_HM arg = Raise e ->
              main_clock args env now_today now_check s
              = (Raise (SystemExit 1),
                 add_output [Print MsgInvalidTimeFormat] s)) as Hraise.
    { intros e He. pose proof (strptime_HM_raises arg e He) as ->.
      unfold main_clock. rewrite Hgiven, He.
      destruct (split_on ":" arg) as [|a [|b [|c l]]]; reflexivity. }
    split; [exact Hok|]. split; [exact Hraise|].
    intros r s' Hrun.
    destruct (strptime_HM arg) as [t|e] eqn:Et.
    + rewrite (Hok t eq_refl) in Hrun. injection Hrun as <- _.
      destruct (strptime_HM_inv arg t Et) as (h & m & Hh & Hm & ->).
      pose proof (mk_time_range h m Hh Hm) as Hrange.
      exists (combine (dt_date now_today) (mk_time h m)), h, m.
      split; [reflexivity|]. split; [apply dt_date_combine, Hrange|].
      split; [exact Hh|]. split; [exact Hm|].
      apply dt_time_combine, Hrange.
    + rewrite (Hraise e eq_refl) in Hrun. discriminate Hrun.
  - intros Hmock Htest.
    assert (main_clock args env now_today now_check s = (Ok None, s))
      as Hclock.
    { unfold main_clock.
      destruct Hmock as [-> | ->], Htest as [-> | ->]; reflexivity. }
    split; [exact Hclock|]. intros env_app env0 envs.
    unfold main. rewrite (bind_ok _ _ _ _ _ Hclock).
    destruct (init_anchor env_app None s) as [Hm Hs].
    unfold bind.
    destruct (init env_app None s) as [[[]|e] s1]; simpl in Hm, Hs;
      [|split; assumption].
    destruct (run_same_anchor env0 envs s1) as [Hm' Hs'].
    rewrite Hm', Hs'. split; assumption.
Qed.

(** "14:30" is accepted, "14.30" ends the process, and without arguments
    the clock is the real one. *)
Lemma main_mock_time_accepts_witness :
  let args arg := {| args_mock_time := arg; args_test_in := Some 10 |} in
  let now := clock 738000 9 0 0 in
  let s := state_of sample_app in
  fst (main_clock (args (Some "14:30")) (env_at now) now now s)
    = Ok (Some (clock 738000 14 30 0)) /\
  fst (main_clock (args (Some "14.30")) (env_at now) now now s)
    = Raise (SystemExit 1) /\
  main_clock {| args_mock_time := Some EmptyString; args_test_in := Some 0 |}
    (env_at now) now now s = (Ok None, s).
Proof.
  intros args now s.
  destruct (main_mock_time_accepts (args (Some "14:30")) (env_at now)
              now now s) as [Hgiven _].
  destruct (Hgiven "14:30" eq_refl ltac:(discriminate)) as (Hok & _).
  destruct (main_mock_time_accepts (args (Some "14.30")) (env_at now)
              now now s) as [Hgiven' _].
  destruct (Hgiven' "14.30" eq_refl ltac:(discriminate)) as (_ & Hraise & _).
  destruct (main_mock_time_accepts
              {| args_mock_time := Some EmptyString; args_test_in := Some 0 |}
              (env_at now) now now s) as [_ Hskip].
  destruct (Hskip ltac:(right; reflexivity) ltac:(right; reflexivity))
    as [Hnone _].
  split; [rewrite (Hok (mk_time 14 30) eq_refl); reflexivity|].
  split; [rewrite (Hraise ValueError eq_refl); reflexivity|exact Hnone].
Defined.

(** After a fetch that returned [True] the table holds the five names. *)
Lemma fetch_true_names env s :
  fst (fetch_prayer_times env s) = Ok true ->
  map fst (prayer_times (self (snd (fetch_prayer_times env s))))
  = PRAYER_NAMES.
Proof.
  rewrite fetch_prayer_times_unfold. unfold fetch_caught.
  destruct (requests_get env) as [response|e];
    [|destruct (is_Exception e); discriminate].
  destruct (status_code response =? 200); [|discriminate].
  destruct (response_json response) as [data|e];
    [|destruct (is_Exception e); discriminate].
  destruct (read_table data) as [table|e] eqn:Etable;
    [|destruct (is_Exception e); discriminate].
  destruct (read_readable data) as [readable|e];
    [|destruct (is_Exception e); discriminate].
  intros _. simpl. apply (read_table_names data table Etable).
Qed.

Lemma prayer_name_truthy (name : string) :
  name ∈ PRAYER_NAMES -> str_truthy name = true.
Proof.
  unfold PRAYER_NAMES. intros H.
  repeat (apply elem_of_cons in H as [->|H]; [reflexivity|]).
  inversion H.
Qed.

Lemma parsed_truthy (v : json) (t : time) :
  strptime v = Ok t -> json_truthy v = true.
Proof.
  intros H. apply strptime_inv in H as (str & -> & H).
  destruct str; [discriminate H|reflexivity].
Qed.

Lemma dt_date_next_day (day : date) (t : time) :
  0 <= t < US_PER_DAY ->
  dt_date (combine day t + timedelta_days 1) = day + 1.
Proof.
  intros Ht.
  replace (combine day t + timedelta_days 1) with (combine (day + 1) t)
    by (unfold combine, timedelta_days; lia).
  apply dt_date_combine, Ht.
Qed.

(** X20.  [--test-in], when [--mock-time] is absent or empty and the number
    of seconds is not zero (with zero the branch is skipped, as X19 has
    it).  The audio file being there, the fetch of the temporary object
    having returned [True] and the five times parsing, [get_next_prayer]
    names a prayer and its time; the target is the next occurrence of that
    time of day, today or tomorrow, later than now and at most a day away
    when no midnight falls between the two readings of the clock.  The mock
    time is the target less [test_in] seconds, so that the object built
    with it reads the target [test_in] seconds of real time after its
    construction; when [test_in] is beyond what a [timedelta] holds, or the
    mock time would leave the years 1..9999, the process ends with
    [OverflowError] instead. *)
Theorem main_test_in_target
    (args : Args) (env : Env) (now_today now_check : datetime) (s : State)
    (test_in : Z) :
  (args_mock_time args = None \/ args_mock_time args = Some EmptyString) ->
  args_test_in args = Some test_in ->
  test_in <> 0 ->
  audio_exists env = true ->
  MIN_ORDINAL <= dt_date now_today < MAX_ORDINAL ->
  let s1 := snd (init env None
                   (add_output [Print (MsgTestMode test_in)] s)) in
  let s2 := snd (fetch_prayer_times env s1) in
  fst (fetch_prayer_times env s1) = Ok true ->
  forallb (fun kv => parses (snd kv)) (prayer_times (self s2)) = true ->
  exists prayer time_str diff t,
    get_next_prayer env s2
      = (Ok (Some prayer, Some time_str, Some diff), s2) /\
    strptime time_str = Ok t /\
    let today_at := combine (dt_date now_today) t in
    let target :=
      if today_at <=? now_check then today_at + US_PER_DAY else today_at in
    let mock := target - test_in * US_PER_SECOND in
    dt_time target = t /\
    (dt_date now_check = dt_date now_today ->
     now_check < target <= now_check + US_PER_DAY) /\
    fst (main_clock args env now_today now_check s)
      = (if (- MAX_DELTA_DAYS <=? test_in / 86400)
            && (test_in / 86400 <=? MAX_DELTA_DAYS)
            && (MIN_ORDINAL <=? dt_date mock)
            && (dt_date mock <=? MAX_ORDINAL)
         then Ok (Some mock)
         else Raise OverflowError) /\
    forall env_app env1 s',
      datetime_now env1 = datetime_now env_app + test_in * US_PER_SECOND ->
      fst (get_current_time env1 (snd (init env_app (Some mock) s')))
      = Ok target.
Proof.
  intros Hmock Htest Hne Haudio Htoday s1 s2 Hfetch Hparse.
  pose proof (fetch_true_names env s1 Hfetch) as Hnames. fold s2 in Hnames.
  assert (valid_table (prayer_times (self s2)) = true) as Hvalid.
  { unfold valid_table. rewrite Hparse, andb_true_r.
    apply bool_decide_eq_true, Hnames. }
  destruct (get_next_prayer_valid env s2 Hvalid)
    as (now & name & time_str & diff & _ & Hrun & Hcases).
  assert (exists t, strptime time_str = Ok t /\ str_truthy name = true)
    as (t & Ht & Hname).
  { destruct Hcases as [(v & t & Hin & Hv & _ & _ & -> & _)
                       |(_ & -> & t & _ & Ht & _)].
    - exists t. split; [apply (strptime_strftime_time v t Hv)|].
      apply prayer_name_truthy. rewrite <- Hnames.
      apply list_elem_of_fmap. exists (name, v). split; [reflexivity|exact Hin].
    - exists t. split; [exact Ht|reflexivity]. }
  pose proof (parsed_truthy time_str t Ht) as Htime.
  pose proof (strptime_range time_str t Ht) as Hrange.
  exists name, time_str, diff, t.
  split; [exact Hrun|]. split; [exact Ht|].
  intros today_at target mock.
  assert (dt_time target = t /\
          dt_date target <= MAX_ORDINAL /\
          (if today_at <=? now_check
           then datetime_add today_at (timedelta_days 1)
           else Ok today_at) = Ok target) as (Htime_of & Hmax & Htarget).
  { subst target today_at.
    destruct (combine (dt_date now_today) t <=? now_check) eqn:E.
    - pose proof (dt_date_next_day (dt_date now_today) t Hrange) as Hnext.
      unfold timedelta_days in Hnext. rewrite Z.mul_1_l in Hnext.
      split.
      { replace (combine (dt_date now_today) t + US_PER_DAY)
          with (combine (dt_date now_today + 1) t) by (unfold combine; lia).
        apply dt_time_combine, Hrange. }
      split; [rewrite Hnext; lia|].
      unfold datetime_add, timedelta_days. rewrite Z.mul_1_l, Hnext.
      destruct (MIN_ORDINAL <=? dt_date now_today + 1) eqn:E1;
        [|apply Z.leb_gt in E1; lia].
      destruct (dt_date now_today + 1 <=? MAX_ORDINAL) eqn:E2;
        [reflexivity|apply Z.leb_gt in E2; lia].
    - split; [apply dt_time_combine, Hrange|].
      split; [rewrite dt_date_combine by exact Hrange; lia|reflexivity]. }
  split; [exact Htime_of|].
  split.
  { intros Hday. pose proof (dt_time_range now_check) as Hcheck.
    pose proof (dt_split now_check) as Hsplit. rewrite Hday in Hsplit.
    subst target today_at.
    destruct (combine (dt_date now_today) t <=? now_check) eqn:E;
      [apply Z.leb_le in E|apply Z.leb_gt in E]; unfold combine in *; lia. }
  split.
  - assert (given_str (args_mock_time args) = None) as Hgiven
      by (destruct Hmock as [-> | ->]; reflexivity).
    assert (given_int (args_test_in args) = Some test_in) as Hint.
    { rewrite Htest. unfold given_int.
      destruct (test_in =? 0) eqn:E; [apply Z.eqb_eq in E; lia|reflexivity]. }
    assert (init env None (add_output [Print (MsgTestMode test_in)] s)
            = (Ok tt, s1)) as Hinit.
    { subst s1. pose proof (init_ok env None
        (add_output [Print (MsgTestMode test_in)] s) Haudio) as Hok.
      destruct (init env None _) as [r s']. simpl in Hok. subst r.
      reflexivity. }
    assert (fetch_prayer_times env s1 = (Ok true, s2)) as Hfetched.
    { subst s2. destruct (fetch_prayer_times env s1) as [r s'].
      simpl in Hfetch. subst r. reflexivity. }
    unfold main_clock. rewrite Hgiven, Hint.
    rewrite (bind_ok (print _) _ s
               (add_output [Print (MsgTestMode test_in)] s) tt eq_refl).
    rewrite (bind_ok _ _ _ _ _ Hinit).
    rewrite (bind_ok _ _ _ _ _ Hfetched). cbv beta iota.
    rewrite (bind_ok _ _ _ _ _ Hrun). cbv beta iota.
    rewrite Hname, Htime. cbn [andb]. rewrite Ht.
    rewrite (bind_ok (lift (Ok t)) _ s2 s2 t eq_refl).
    fold today_at.
    assert ((if today_at <=? now_check
             then lift (datetime_add today_at (timedelta_days 1))
             else ret today_at) s2 = (Ok target, s2)) as Hstep.
    { destruct (today_at <=? now_check); unfold lift, ret;
        [rewrite Htarget; reflexivity|f_equal; exact Htarget]. }
    rewrite (bind_ok _ _ _ _ _ Hstep).
    unfold timedelta_seconds.
    destruct ((- MAX_DELTA_DAYS <=? test_in / 86400)
              && (test_in / 86400 <=? MAX_DELTA_DAYS)) eqn:Edelta;
      [|reflexivity].
    rewrite (bind_ok (lift (Ok (test_in * US_PER_SECOND))) _ s2 s2 _ eq_refl).
    unfold datetime_sub, datetime_add.
    replace (target + - (test_in * US_PER_SECOND)) with mock
      by (subst mock; lia).
    cbn [andb].
    destruct ((MIN_ORDINAL <=? dt_date mock)
              && (dt_date mock <=? MAX_ORDINAL)); reflexivity.
  - intros env_app env1 s' Hnow.
    unfold init, bind, modify_self, get_current_time, get_self, ret.
    simpl. destruct (audio_exists env_app); simpl; rewrite Hnow; f_equal; lia.
Qed.

(** At 12:00:00 with the sample table, Dhuhr "12:15" in 10 seconds: the
    mock time is 12:14:50.  In a thousand million days: [OverflowError]. *)
Lemma main_test_in_target_witness :
  let now := clock 738000 12 0 0 in
  let run_with test_in :=
    fst (main_clock {| args_mock_time := None; args_test_in := Some test_in |}
           (env_with now (ok_response sample_payload)) now now
           (state_of sample_app)) in
  run_with 10 = Ok (Some (clock 738000 12 14 50)) /\
  run_with (86400 * 1000000000) = Raise OverflowError.
Proof.
  intros now run_with.
  assert (forall test_in,
            test_in <> 0 ->
            run_with test_in
            = (if (- MAX_DELTA_DAYS <=? test_in / 86400)
                  && (test_in / 86400 <=? MAX_DELTA_DAYS)
                  && (MIN_ORDINAL
                      <=? dt_date (clock 738000 12 15 0
                                   - test_in * US_PER_SECOND))
                  && (dt_date (clock 738000 12 15 0
                               - test_in * US_PER_SECOND) <=? MAX_ORDINAL)
               then Ok (Some (clock 738000 12 15 0
                              - test_in * US_PER_SECOND))
               else Raise OverflowError)) as Hclock.
  { intros test_in Hne.
    destruct (main_test_in_target
                {| args_mock_time := None; args_test_in := Some test_in |}
                (env_with now (ok_response sample_payload)) now now
                (state_of sample_app) test_in)
      as (prayer & time_str & diff & t & Hrun & Ht & _ & _ & Hclock & _).
    - left. reflexivity.
    - reflexivity.
    - exact Hne.
    - reflexivity.
    - vm_compute. split; [discriminate|reflexivity].
    - vm_compute. reflexivity.
    - vm_compute. reflexivity.
    - vm_compute in Hrun. injection Hrun as <- <- <-.
      vm_compute in Ht. injection Ht as <-.
      exact Hclock. }
  split; rewrite Hclock by discriminate; vm_compute; reflexivity.
Defined.

(* ===================================================================== *)
(** * What the tick and a failed refresh leave in place *)
(* ===================================================================== *)

(** X21.  Over any number of ticks, nothing of the object is written but
    [played_prayers]: the table, the date label, the anchor pair of the
    clock and the audio file are the same, and so are the jobs of the
    scheduler. *)
Theorem ticks_write_played_prayers_only (envs : list Env) (s : State) :
  jobs (snd (mock_ticks envs s)) = jobs s /\
  self (snd (mock_ticks envs s))
  = set_played_prayers (played_prayers (self (snd (mock_ticks envs s))))
      (self s).
Proof.
  apply (steps_for_each only_played envs check_prayer_times_mock).
  intros env. apply check_prayer_times_mock_only_played.
Qed.

Lemma fails_before_table_false env s :
  fails_before_table env ->
  fst (fetch_prayer_times env s) = Ok false /\
  self (snd (fetch_prayer_times env s)) = self s /\
  jobs (snd (fetch_prayer_times env s)) = jobs s.
Proof.
  unfold fails_before_table. intros Hfail.
  rewrite fetch_prayer_times_unfold. unfold fetch_caught.
  destruct (requests_get env) as [response|e].
  2:{ rewrite Hfail. repeat split; reflexivity. }
  destruct (status_code response =? 200) eqn:Estatus;
    [|repeat split; reflexivity].
  apply Z.eqb_eq in Estatus. destruct Hfail as [Hne|Hfail]; [contradiction|].
  destruct (response_json response) as [data|e].
  2:{ rewrite Hfail. repeat split; reflexivity. }
  destruct Hfail as [e He]. rewrite He.
  rewrite (read_table_raises_Exception data e He).
  repeat split; reflexivity.
Qed.

(** X22.  A refresh whose fetch fails before a table is read (the supplier
    unreachable, a status other than 200, a body that is not JSON, or
    timings without the five names) returns normally and leaves the object
    and the scheduler exactly as they were: the table, its date label,
    [played_prayers] and the jobs of the day before stay in force. *)
Theorem failed_refresh_keeps_schedule (env : Env) (s : State) :
  fails_before_table env ->
  fst (fetch_and_reschedule env s) = Ok tt /\
  self (snd (fetch_and_reschedule env s)) = self s /\
  jobs (snd (fetch_and_reschedule env s)) = jobs s /\
  last (output (snd (fetch_and_reschedule env s)))
  = Some (Print MsgFailedToUpdate).
Proof.
  intros Hfail. rewrite fetch_and_reschedule_unfold.
  destruct (fails_before_table_false env
              (add_output [Print MsgFetchingNew] s) Hfail)
    as (Hfalse & Hself & Hjobs).
  destruct (fetch_prayer_times env _) as [r s1].
  simpl in Hfalse, Hself, Hjobs. subst r. simpl.
  split; [reflexivity|]. split; [exact Hself|]. split; [exact Hjobs|].
  apply last_snoc_event.
Qed.

(** The supplier answers 503: yesterday's table stays. *)
Lemma failed_refresh_keeps_schedule_witness :
  prayer_times (self (snd (fetch_and_reschedule
    (env_with (clock 738001 0 1 0)
       (Ok {| status_code := 503; response_json := Raise ValueError |}))
    (state_of (app_of old_times (JStr "03 Nov 2026") None None ∅)))))
  = old_times.
Proof.
  destruct (failed_refresh_keeps_schedule
              (env_with (clock 738001 0 1 0)
                 (Ok {| status_code := 503;
                        response_json := Raise ValueError |}))
              (state_of (app_of old_times (JStr "03 Nov 2026")
                           None None ∅)))
    as (_ & Hself & _).
  - left. discriminate.
  - rewrite Hself. reflexivity.
Defined.

(* ===================================================================== *)
(** * The daily refresh in real clock mode *)
(* ===================================================================== *)

(** The next run of a daily job is the first instant with its time of day
    after the instant at which it is computed. *)
Lemma next_run_first (t : time) (now : datetime) :
  0 <= t < US_PER_DAY ->
  now < next_run t now <= now + US_PER_DAY /\
  dt_time (next_run t now) = t.
Proof.
  intros Ht. pose proof (dt_time_range now) as Hnow.
  pose proof (dt_split now) as Hsplit. unfold next_run.
  destruct (dt_time now <? t) eqn:E;
    [apply Z.ltb_lt in E|apply Z.ltb_ge in E];
    (split; [unfold combine in *; lia|apply dt_time_combine, Ht]).
Qed.

Lemma REFRESH_TIME_range : 0 <= REFRESH_TIME < US_PER_DAY.
Proof. vm_compute. split; [discriminate|reflexivity]. Qed.

Lemma next_run_refresh_day (last : datetime) :
  next_run REFRESH_TIME last = combine (refresh_day last + 1) REFRESH_TIME.
Proof.
  pose proof REFRESH_TIME_range as Hrt.
  pose proof (dt_time_range last) as Hlast.
  pose proof (dt_split last) as Hsplit.
  unfold next_run, refresh_day.
  destruct (dt_time last <? REFRESH_TIME) eqn:E;
    [apply Z.ltb_lt in E|apply Z.ltb_ge in E]; f_equal.
  - assert (dt_date (last - REFRESH_TIME) = dt_date last - 1) as ->; [|lia].
    replace (last - REFRESH_TIME)
      with (combine (dt_date last - 1)
              (US_PER_DAY + dt_time last - REFRESH_TIME))
      by (unfold combine in *; lia).
    apply dt_date_combine. lia.
  - assert (dt_date (last - REFRESH_TIME) = dt_date last) as ->; [|lia].
    replace (last - REFRESH_TIME)
      with (combine (dt_date last) (dt_time last - REFRESH_TIME))
      by (unfold combine in *; lia).
    apply dt_date_combine. lia.
Qed.

Lemma refresh_day_bounds (t : datetime) :
  combine (refresh_day t) REFRESH_TIME <= t
  < combine (refresh_day t + 1) REFRESH_TIME.
Proof.
  pose proof (dt_split (t - REFRESH_TIME)) as Hsplit.
  pose proof (dt_time_range (t - REFRESH_TIME)) as Hrange.
  unfold refresh_day, combine in *. lia.
Qed.

Lemma refresh_day_mono (t t' : datetime) :
  t <= t' -> refresh_day t <= refresh_day t'.
Proof.
  intros Hle. pose proof (refresh_day_bounds t) as H.
  pose proof (refresh_day_bounds t') as H'.
  pose proof US_PER_DAY_eq as Hday. unfold combine in *.
  destruct (Z.le_gt_cases (refresh_day t) (refresh_day t')) as [?|Hgt];
    [assumption|].
  assert (refresh_day t' + 1 <= refresh_day t) as Hstep by lia.
  assert ((refresh_day t' + 1) * US_PER_DAY <= refresh_day t * US_PER_DAY)
    by (apply Z.mul_le_mono_nonneg_r; lia).
  lia.
Qed.

Lemma refresh_day_next (t t' : datetime) :
  t' < t + US_PER_DAY -> refresh_day t' <= refresh_day t + 1.
Proof.
  intros Hlt. pose proof (refresh_day_bounds t) as H.
  pose proof (refresh_day_bounds t') as H'.
  pose proof US_PER_DAY_eq as Hday. unfold combine in *.
  destruct (Z.le_gt_cases (refresh_day t') (refresh_day t + 1)) as [?|Hgt];
    [assumption|].
  assert (refresh_day t + 2 <= refresh_day t') as Hstep by lia.
  assert ((refresh_day t + 2) * US_PER_DAY <= refresh_day t' * US_PER_DAY)
    by (apply Z.mul_le_mono_nonneg_r; lia).
  lia.
Qed.

(** The refresh job is due when a 00:01:00 has passed since it was
    registered or last run. *)
Lemma refresh_is_due_days (last now : datetime) :
  refresh_is_due last now = true <-> refresh_day last < refresh_day now.
Proof.
  unfold refresh_is_due, should_run. rewrite next_run_refresh_day.
  rewrite Z.leb_le.
  pose proof (refresh_day_bounds now) as Hnow.
  pose proof US_PER_DAY_eq as Hday. unfold combine in *.
  split; intros H.
  - destruct (Z.lt_ge_cases (refresh_day last) (refresh_day now)) as [?|Hge];
      [assumption|].
    assert ((refresh_day now + 1) * US_PER_DAY
            <= (refresh_day last + 1) * US_PER_DAY)
      by (apply Z.mul_le_mono_nonneg_r; lia).
    lia.
  - assert ((refresh_day last + 1) * US_PER_DAY
            <= refresh_day now * US_PER_DAY)
      by (apply Z.mul_le_mono_nonneg_r; lia).
    lia.
Qed.

Lemma refresh_is_due_passed (last now : datetime) :
  refresh_is_due last now = true <->
  exists day, last < combine day REFRESH_TIME <= now.
Proof.
  rewrite refresh_is_due_days.
  pose proof (refresh_day_bounds last) as Hlast.
  pose proof (refresh_day_bounds now) as Hnow.
  pose proof US_PER_DAY_eq as Hday.
  split.
  - intros Hlt. exists (refresh_day now). split; [|lia].
    assert ((refresh_day last + 1) * US_PER_DAY
            <= refresh_day now * US_PER_DAY)
      by (apply Z.mul_le_mono_nonneg_r; lia).
    unfold combine in *. lia.
  - intros (day & Hafter & Hbefore). unfold combine in *.
    assert (refresh_day last < day) as H1.
    { destruct (Z.lt_ge_cases (refresh_day last) day) as [?|Hge];
        [assumption|].
      assert (day * US_PER_DAY <= refresh_day last * US_PER_DAY)
        by (apply Z.mul_le_mono_nonneg_r; lia).
      lia. }
    assert (day <= refresh_day now) as H2.
    { destruct (Z.le_gt_cases day (refresh_day now)) as [?|Hgt];
        [assumption|].
      assert ((refresh_day now + 1) * US_PER_DAY <= day * US_PER_DAY)
        by (apply Z.mul_le_mono_nonneg_r; lia).
      lia. }
    lia.
Qed.

#[local] Instance same_refresh_count_preorder : PreOrder same_refresh_count.
Proof.
  split; [intros s; reflexivity|].
  intros s1 s2 s3 H1 H2. unfold same_refresh_count in *. congruence.
Qed.

Lemma refresh_count_app (out new : list event) :
  refresh_count (out ++ new) = (refresh_count out + refresh_count new)%nat.
Proof. unfold refresh_count. rewrite List.filter_app. apply length_app. Qed.

Ltac same_refresh_count_leaf :=
  intros ?; unfold same_refresh_count; simpl;
  first [ reflexivity
        | rewrite refresh_count_app; simpl; apply Nat.add_0_r ].

Section RefreshCount.

Variable env : Env.

Lemma fetch_prayer_times_same_refresh_count :
  steps same_refresh_count (fetch_prayer_times env).
Proof.
  unfold fetch_prayer_times. steps_auto fail same_refresh_count_leaf.
Qed.

Lemma play_azaan_same_refresh_count prayer :
  steps same_refresh_count (play_azaan env prayer).
Proof. unfold play_azaan. steps_auto fail same_refresh_count_leaf. Qed.

Lemma schedule_prayers_same_refresh_count :
  steps same_refresh_count (schedule_prayers env).
Proof.
  unfold schedule_prayers, register_jobs, schedule_every_day_at_do,
    schedule_clear.
  steps_auto ltac:(apply fetch_prayer_times_same_refresh_count)
             same_refresh_count_leaf.
Qed.

Lemma print_next_same_refresh_count now items :
  steps same_refresh_count (print_next now items).
Proof.
  induction items as [|[prayer time_str] items IH]; simpl;
    steps_auto ltac:(exact IH) same_refresh_count_leaf.
Qed.

Lemma get_current_time_same_refresh_count :
  steps same_refresh_count (get_current_time env).
Proof.
  unfold get_current_time. steps_auto fail same_refresh_count_leaf.
Qed.

(** Each call of [fetch_and_reschedule] shows once in the output. *)
Lemma fetch_and_reschedule_counted s :
  refresh_count (output (snd (fetch_and_reschedule env s)))
  = S (refresh_count (output s)).
Proof.
  assert (steps same_refresh_count
            (fetched <- fetch_prayer_times env ;;
             if fetched then (_ <- schedule_prayers env ;; print MsgUpdated)
             else print MsgFailedToUpdate)) as Hrest.
  { steps_auto ltac:(first [ apply fetch_prayer_times_same_refresh_count
                           | apply schedule_prayers_same_refresh_count ])
               same_refresh_count_leaf. }
  unfold fetch_and_reschedule.
  rewrite (bind_ok (print MsgFetchingNew) _ s
             (add_output [Print MsgFetchingNew] s) tt eq_refl).
  rewrite (Hrest (add_output [Print MsgFetchingNew] s)).
  simpl. rewrite refresh_count_app. simpl. apply Nat.add_1_r.
Qed.

End RefreshCount.

Lemma refresh_due_registered (table : dict) :
  refresh_due (map prayer_job table ++ [refresh_job]) = [refresh_job].
Proof. induction table as [|kv table IH]; [reflexivity|exact IH]. Qed.

Lemma refresh_due_idem (js : list Job) :
  refresh_due (refresh_due js) = refresh_due js.
Proof.
  unfold refresh_due. induction js as [|j js IH]; [reflexivity|].
  simpl. destruct (job_do j) eqn:E; [exact IH|].
  simpl. rewrite E, IH. reflexivity.
Qed.

Section Undisturbed.

Variable env : Env.
Hypothesis Hcalm : undisturbed env.

Lemma fetch_prayer_times_returns s :
  exists b, fst (fetch_prayer_times env s) = Ok b.
Proof.
  destruct Hcalm as (_ & _ & Hget & Hjson).
  rewrite fetch_prayer_times_unfold. unfold fetch_caught.
  destruct (requests_get env) as [response|e] eqn:Eget.
  2:{ rewrite (Hget e eq_refl). eauto. }
  destruct (status_code response =? 200); [|eauto].
  destruct (response_json response) as [data|e] eqn:Ejson.
  2:{ rewrite (Hjson response e eq_refl Ejson). eauto. }
  destruct (read_table data) as [table|e] eqn:Etable.
  2:{ rewrite (read_table_raises_Exception data e Etable). eauto. }
  destruct (read_readable data) as [readable|e] eqn:Edate.
  2:{ rewrite (read_readable_raises_Exception data e Edate). eauto. }
  eauto.
Qed.

Lemma play_azaan_returns prayer s :
  fst (play_azaan env prayer s) = Ok tt /\
  jobs (snd (play_azaan env prayer s)) = jobs s.
Proof.
  destruct Hcalm as (_ & Hplay & _).
  rewrite play_azaan_effect. simpl. split; [|reflexivity].
  unfold playback_result.
  destruct (subprocess_run env prayer) as [[]|e] eqn:E; [reflexivity|].
  rewrite (Hplay prayer e E). reflexivity.
Qed.

(** A refresh returns normally and leaves one refresh job registered: the
    old one after a failed fetch, a new one, the old jobs cleared, after a
    successful one. *)
Lemma fetch_and_reschedule_keeps_job s :
  refresh_due (jobs s) = [refresh_job] ->
  fst (fetch_and_reschedule env s) = Ok tt /\
  refresh_due (jobs (snd (fetch_and_reschedule env s))) = [refresh_job].
Proof.
  intros Hjob. pose proof Hcalm as (Haccept & _).
  rewrite fetch_and_reschedule_unfold.
  set (sp := add_output [Print MsgFetchingNew] s).
  destruct (fetch_prayer_times_returns sp) as [b Hb].
  pose proof (fetch_true_table env sp) as Htable.
  destruct (fetch_prayer_times_frame env sp sp eq_refl) as (_ & _ & Hjobs).
  destruct (fetch_prayer_times env sp) as [r s1].
  simpl in Hb, Htable, Hjobs. subst r. destruct b.
  - destruct (schedule_prayers_registers env Haccept s1 (Htable eq_refl))
      as [Hok Hreg].
    destruct (schedule_prayers env s1) as [[b|e] s2]; [|discriminate Hok].
    simpl in Hreg. simpl. split; [reflexivity|].
    rewrite Hreg. apply refresh_due_registered.
  - simpl. split; [reflexivity|]. rewrite Hjobs. exact Hjob.
Qed.

(** The jobs the scheduler runs in one call of [run_pending]: each refresh
    job among them enters the refresh once, the others not at all. *)
Lemma run_jobs_effect (due : list Job) (s : State) :
  refresh_due (jobs s) = [refresh_job] ->
  fst (for_each due (run_job env) s) = Ok tt /\
  refresh_due (jobs (snd (for_each due (run_job env) s))) = [refresh_job] /\
  refresh_count (output (snd (for_each due (run_job env) s)))
  = (refresh_count (output s) + length (refresh_due due))%nat.
Proof.
  revert s. induction due as [|j due IH]; intros s Hjob.
  - simpl. split; [reflexivity|]. split; [exact Hjob|].
    symmetry. apply Nat.add_0_r.
  - assert (fst (run_job env j s) = Ok tt /\
            refresh_due (jobs (snd (run_job env j s))) = [refresh_job] /\
            refresh_count (output (snd (run_job env j s)))
            = (refresh_count (output s) + length (refresh_due [j]))%nat)
      as (Hok & Hjob1 & Hcount1).
    { unfold run_job, refresh_due. simpl.
      destruct (job_do j) as [prayer|].
      - destruct (play_azaan_returns prayer s) as [Hok Hjobs].
        split; [exact Hok|]. split; [rewrite Hjobs; exact Hjob|].
        rewrite (play_azaan_same_refresh_count env prayer s).
        simpl. symmetry. apply Nat.add_0_r.
      - destruct (fetch_and_reschedule_keeps_job s Hjob) as [Hok Hjob1].
        split; [exact Hok|]. split; [exact Hjob1|].
        rewrite fetch_and_reschedule_counted. simpl.
        symmetry. apply Nat.add_1_r. }
    assert (refresh_due (j :: due) = refresh_due [j] ++ refresh_due due)
      as Hsplit.
    { unfold refresh_due. simpl. destruct (job_do j); reflexivity. }
    simpl for_each. unfold bind.
    destruct (run_job env j s) as [[[]|e] s1]; simpl in Hok, Hjob1, Hcount1;
      [|discriminate Hok].
    destruct (IH s1 Hjob1) as (Hok' & Hjob' & Hcount').
    split; [exact Hok'|]. split; [exact Hjob'|].
    rewrite Hcount', Hcount1, Hsplit, length_app. apply eq_sym, Nat.add_assoc.
Qed.

(** One turn of the main loop in real mode. *)
Lemma real_turn (s : State) (due : bool) :
  mock_time (self s) = None ->
  refresh_due (jobs s) = [refresh_job] ->
  (forall js,
     refresh_due (schedule_runnable env js)
     = if due then refresh_due js else []) ->
  fst (loop_iteration env s) = Ok tt /\
  mock_time (self (snd (loop_iteration env s))) = None /\
  refresh_due (jobs (snd (loop_iteration env s))) = [refresh_job] /\
  refresh_count (output (snd (loop_iteration env s)))
  = (refresh_count (output s) + if due then 1 else 0)%nat.
Proof.
  intros Hreal Hjob Hrule.
  destruct (loop_iteration_same_anchor env s) as [Hmock _].
  assert (loop_iteration env s
          = for_each (schedule_runnable env (jobs s)) (run_job env) s) as Heq.
  { unfold loop_iteration, bind at 1, get_self. rewrite Hreal.
    reflexivity. }
  rewrite Heq in *.
  destruct (run_jobs_effect (schedule_runnable env (jobs s)) s Hjob)
    as (Hok & Hjob' & Hcount).
  split; [exact Hok|]. split; [congruence|]. split; [exact Hjob'|].
  rewrite Hcount, Hrule, Hjob. destruct due; reflexivity.
Qed.

End Undisturbed.

(** The main loop in real mode, turn after turn: the refresh is entered at
    the turns at which a 00:01:00 has passed since the turn before. *)
Lemma real_loop_refreshes (envs : list Env) :
  forall (last prev : datetime) (s : State),
    mock_time (self s) = None ->
    refresh_due (jobs s) = [refresh_job] ->
    Forall undisturbed envs ->
    follows_schedule last envs ->
    polled_daily prev envs ->
    refresh_day last = refresh_day prev ->
    fst (for_each envs loop_iteration s) = Ok tt /\
    mock_time (self (snd (for_each envs loop_iteration s))) = None /\
    refresh_due (jobs (snd (for_each envs loop_iteration s)))
      = [refresh_job] /\
    Z.of_nat (refresh_count (output (snd (for_each envs loop_iteration s))))
    = Z.of_nat (refresh_count (output s))
      + (refresh_day (last_poll prev envs) - refresh_day prev).
Proof.
  induction envs as [|env envs IH];
    intros last prev s Hreal Hjob Hcalm Hrule Hclock Hday.
  - simpl. split; [reflexivity|]. split; [exact Hreal|].
    split; [exact Hjob|]. lia.
  - apply Forall_cons in Hcalm as [Hcalm1 Hcalm].
    destruct Hrule as [Hrule1 Hrule]. destruct Hclock as [Hclock1 Hclock].
    destruct (real_turn env Hcalm1 s _ Hreal Hjob Hrule1)
      as (Hok & Hreal1 & Hjob1 & Hcount1).
    simpl for_each. unfold bind.
    destruct (loop_iteration env s) as [[[]|e] s1];
      simpl in Hok, Hreal1, Hjob1, Hcount1; [|discriminate Hok].
    pose proof (refresh_day_mono prev (datetime_now env) (proj1 Hclock1))
      as Hmono.
    pose proof (refresh_day_next prev (datetime_now env) (proj2 Hclock1))
      as Hnext.
    pose proof (refresh_is_due_days last (datetime_now env)) as Hdue.
    destruct (refresh_is_due last (datetime_now env)).
    + destruct (IH (datetime_now env) (datetime_now env) s1
                  Hreal1 Hjob1 Hcalm Hrule Hclock eq_refl)
        as (Hok' & Hreal' & Hjob' & Hcount').
      split; [exact Hok'|]. split; [exact Hreal'|]. split; [exact Hjob'|].
      simpl last_poll. rewrite Hcount', Hcount1.
      pose proof (proj1 Hdue eq_refl). lia.
    + destruct (IH last (datetime_now env) s1
                  Hreal1 Hjob1 Hcalm Hrule Hclock)
        as (Hok' & Hreal' & Hjob' & Hcount').
      { destruct (Z.lt_ge_cases (refresh_day last)
                    (refresh_day (datetime_now env))) as [Hlt|Hge];
          [|lia].
        apply (proj2 Hdue) in Hlt. discriminate Hlt. }
      split; [exact Hok'|]. split; [exact Hreal'|]. split; [exact Hjob'|].
      simpl last_poll. rewrite Hcount', Hcount1.
      assert (refresh_day (datetime_now env) = refresh_day prev) as Hsame.
      { destruct (Z.lt_ge_cases (refresh_day last)
                    (refresh_day (datetime_now env))) as [Hlt|Hge];
          [|lia].
        apply (proj2 Hdue) in Hlt. discriminate Hlt. }
      lia.
Qed.

(** Counts the refreshes in the single lines of a goal. *)
Ltac count_lines :=
  repeat match goal with
         | |- context [refresh_count [?ev]] =>
             let n := eval cbv in (refresh_count [ev]) in
             change (refresh_count [ev]) with n
         end.

Lemma refresh_count_scheduled (table : dict) :
  refresh_count
    (map (fun kv => Print (MsgScheduled (fst kv) (snd kv))) table) = 0%nat.
Proof. induction table as [|kv table IH]; [reflexivity|exact IH]. Qed.

(** A fetch the supplier answers in full stores the table. *)
Lemma fetch_prayer_times_success env s response data table readable :
  requests_get env = Ok response ->
  status_code response = 200 ->
  response_json response = Ok data ->
  read_table data = Ok table ->
  read_readable data = Ok readable ->
  fst (fetch_prayer_times env s) = Ok true /\
  prayer_times (self (snd (fetch_prayer_times env s))) = table.
Proof.
  intros Hget Hstatus Hjson Htable Hdate.
  rewrite fetch_prayer_times_unfold, Hget, Hstatus, Hjson, Htable, Hdate.
  simpl. split; reflexivity.
Qed.

(** What [schedule_prayers] registers when it returns [True], whether the
    table was there or had to be fetched. *)
Lemma schedule_prayers_registered env s :
  (forall t, schedule_at env t = Ok tt) ->
  fst (schedule_prayers env s) = Ok true ->
  jobs (snd (schedule_prayers env s))
  = map prayer_job (prayer_times (self (snd (schedule_prayers env s))))
    ++ [refresh_job].
Proof.
  intros Haccept. rewrite schedule_prayers_unfold.
  destruct (prayer_times (self s)).
  - destruct (fetch_prayer_times env _) as [[[|]|e] s1]; simpl;
      [|discriminate|discriminate].
    intros _. rewrite (register_jobs_effect env Haccept). reflexivity.
  - intros _. rewrite (register_jobs_effect env Haccept). reflexivity.
Qed.

(** [run] on a fresh object in real mode: the table is fetched, the jobs
    are registered at the reading of the clock of the set-up, and the loop
    refreshes at the turns at which a 00:01:00 has passed. *)
Lemma run_real_refreshes env0 envs s response data table readable :
  mock_time (self s) = None ->
  prayer_times (self s) = [] ->
  requests_get env0 = Ok response ->
  status_code response = 200 ->
  response_json response = Ok data ->
  read_table data = Ok table ->
  read_readable data = Ok readable ->
  forallb (fun kv => parses (snd kv)) table = true ->
  (forall t, schedule_at env0 t = Ok tt) ->
  Forall undisturbed envs ->
  follows_schedule (datetime_now env0) envs ->
  polled_daily (datetime_now env0) envs ->
  fst (run env0 envs s) = Ok tt /\
  jobs (snd (run env0 [] s)) = map prayer_job table ++ [refresh_job] /\
  refresh_due (jobs (snd (run env0 envs s))) = [refresh_job] /\
  Z.of_nat (refresh_count (output (snd (run env0 envs s))))
  = Z.of_nat (refresh_count (output s))
    + (refresh_day (last_poll (datetime_now env0) envs)
       - refresh_day (datetime_now env0)).
Proof.
  intros Hreal Hempty Hget Hstatus Hjson Htable Hdate Hparse Haccept
    Hcalm Hrule Hclock.
  set (sp := add_output [Print MsgStarting] s).
  set (sq := add_output [Print MsgNoPrayerTimes] sp).
  destruct (fetch_prayer_times_success env0 sq response data table readable
              Hget Hstatus Hjson Htable Hdate) as [Hfetched Hstored].
  pose proof (fetch_prayer_times_same_anchor env0 sq) as [Hanchor _].
  pose proof (fetch_prayer_times_same_refresh_count env0 sq) as Hquiet.
  assert (exists s1,
            schedule_prayers env0 sp = (Ok true, s1) /\
            prayer_times (self s1) = table /\
            mock_time (self s1) = None /\
            jobs s1 = map prayer_job table ++ [refresh_job] /\
            refresh_count (output s1) = refresh_count (output s))
    as (s1 & Hsched & Htable1 & Hreal1 & Hjobs1 & Hcount1).
  { rewrite schedule_prayers_unfold. simpl. rewrite Hempty. fold sp sq.
    destruct (fetch_prayer_times env0 sq) as [r s1].
    simpl in Hfetched, Hstored, Hanchor, Hquiet. subst r.
    rewrite (register_jobs_effect env0 Haccept). eexists.
    split; [reflexivity|]. simpl.
    split; [exact Hstored|]. split; [rewrite Hanchor; exact Hreal|].
    split; [rewrite Hstored; reflexivity|].
    unfold same_refresh_count in Hquiet.
    rewrite refresh_count_app, Hquiet. subst sq sp. simpl.
    rewrite !refresh_count_app, refresh_count_scheduled.
    count_lines. lia. }
  assert (forall turns,
            run env0 turns s
            = except_KeyboardInterrupt (for_each turns loop_iteration)
                (print MsgStopped)
                (add_output [Print MsgRunning]
                   (snd (print_next (dt_time (datetime_now env0))
                           table s1)))) as Hrun.
  { intros turns. rewrite run_unfold. fold sp. rewrite Hsched.
    assert (get_current_time env0 s1 = (Ok (datetime_now env0), s1)) as ->.
    { unfold get_current_time, bind, get_self. rewrite Hreal1. reflexivity. }
    rewrite Htable1, (print_next_effect _ _ s1 Hparse).
    destruct (first_later _ _) as [[prayer v]|]; reflexivity. }
  set (s2 := add_output [Print MsgRunning]
               (snd (print_next (dt_time (datetime_now env0)) table s1)))
    in Hrun.
  assert (mock_time (self s2) = None /\
          jobs s2 = map prayer_job table ++ [refresh_job] /\
          refresh_count (output s2) = refresh_count (output s))
    as (Hreal2 & Hjobs2 & Hcount2).
  { subst s2. rewrite (print_next_effect _ _ s1 Hparse).
    destruct (first_later _ _) as [[prayer v]|]; simpl;
      (split; [exact Hreal1|]); (split; [exact Hjobs1|]);
      rewrite ?refresh_count_app; count_lines; lia. }
  clearbody s2.
  assert (refresh_due (jobs s2) = [refresh_job]) as Hjob2
    by (rewrite Hjobs2; apply refresh_due_registered).
  destruct (real_loop_refreshes envs (datetime_now env0) (datetime_now env0)
              s2 Hreal2 Hjob2 Hcalm Hrule Hclock eq_refl)
    as (Hok & _ & Hjob' & Hcount').
  rewrite !Hrun. unfold except_KeyboardInterrupt. simpl for_each.
  destruct (for_each envs loop_iteration s2) as [[[]|e] s3];
    simpl in Hok, Hjob', Hcount'; [|discriminate Hok].
  unfold ret. simpl.
  split; [reflexivity|]. split; [exact Hjobs2|]. split; [exact Hjob'|].
  rewrite Hcount', Hcount2. reflexivity.
Qed.

(** C9 (as the code has it).  [schedule_prayers] registers the refresh with
    the scheduler as a daily job at "00:01", after one job per table entry,
    whether the table was there or had to be fetched.  By the rule of the
    schedule library that job is due when a 00:01:00 has passed since it
    was registered or last run.  In real clock mode a turn of the main loop
    runs the scheduler: with nothing interrupting it, the turn enters the
    refresh once if the job is due and not at all otherwise, whatever other
    jobs are due, and one refresh job stays registered, whether the fetch
    succeeds or not.  So for as long as the loop runs, with turns less than
    a day apart, the refresh has been entered once for each 00:01:00 passed
    since the jobs were registered, at the first turn at or after it; and
    so does [run] on a fresh object, from the registration at start-up on.
    In simulated mode, however many turns the loop makes, no refresh is
    entered, no request is sent to the supplier, and the table, its date
    label and the jobs stay as they were. *)
Theorem refresh_runs_in_real_mode_only :
  (forall env s,
     (forall t, schedule_at env t = Ok tt) ->
     (prayer_times (self s) <> [] ->
      fst (schedule_prayers env s) = Ok true /\
      jobs (snd (schedule_prayers env s))
        = map prayer_job (prayer_times (self s)) ++ [refresh_job]) /\
     (fst (schedule_prayers env s) = Ok true ->
      jobs (snd (schedule_prayers env s))
        = map prayer_job (prayer_times (self (snd (schedule_prayers env s))))
          ++ [refresh_job] /\
      refresh_due (jobs (snd (schedule_prayers env s))) = [refresh_job])) /\
  (forall last now,
     refresh_is_due last now = true <->
     exists day, last < combine day REFRESH_TIME <= now) /\
  (forall env s last,
     mock_time (self s) = None ->
     refresh_due (jobs s) = [refresh_job] ->
     undisturbed env ->
     follows_schedule last [env] ->
     fst (loop_iteration env s) = Ok tt /\
     refresh_due (jobs (snd (loop_iteration env s))) = [refresh_job] /\
     refresh_count (output (snd (loop_iteration env s)))
     = (refresh_count (output s)
        + if refresh_is_due last (datetime_now env) then 1 else 0)%nat) /\
  (forall t0 envs s,
     mock_time (self s) = None ->
     refresh_due (jobs s) = [refresh_job] ->
     Forall undisturbed envs ->
     follows_schedule t0 envs ->
     polled_daily t0 envs ->
     fst (for_each envs loop_iteration s) = Ok tt /\
     refresh_due (jobs (snd (for_each envs loop_iteration s)))
       = [refresh_job] /\
     Z.of_nat (refresh_count (output (snd (for_each envs loop_iteration s))))
     = Z.of_nat (refresh_count (output s))
       + (refresh_day (last_poll t0 envs) - refresh_day t0)) /\
  (forall env0 envs s response data table readable,
     mock_time (self s) = None ->
     prayer_times (self s) = [] ->
     requests_get env0 = Ok response ->
     status_code response = 200 ->
     response_json response = Ok data ->
     read_table data = Ok table ->
     read_readable data = Ok readable ->
     forallb (fun kv => parses (snd kv)) table = true ->
     (forall t, schedule_at env0 t = Ok tt) ->
     Forall undisturbed envs ->
     follows_schedule (datetime_now env0) envs ->
     polled_daily (datetime_now env0) envs ->
     fst (run env0 envs s) = Ok tt /\
     jobs (snd (run env0 [] s)) = map prayer_job table ++ [refresh_job] /\
     refresh_due (jobs (snd (run env0 envs s))) = [refresh_job] /\
     Z.of_nat (refresh_count (output (snd (run env0 envs s))))
     = Z.of_nat (refresh_count (output s))
       + (refresh_day (last_poll (datetime_now env0) envs)
          - refresh_day (datetime_now env0))) /\
  (forall envs s,
     mock_time (self s) <> None ->
     no_refresh s (snd (for_each envs loop_iteration s))).
Proof.
  split.
  { intros env s Haccept. split.
    - apply schedule_prayers_registers, Haccept.
    - intros Hok.
      pose proof (schedule_prayers_registered env s Haccept Hok) as Hjobs.
      split; [exact Hjobs|]. rewrite Hjobs. apply refresh_due_registered. }
  split; [exact refresh_is_due_passed|].
  split.
  { intros env s last Hreal Hjob Hcalm [Hrule _].
    destruct (real_turn env Hcalm s _ Hreal Hjob Hrule)
      as (Hok & _ & Hjob' & Hcount).
    split; [exact Hok|]. split; [exact Hjob'|exact Hcount]. }
  split.
  { intros t0 envs s Hreal Hjob Hcalm Hrule Hclock.
    destruct (real_loop_refreshes envs t0 t0 s Hreal Hjob Hcalm Hrule Hclock
                eq_refl) as (Hok & _ & Hjob' & Hcount).
    split; [exact Hok|]. split; [exact Hjob'|exact Hcount]. }
  split; [exact run_real_refreshes|exact mock_loop_no_refresh].
Qed.

(** [real_poll] is an undisturbed environment that follows the rule. *)
Lemma real_poll_undisturbed (last now : datetime) :
  undisturbed (real_poll last now).
Proof.
  unfold undisturbed, real_poll. simpl.
  split; [reflexivity|]. split; [discriminate|]. split; [discriminate|].
  intros response e [= <-]. discriminate.
Qed.

Lemma real_poll_follows (last now : datetime) (js : list Job) :
  refresh_due (schedule_runnable (real_poll last now) js)
  = if refresh_is_due last now then refresh_due js else [].
Proof.
  unfold real_poll. simpl.
  destruct (refresh_is_due last now); [apply refresh_due_idem|reflexivity].
Qed.

Lemma real_poll_cons (last now : datetime) (envs : list Env) :
  follows_schedule (if refresh_is_due last now then now else last) envs ->
  follows_schedule last (real_poll last now :: envs).
Proof. intros H. split; [intros js; apply real_poll_follows|exact H]. Qed.

(** The turns made so far follow the rule, and are less than a day apart,
    when all the turns do. *)
Lemma follows_schedule_take (n : nat) :
  forall last envs,
    follows_schedule last envs -> follows_schedule last (take n envs).
Proof.
  induction n as [|n IH]; intros last [|env envs] H; simpl; try exact I.
  destruct H as [H1 H2]. split; [exact H1|apply IH, H2].
Qed.

Lemma polled_daily_take (n : nat) :
  forall prev envs,
    polled_daily prev envs -> polled_daily prev (take n envs).
Proof.
  induction n as [|n IH]; intros prev [|env envs] H; simpl; try exact I.
  destruct H as [H1 H2]. split; [exact H1|apply IH, H2].
Qed.

(** A fresh object in real mode started at 23:59:00: turns at 00:00:00,
    00:01:00 and 00:02:00 of the next day, and at 00:00:30 and 00:01:30 of
    the day after.  The refresh is entered twice, at 00:01:00 and at
    00:01:30 a day later. *)
Lemma refresh_runs_in_real_mode_only_witness :
  let t0 := clock 738000 23 59 0 in
  let t2 := clock 738001 0 1 0 in
  let t5 := clock 738002 0 1 30 in
  let envs :=
    [real_poll t0 (clock 738001 0 0 0); real_poll t0 t2;
     real_poll t2 (clock 738001 0 2 0); real_poll t2 (clock 738002 0 0 30);
     real_poll t2 t5] in
  let s := state_of (app_of [] JNull None None ∅) in
  let after turns := snd (run (real_poll t0 t0) (take turns envs) s) in
  refresh_count (output (after 1%nat)) = 0%nat /\
  refresh_count (output (after 2%nat)) = 1%nat /\
  refresh_count (output (after 4%nat)) = 1%nat /\
  refresh_count (output (after 5%nat)) = 2%nat.
Proof.
  intros t0 t2 t5 envs s after.
  destruct refresh_runs_in_real_mode_only as (_ & _ & _ & _ & Hrun & _).
  assert (follows_schedule t0 envs) as Hrule.
  { refine (real_poll_cons t0 (clock 738001 0 0 0) _ _).
    refine (real_poll_cons t0 t2 _ _).
    refine (real_poll_cons t2 (clock 738001 0 2 0) _ _).
    refine (real_poll_cons t2 (clock 738002 0 0 30) _ _).
    refine (real_poll_cons t2 t5 _ _). exact I. }
  assert (polled_daily t0 envs) as Hclock.
  { repeat split; vm_compute; first [reflexivity|discriminate]. }
  assert (forall turns,
            Z.of_nat (refresh_count (output (after turns)))
            = refresh_day (last_poll t0 (take turns envs)) - refresh_day t0)
    as Hcount.
  { intros turns.
    destruct (Hrun (real_poll t0 t0) (take turns envs) s
                {| status_code := 200; response_json := Ok sample_payload |}
                sample_payload sample_times (JStr "04 Nov 2026"))
      as (_ & _ & _ & Hcount); try reflexivity.
    - apply Forall_take. repeat constructor; apply real_poll_undisturbed.
    - apply follows_schedule_take, Hrule.
    - apply polled_daily_take, Hclock.
    - exact Hcount. }
  repeat split; apply Nat2Z.inj; rewrite Hcount; vm_compute; reflexivity.
Defined.

(** C9, the claim as stated fails in simulated mode.  An object built with
    the anchor 00:00:58, its table fetched and its jobs registered by
    [run]; the loop turns once a second, the simulated clock passes 00:01,
    and the scheduler would report the refresh job due at every turn: the
    refresh is not entered, and the supplier was asked once, at start. *)
Lemma refresh_runs_in_real_mode_only_counterexample :
  let wall h m sec :=
    env_of (clock 738000 h m sec) (ok_response sample_payload) (Ok tt)
      refresh_due in
  let s0 := snd (init (wall 9 0 0) (Some (clock 738000 0 0 58))
                   (state_of sample_app)) in
  let s := snd (run (wall 9 0 0)
                  [wall 9 0 1; wall 9 0 2; wall 9 0 3; wall 9 0 4] s0) in
  fst (get_current_time (wall 9 0 2) s) = Ok (clock 738000 0 1 0) /\
  refresh_due (jobs s) = [refresh_job] /\
  forallb (fun ev => negb (is_refresh ev)) (output s) = true /\
  length (List.filter (fun ev => match ev with HttpGet => true | _ => false end)
            (output s)) = 1%nat.
Proof. repeat split; vm_compute; reflexivity. Qed.
